(** * economic_dash: a shallow embedding of the core of [app.py]

    The development follows the source file top to bottom: the calendar
    arithmetic of [datetime], the SQLite tables and the queries run on them,
    the rate limiting decorator, the synchronisation of one indicator, the
    change calculations, the value formatter, the health score and the
    cache of recent updates.

    Numeric values are Python floats, that is IEEE 754 binary64 numbers:
    they are embedded as Rocq's primitive floats, whose operations are the
    same ones.  Dates are calendar triples, instants are integers (a number
    of microseconds, the resolution of [datetime]). *)

From Stdlib Require Import ZArith List String Ascii Bool Lia Floats.
From Stdlib Require Import Sorting.Sorted Sorting.Permutation.
Import ListNotations.

Local Open Scope string_scope.
Local Open Scope list_scope.
Local Open Scope Z_scope.

Set Implicit Arguments.
Set Warnings "-inexact-float".
Set Warnings "-notation-overridden".
Set Warnings "-notation-incompatible-prefix".

(* ------------------------------------------------------------------ *)
(** ** Exceptions *)

(** The exceptions that the modelled code can meet. *)
Inductive exn : Type :=
| ValueError
| OverflowError
| TypeError
| JSONDecodeError.

(** A Python computation without side effect: a value or a raised exception. *)
Inductive py (A : Type) : Type :=
| Ret (a : A)
| Raise (e : exn).

Arguments Ret {A} a.
Arguments Raise {A} e.

Definition py_bind {A B : Type} (m : py A) (f : A -> py B) : py B :=
  match m with
  | Ret a => f a
  | Raise e => Raise e
  end.

(* ------------------------------------------------------------------ *)
(** ** Calendar arithmetic ([datetime], dates without time of day) *)

Module Calendar.

(** A date as its ISO text [YYYY-MM-DD] names it. *)
Record Date : Type := mkDate { year : Z; month : Z; day : Z }.

Definition MINYEAR : Z := 1.
Definition MAXYEAR : Z := 9999.

Definition is_leap (y : Z) : bool :=
  (y mod 4 =? 0) && (negb (y mod 100 =? 0) || (y mod 400 =? 0)).

Definition days_in_month (y m : Z) : Z :=
  match m with
  | 1 => 31
  | 2 => if is_leap y then 29 else 28
  | 3 => 31
  | 4 => 30
  | 5 => 31
  | 6 => 30
  | 7 => 31
  | 8 => 31
  | 9 => 30
  | 10 => 31
  | 11 => 30
  | 12 => 31
  | _ => 0
  end.

(** The check of [datetime]'s constructor (and of [strptime]). *)
Definition valid (d : Date) : bool :=
  (MINYEAR <=? year d) && (year d <=? MAXYEAR)
  && (1 <=? month d) && (month d <=? 12)
  && (1 <=? day d) && (day d <=? days_in_month (year d) (month d)).

Definition days_before_year (y : Z) : Z :=
  let y1 := y - 1 in
  y1 * 365 + y1 / 4 - y1 / 100 + y1 / 400.

Definition days_before_month (y m : Z) : Z :=
  match m with
  | 1 => 0
  | 2 => 31
  | 3 => 59
  | 4 => 90
  | 5 => 120
  | 6 => 151
  | 7 => 181
  | 8 => 212
  | 9 => 243
  | 10 => 273
  | 11 => 304
  | 12 => 334
  | _ => 0
  end + (if (2 <? m) && is_leap y then 1 else 0).

(** [date.toordinal]: 0001-01-01 is day 1. *)
Definition toordinal (d : Date) : Z :=
  days_before_year (year d) + days_before_month (year d) (month d) + day d.

(** The ordinal of 9999-12-31. *)
Definition MAXORDINAL : Z := 3652059.

(** [datetime.strptime(text, '%Y-%m-%d')]: the text is given by its three
    fields; a text that names no date raises [ValueError]. *)
Definition strptime (d : Date) : py Date :=
  if valid d then Ret d else Raise ValueError.

(** [dt.replace(year=y)]: [ValueError] when the result is no date. *)
Definition replace_year (d : Date) (y : Z) : py Date :=
  let d' := mkDate y (month d) (day d) in
  if valid d' then Ret d' else Raise ValueError.

(** [dt - timedelta(days=n)] and [dt + timedelta(days=n)], as the day
    number of the result: [OverflowError] outside of the supported years. *)
Definition shift_days (ordinal n : Z) : py Z :=
  let o := ordinal + n in
  if (1 <=? o) && (o <=? MAXORDINAL) then Ret o else Raise OverflowError.

End Calendar.

Import Calendar.

(* ------------------------------------------------------------------ *)
(** ** The table [indicator_data] and its queries *)

Module Store.

(** One row of [indicator_data].  The column [date] holds an ISO text,
    kept here as the date it names; [value] is the number that the
    column [value] holds.  The columns [id] and [created_at] are read by
    no query of the program and are left out. *)
Record Row : Type := mkRow {
  series_id : string;
  date : Date;
  value : float
}.

(** The table: its rows in rowid order.  The rowid is [AUTOINCREMENT], so
    a new row comes last. *)
Definition IndicatorData : Type := list Row.

Definition rows (t : IndicatorData) : list Row := t.

Definition empty : IndicatorData := [].

Definition date_eqb (a b : Date) : bool :=
  (year a =? year b) && (month a =? month b) && (day a =? day b).

(** The order of the ISO texts: year, then month, then day. *)
Definition date_leb (a b : Date) : bool :=
  (year a <? year b)
  || ((year a =? year b)
      && ((month a <? month b)
          || ((month a =? month b) && (day a <=? day b)))).

(** The columns of [UNIQUE(series_id, date)]. *)
Definition same_key (sid : string) (d : Date) (r : Row) : bool :=
  String.eqb (series_id r) sid && date_eqb (date r) d.

(** [INSERT OR REPLACE INTO indicator_data (series_id, date, value)]: the
    row that holds the key, if any, is deleted, then the new row is
    inserted under a fresh rowid. *)
Definition insert_or_replace (sid : string) (d : Date) (v : float)
    (t : IndicatorData) : IndicatorData :=
  filter (fun r => negb (same_key sid d r)) (rows t) ++ [mkRow sid d v].

(** [ORDER BY date]: a stable insertion sort on the text order. *)
Fixpoint insert_by_date (r : Row) (l : list Row) : list Row :=
  match l with
  | [] => [r]
  | x :: l' =>
      if date_leb (date x) (date r) then x :: insert_by_date r l'
      else r :: l
  end.

Definition order_by_date (l : list Row) : list Row :=
  fold_left (fun acc r => insert_by_date r acc) l [].

(** The nearest-date query of the three change calculators:
    [SELECT date, value FROM indicator_data
     WHERE series_id = ? AND date BETWEEN ? AND ?
     ORDER BY ABS(julianday(date) - julianday(?)) LIMIT 1].
    The two bounds and the target are given by their day numbers: the
    order of ISO texts is the order of the days, and the difference of
    two Julian days at midnight is the difference of the day numbers. *)
Record Query : Type := mkQuery {
  q_series : string;
  q_window_start : Z;
  q_window_end : Z;
  q_target : Z
}.

Definition in_window (q : Query) (r : Row) : bool :=
  String.eqb (series_id r) (q_series q)
  && (q_window_start q <=? toordinal (date r))
  && (toordinal (date r) <=? q_window_end q).

Definition distance (q : Query) (r : Row) : Z :=
  Z.abs (toordinal (date r) - q_target q).

(** [ORDER BY ... LIMIT 1] over the rows in the order in which they are
    met: a row of least distance; among several of them the first one
    met. *)
Fixpoint closest (q : Query) (best : option Row) (l : list Row) : option Row :=
  match l with
  | [] => best
  | r :: l' =>
      match best with
      | None => closest q (Some r) l'
      | Some b =>
          if distance q r <? distance q b then closest q (Some r) l'
          else closest q best l'
      end
  end.

(** The rows of the window are met through the index of
    [UNIQUE(series_id, date)], in the order of their dates, whatever
    their rowids: among the rows of least distance the one of the
    earliest date is returned. *)
Definition fetch_nearest (q : Query) (t : IndicatorData) : option Row :=
  closest q None (order_by_date (filter (in_window q) (rows t))).

End Store.

Import Store.

(* ------------------------------------------------------------------ *)
(** ** Reading computations

    A function that reads the database returns a value or raises, and
    leaves behind the list of the queries it ran. *)

Definition db (A : Type) : Type := IndicatorData -> py A * list Query.

Definition db_ret {A : Type} (a : A) : db A := fun _ => (Ret a, []).

Definition db_bind {A B : Type} (m : db A) (f : A -> db B) : db B :=
  fun t =>
    match m t with
    | (Ret a, l) => let (r, l') := f a t in (r, l ++ l')
    | (Raise e, l) => (Raise e, l)
    end.

(** A computation that does not touch the database. *)
Definition db_lift {A : Type} (c : py A) : db A := fun _ => (c, []).

(** [cursor.execute(query); cursor.fetchone()]. *)
Definition db_fetchone (q : Query) : db (option Row) :=
  fun t => (Ret (fetch_nearest q t), [q]).

(** [try: body except Exception: return a]. *)
Definition db_try {A : Type} (body : db A) (handler : exn -> A) : db A :=
  fun t =>
    match body t with
    | (Ret a, l) => (Ret a, l)
    | (Raise e, l) => (Ret (handler e), l)
    end.

Declare Scope db_scope.
Delimit Scope db_scope with db.
Notation "x <- m ;; k" := (db_bind m (fun x => k))
  (at level 61, m at next level, right associativity) : db_scope.
Notation "'ret!' a" := (db_ret a) (at level 60) : db_scope.

(* ------------------------------------------------------------------ *)
(** ** The change calculators *)

Module Change.

Local Open Scope db_scope.

(** The lines that close each of the three calculators: a difference in
    points for a percentage, a relative change in percent otherwise, and
    [None] when the reference value is zero. *)
Definition change_from (format_type : string) (current_value historical_value : float)
    : option float :=
  if String.eqb format_type "percentage" then
    Some (current_value - historical_value)%float
  else if (historical_value =? 0)%float then None
  else Some ((current_value - historical_value) / abs historical_value * 100)%float.

(** The window of fifteen days on each side of the target day. *)
Definition window_query (sid : string) (target : Z) : py Query :=
  py_bind (shift_days target (-15)) (fun window_start =>
  py_bind (shift_days target 15) (fun window_end =>
  Ret (mkQuery sid window_start window_end target))).

(** [calculate_yoy_change]: the whole body stands in a [try] block whose
    handler returns [None]. *)
Definition calculate_yoy_change (current_date : Date) (current_value : float)
    (series_id : option string) (format_type : string) : db (option float) :=
  db_try
    (current_dt <- db_lift (strptime current_date) ;;
     year_ago <- db_lift (replace_year current_dt (year current_dt - 1)) ;;
     match series_id with
     | None => ret! None
     | Some sid =>
         q <- db_lift (window_query sid (toordinal year_ago)) ;;
         result <- db_fetchone q ;;
         match result with
         | None => ret! None
         | Some r => ret! (change_from format_type current_value (value r))
         end
     end)
    (fun _ => None).

(** [calculate_qoq_change]: the same 90 days back, by a subtraction of
    days. *)
Definition calculate_qoq_change (current_date : Date) (current_value : float)
    (series_id : option string) (format_type : string) : db (option float) :=
  db_try
    (current_dt <- db_lift (strptime current_date) ;;
     quarter_ago <- db_lift (shift_days (toordinal current_dt) (-90)) ;;
     match series_id with
     | None => ret! None
     | Some sid =>
         q <- db_lift (window_query sid quarter_ago) ;;
         result <- db_fetchone q ;;
         match result with
         | None => ret! None
         | Some r => ret! (change_from format_type current_value (value r))
         end
     end)
    (fun _ => None).

(** The dictionary [period_days]. *)
Definition period_days (period : string) : option Z :=
  if String.eqb period "3M" then Some 90
  else if String.eqb period "6M" then Some 180
  else if String.eqb period "1Y" then Some 365
  else if String.eqb period "5Y" then Some 1825
  else if String.eqb period "10Y" then Some 3650
  else None.

(** [if series_id:] holds for a string that is not empty. *)
Definition truthy_series (series_id : option string) : option string :=
  match series_id with
  | Some sid => if String.eqb sid "" then None else Some sid
  | None => None
  end.

(** One point of the list [data]: [{'date': ..., 'value': ...}]. *)
Definition Point : Type := (Date * float)%type.

(** The last lines of [calculate_period_change]: first point against
    last point. *)
Definition first_to_last (data : list Point) (format_type : string)
    (current_value : float) : option float :=
  match data with
  | [] => None
  | p :: _ => change_from format_type current_value (snd p)
  end.

(** [calculate_period_change]; it has no [try] block, an exception leaves
    the function. *)
Definition calculate_period_change (data : list Point) (format_type : string)
    (period : string) (series_id : option string) : db (option float) :=
  if (Z.of_nat (List.length data) <? 2) then ret! None
  else
    match last (map Some data) None with
    | None => ret! None
    | Some latest_point =>
        let current_date := fst latest_point in
        let current_value := snd latest_point in
        match truthy_series series_id, period_days period with
        | Some sid, Some n =>
            current_dt <- db_lift (strptime current_date) ;;
            target_date <- db_lift (shift_days (toordinal current_dt) (- n)) ;;
            q <- db_lift (window_query sid target_date) ;;
            result <- db_fetchone q ;;
            match result with
            | Some r => ret! (change_from format_type current_value (value r))
            | None => ret! (first_to_last data format_type current_value)
            end
        | _, _ => ret! (first_to_last data format_type current_value)
        end
    end.

End Change.

Import Change.

(* ------------------------------------------------------------------ *)
(** ** The rate limiting decorator *)

Module RateLimit.

(** Readings of [time.time()], counted in milliseconds. *)
Definition seconds (n : Z) : Z := n * 1000.

(** One run of [wrapper] up to the call of the decorated function, for the
    reading [now] of the clock and the list [calls_made] of the closure:
    the time slept and the list left behind.  [calls_made[0]] is read
    only when the list holds [calls] entries or more; on an empty list
    (which takes [calls <= 0]) it cannot be read. *)
Definition wrapper (calls period : Z) (now : Z) (calls_made : list Z)
    : option (Z * list Z) :=
  let calls_made := filter (fun call_time => now - call_time <? period) calls_made in
  if Z.of_nat (List.length calls_made) >=? calls then
    match calls_made with
    | [] => None
    | oldest :: _ =>
        let sleep_time := period - (now - oldest) in
        if sleep_time >? 0 then Some (sleep_time, [] ++ [now])
        else Some (0, calls_made ++ [now])
    end
  else Some (0, calls_made ++ [now]).

(** The decorator as it is applied to [fetch_fred_data]. *)
Definition fetch_limiter : Z -> list Z -> option (Z * list Z) :=
  wrapper 120 (seconds 60).

(** A caller that issues calls one after the other: before each call it
    stays idle for the given time, then enters [wrapper]; the decorated
    function starts when the sleep (if any) is over.  The result lists
    the instants at which the decorated function was started. *)
Fixpoint run (limiter : Z -> list Z -> option (Z * list Z))
    (clock : Z) (calls_made : list Z) (idle : list Z) : option (list Z) :=
  match idle with
  | [] => Some []
  | gap :: idle' =>
      let now := clock + gap in
      match limiter now calls_made with
      | None => None
      | Some (sleep_time, calls_made') =>
          let started := now + sleep_time in
          match run limiter started calls_made' idle' with
          | None => None
          | Some l => Some (started :: l)
          end
      end
  end.

(** The number of calls started in the span [[from, from + width)]. *)
Definition started_within (from width : Z) (starts : list Z) : Z :=
  Z.of_nat (List.length
    (filter (fun t => (from <=? t) && (t <? from + width)) starts)).

End RateLimit.

(* ------------------------------------------------------------------ *)
(** ** Synchronising one indicator *)

Module Sync.

(** Instants ([datetime.now()], the column [last_updated]) are counted in
    microseconds; day [n] of the calendar starts at [days n]. *)
Definition hours (n : Z) : Z := n * 3600 * 1000000.
Definition days (n : Z) : Z := n * 24 * 3600 * 1000000.
Definition day_of (instant : Z) : Z := instant / days 1.

(** One row of [api_metadata]. *)
Record MetaRow : Type := mkMeta {
  meta_series : string;
  last_updated : Z;
  frequency : string;
  units : string;
  title : string
}.

Definition ApiMetadata : Type := list MetaRow.

(** [SELECT last_updated FROM api_metadata WHERE series_id = ?], then
    [fetchone]. *)
Definition select_last_updated (sid : string) (m : ApiMetadata) : option Z :=
  match find (fun r => String.eqb (meta_series r) sid) m with
  | Some r => Some (last_updated r)
  | None => None
  end.

(** [INSERT OR REPLACE INTO api_metadata]: [series_id] is the primary key. *)
Definition replace_meta (r : MetaRow) (m : ApiMetadata) : ApiMetadata :=
  filter (fun x => negb (String.eqb (meta_series x) (meta_series r))) m ++ [r].

(** One observation of the provider: its date and the text of its value. *)
Record Observation : Type := mkObs {
  obs_date : Date;
  obs_value : string
}.

(** The fields of the provider's metadata that are stored; [get] has put
    the empty text where one was absent. *)
Record SeriesInfo : Type := mkInfo {
  info_frequency : string;
  info_units : string;
  info_title : string
}.

(** The dictionary returned by [fetch_fred_data]. *)
Inductive FredData : Type :=
| FredSuccess (observations : list Observation) (metadata : SeriesInfo)
| FredFailure (error : string).

(** The provider: what [fetch_fred_data series_id start_date] returns.
    The start date is the day number of the text passed. *)
Definition Remote : Type := string -> option Z -> FredData.

(** A call of [fetch_fred_data]. *)
Record FetchCall : Type := mkFetch {
  fetch_series : string;
  fetch_start : option Z
}.

(** The two tables that [update_indicator_data] works on. *)
Record Database : Type := mkDatabase {
  indicator_data : IndicatorData;
  api_metadata : ApiMetadata
}.

(** What the column [value REAL] gives back of a number written to it:
    the number itself, but for the negative zero, which comes back as
    [0.0].  A float that is not a number is written as NULL, which a row
    of the model cannot hold: what is stated of a stored value is stated
    of numbers. *)
Definition real_column (v : float) : float :=
  if (v =? 0)%float then 0%float else v.

(** The loop that stores the observations.  [float_of] is Python's
    [float] on the text of a value: [None] when it raises [ValueError] or
    [TypeError], in which case the observation is skipped. *)
Definition store_observations (float_of : string -> option float)
    (sid : string) (observations : list Observation) (t : IndicatorData)
    : IndicatorData :=
  fold_left
    (fun t obs =>
       if String.eqb (obs_value obs) "." then t
       else
         match float_of (obs_value obs) with
         | Some v => insert_or_replace sid (obs_date obs) (real_column v) t
         | None => t
         end)
    observations t.

(** [update_indicator_data], run when the clock reads [now] (and
    [now_stored] when the metadata are written): the value returned, the
    database after the commit, and the calls of [fetch_fred_data]. *)
Definition update_indicator_data (float_of : string -> option float)
    (remote : Remote) (now now_stored : Z)
    (series_id : string) (force_update : bool) (st : Database)
    : bool * Database * list FetchCall :=
  let result := select_last_updated series_id (api_metadata st) in
  let recently :=
    match result with
    | Some last => negb force_update && (now - last <? hours 12)
    | None => false
    end in
  if recently then (true, st, [])
  else
    let start_date :=
      match result with
      | Some last => if negb force_update then Some (day_of (last - days 7)) else None
      | None => None
      end in
    match remote series_id start_date with
    | FredFailure _ => (false, st, [mkFetch series_id start_date])
    | FredSuccess observations metadata =>
        let data := store_observations float_of series_id observations (indicator_data st) in
        let meta :=
          replace_meta
            (mkMeta series_id now_stored (info_frequency metadata)
               (info_units metadata) (info_title metadata))
            (api_metadata st) in
        (true, mkDatabase data meta, [mkFetch series_id start_date])
    end.

(** [get_indicator_data]: the points of a series in the order of their
    dates, from the cutoff on when [days_back] is given (and not zero). *)
Definition get_indicator_data (now : Z) (series_id : string) (days_back : option Z)
    (t : IndicatorData) : py (list Point) :=
  let of_series := filter (fun r => String.eqb (Store.series_id r) series_id) (rows t) in
  let selected :=
    match days_back with
    | Some n =>
        if n =? 0 then Ret of_series
        else
          py_bind (shift_days (day_of now) (- n)) (fun cutoff_date =>
          Ret (filter (fun r => cutoff_date <=? toordinal (date r)) of_series))
    | None => Ret of_series
    end in
  py_bind selected (fun l =>
  Ret (map (fun r => (date r, value r)) (order_by_date l))).

End Sync.

(* ------------------------------------------------------------------ *)
(** ** Formatting values *)

Module Format.

(** [num / den] rounded to the nearest integer, a tie going to the even
    one: the rounding of the format specification [f] on the exact value
    of a float. *)
Definition round_half_even (num den : N) : N :=
  let q := (num / den)%N in
  let r := (num mod den)%N in
  match (2 * r ?= den)%N with
  | Lt => q
  | Gt => (q + 1)%N
  | Eq => if N.even q then q else (q + 1)%N
  end.

(** The number of tenths nearest to [m * 2^e]. *)
Definition tenths (m : positive) (e : Z) : N :=
  match e with
  | Zneg p => round_half_even (Npos m * 10) (2 ^ Npos p)
  | _ => (Npos m * 2 ^ Z.to_N e * 10)%N
  end.

Definition digit (n : N) : ascii := ascii_of_N (48 + n).

(** The decimal digits of [n], the last one first; [fuel] bounds their
    number. *)
Fixpoint digits_rev (fuel : nat) (n : N) : list ascii :=
  match fuel with
  | O => []
  | S fuel' =>
      if (n <? 10)%N then [digit n]
      else digit (n mod 10) :: digits_rev fuel' (n / 10)
  end.

(** A comma after every third digit, counted from the right (the option
    [,] of the format specification). *)
Fixpoint group_rev (grouped : bool) (k : nat) (l : list ascii) : list ascii :=
  match l with
  | [] => []
  | c :: l' =>
      match k with
      | 3%nat => if grouped then ","%char :: c :: group_rev grouped 1 l'
                 else c :: group_rev grouped 1 l'
      | _ => c :: group_rev grouped (S k) l'
      end
  end.

Definition integer_text (grouped : bool) (n : N) : string :=
  string_of_list_ascii
    (rev (group_rev grouped 0 (digits_rev (S (N.to_nat (N.log2 n))) n))).

(** [f"{x:,.1f}"] when [grouped], [f"{x:.1f}"] otherwise. *)
Definition format_1f (grouped : bool) (x : float) : string :=
  match Prim2SF x with
  | S754_nan => "nan"
  | S754_infinity s => if s then "-inf" else "inf"
  | S754_zero s => if s then "-0.0" else "0.0"
  | S754_finite s m e =>
      let t := tenths m e in
      (if s then "-" else "")
      ++ integer_text grouped (t / 10)
      ++ "."
      ++ String (digit (t mod 10)) ""
  end.

Definition unit_is (unit : option string) (name : string) : bool :=
  match unit with
  | Some u => String.eqb u name
  | None => false
  end.

(** [format_value]; no statement of its [try] block can raise on a float. *)
Definition format_value (value : option float) (format_type : string)
    (unit : option string) : string :=
  match value with
  | None => "N/A"
  | Some value =>
      if String.eqb format_type "currency" then
        if unit_is unit "billions" then
          if (1000 <=? abs value)%float then
            "$" ++ format_1f true (value / 1000)%float ++ "T"
          else "$" ++ format_1f true value ++ "B"
        else if unit_is unit "millions" then
          if (1000000 <=? abs value)%float then
            "$" ++ format_1f true (value / 1000000)%float ++ "T"
          else if (1000 <=? abs value)%float then
            "$" ++ format_1f true (value / 1000)%float ++ "B"
          else "$" ++ format_1f true value ++ "M"
        else
          if (1000000000000 <=? abs value)%float then
            "$" ++ format_1f true (value / 1000000000000)%float ++ "T"
          else if (1000000000 <=? abs value)%float then
            "$" ++ format_1f true (value / 1000000000)%float ++ "B"
          else if (1000000 <=? abs value)%float then
            "$" ++ format_1f true (value / 1000000)%float ++ "M"
          else if (1000 <=? abs value)%float then
            "$" ++ format_1f true (value / 1000)%float ++ "K"
          else "$" ++ format_1f true value
      else if String.eqb format_type "percentage" then
        format_1f false value ++ "%"
      else if String.eqb format_type "number" then
        if unit_is unit "thousands" then
          if (1000000 <=? abs value)%float then
            format_1f true (value / 1000000)%float ++ "B"
          else if (1000 <=? abs value)%float then
            format_1f true (value / 1000)%float ++ "M"
          else format_1f true value ++ "K"
        else if unit_is unit "millions" then
          if (1000000 <=? abs value)%float then
            format_1f true (value / 1000000)%float ++ "T"
          else if (1000 <=? abs value)%float then
            format_1f true (value / 1000)%float ++ "B"
          else format_1f true value ++ "M"
        else if unit_is unit "billions" then
          if (1000 <=? abs value)%float then
            format_1f true (value / 1000)%float ++ "T"
          else format_1f true value ++ "B"
        else
          let abs_value := abs value in
          if (1000000000000 <=? abs_value)%float then
            format_1f true (value / 1000000000000)%float ++ "T"
          else if (1000000000 <=? abs_value)%float then
            format_1f true (value / 1000000000)%float ++ "B"
          else if (1000000 <=? abs_value)%float then
            format_1f true (value / 1000000)%float ++ "M"
          else if (1000 <=? abs_value)%float then
            format_1f true (value / 1000)%float ++ "K"
          else format_1f true value
      else format_1f true value
  end.

End Format.

(* ------------------------------------------------------------------ *)
(** ** The health score of one indicator *)

Module Health.

(** The truth value of [yoy_change] in a condition: [None] and zero are
    false, any other float is true. *)
Definition truthy (yoy_change : option float) : bool :=
  match yoy_change with
  | Some y => negb (y =? 0)%float
  | None => false
  end.

(** [yoy_change and yoy_change > bound]. *)
Definition truthy_above (yoy_change : option float) (bound : float) : bool :=
  match yoy_change with
  | Some y => negb (y =? 0)%float && (bound <? y)%float
  | None => false
  end.

Definition is_in (series_id : string) (l : list string) : bool :=
  existsb (String.eqb series_id) l.

(** [analyze_indicator_health]; the arguments [three_year_avg] and
    [config] are not read.  On floats no statement of the [try] block
    raises. *)
Definition analyze_indicator_health (series_id : string) (current_value : float)
    (yoy_change : option float) (three_year_avg ten_year_avg : float) : float :=
  if String.eqb series_id "UNRATE" then
    if (current_value <=? 4.0)%float then 0.9%float
    else if (current_value <=? 6.0)%float then 0.6%float
    else 0.2%float
  else if is_in series_id ["PAYEMS"; "JTSJOL"] then
    if truthy_above yoy_change 2 then 0.8%float
    else if truthy_above yoy_change 0 then 0.6%float
    else 0.3%float
  else if is_in series_id ["CPIAUCSL"; "CPILFESL"; "PCEPI"; "PCEPILFE"] then
    match yoy_change with
    | Some y =>
        if truthy yoy_change then
          if (1.5 <=? y)%float && (y <=? 2.5)%float then 0.9%float
          else if (1.0 <=? y)%float && (y <=? 3.0)%float then 0.7%float
          else if (y <? 0)%float then 0.2%float
          else 0.4%float
        else 0.5%float
    | None => 0.5%float
    end
  else if String.eqb series_id "GDPC1" then
    if truthy_above yoy_change 3 then 0.9%float
    else if truthy_above yoy_change 1 then 0.7%float
    else if truthy_above yoy_change 0 then 0.5%float
    else 0.2%float
  else
    if (ten_year_avg * 1.1 <? current_value)%float then 0.7%float
    else if (ten_year_avg * 0.9 <? current_value)%float then 0.6%float
    else 0.4%float.

End Health.

(* ------------------------------------------------------------------ *)
(** ** The cache of recent updates *)

Module Cache.

Import Sync.

(** One row of [recent_updates_cache]; [created_at] holds the instant
    that its ISO text names. *)
Record Snapshot : Type := mkSnapshot {
  cache_id : Z;
  cache_data : string;
  created_at : Z
}.

(** The table: the list of its rows. *)
Definition CacheTable : Type := list Snapshot.

(** The order of the rows that [ORDER BY created_at DESC] returns: the
    later [created_at] first, and among rows of the same [created_at]
    the lower rowid first. *)
Definition comes_before (x r : Snapshot) : bool :=
  (created_at r <? created_at x)
  || ((created_at r =? created_at x) && (cache_id x <=? cache_id r)).

(** [ORDER BY created_at DESC]. *)
Fixpoint insert_newest (r : Snapshot) (l : list Snapshot) : list Snapshot :=
  match l with
  | [] => [r]
  | x :: l' =>
      if comes_before x r then x :: insert_newest r l'
      else r :: l
  end.

Definition newest_first (t : CacheTable) : list Snapshot :=
  fold_right insert_newest [] t.

(** The largest rowid there is. *)
Definition MAX_ROWID : Z := 9223372036854775807.

(** The rowid given to a row inserted without one: one more than the
    largest rowid of the table, as long as that one is below
    [MAX_ROWID]. *)
Definition next_id (t : CacheTable) : Z :=
  fold_right (fun r acc => Z.max (cache_id r) acc) 0 t + 1.

(** [DELETE FROM recent_updates_cache WHERE id NOT IN
     (SELECT id FROM recent_updates_cache ORDER BY created_at DESC LIMIT 5)]. *)
Definition delete_old (t : CacheTable) : CacheTable :=
  let kept := map cache_id (firstn 5 (newest_first t)) in
  filter (fun r => existsb (Z.eqb (cache_id r)) kept) t.

Section WithJson.

(** The type of one update summary, with [json.dumps] and [json.loads]
    on lists of them. *)
Variable Update : Type.
Variable dumps : list Update -> py string.
Variable loads : string -> py (list Update).

(** [save_recent_updates_cache]: the old rows are deleted, then the new
    snapshot is inserted and the transaction committed.  When an
    exception is raised nothing is committed. *)
Definition save_recent_updates_cache (now : Z) (updates_data : list Update)
    (t : CacheTable) : CacheTable :=
  let t' := delete_old t in
  match dumps updates_data with
  | Ret cache_json => t' ++ [mkSnapshot (next_id t') cache_json now]
  | Raise _ => t
  end.

(** [get_cached_recent_updates]. *)
Definition get_cached_recent_updates (now : Z) (t : CacheTable)
    : option (list Update) :=
  match newest_first t with
  | [] => None
  | result :: _ =>
      if now - created_at result <? hours 12 then
        match loads (cache_data result) with
        | Ret l => Some l
        | Raise _ => None
        end
      else None
  end.

(** [get_recent_updates_from_fred]: [body] is the outcome of the
    statements of its [try] block (the fetches, the sort and the
    slice); an exception raised there is caught and the empty list
    returned. *)
Definition get_recent_updates_from_fred (body : py (list Update))
    : py (list Update) :=
  match body with
  | Ret l => Ret l
  | Raise _ => Ret []
  end.

Definition is_empty (l : list Update) : bool :=
  match l with
  | [] => true
  | _ => false
  end.

(** [get_recent_updates_with_cache]: the list returned and the table it
    leaves.  [now] is the clock when the cache is read, [now_saved]
    when a snapshot is saved. *)
Definition get_recent_updates_with_cache (now now_saved : Z)
    (body : py (list Update)) (t : CacheTable)
    : list Update * CacheTable :=
  let cached_data := get_cached_recent_updates now t in
  match cached_data with
  | Some (u :: l) => (u :: l, t)
  | _ =>
      match get_recent_updates_from_fred body with
      | Ret fresh_updates =>
          if is_empty fresh_updates then (fresh_updates, t)
          else (fresh_updates, save_recent_updates_cache now_saved fresh_updates t)
      | Raise _ =>
          match newest_first t with
          | result :: _ =>
              match loads (cache_data result) with
              | Ret l => (l, t)
              | Raise _ => ([], t)
              end
          | [] => ([], t)
          end
      end
  end.

End WithJson.

End Cache.

(* ------------------------------------------------------------------ *)
(** ** Fetching a series from the provider *)

Module Fred.

Import Sync Format.

(** An exception raised inside [fetch_fred_data], named by the first of
    the four handlers that catches it; the last two carry [str(e)]. *)
Inductive Caught : Type :=
| Timeout
| ConnectionError
| RequestException (text : string)
| OtherException (text : string).

(** The two endpoints, [/series] and [/series/observations]. *)
Inductive Endpoint : Type :=
| Series
| SeriesObservations.

(** A request: its endpoint and its parameters [series_id] and
    [observation_start].  The parameters [api_key] and [file_type] are
    the same in every request. *)
Record Request : Type := mkRequest {
  endpoint : Endpoint;
  req_series_id : string;
  observation_start : option Z
}.

(** The JSON object of a response, as far as it is read: whether it has
    the key [error_code], and what it holds under [error_message],
    [seriess] and [observations], if anything. *)
Record Body : Type := mkBody {
  has_error_code : bool;
  error_message : option string;
  seriess : option (list SeriesInfo);
  observations : option (list Observation)
}.

(** A response: its status and what [response.json()] returns or raises. *)
Record Response : Type := mkResponse {
  status_code : Z;
  json : (Caught + Body)%type
}.

(** The network: what [requests.get] returns or raises. *)
Definition Http : Type := Request -> (Caught + Response)%type.

(** [str] of an integer. *)
Definition str_int (n : Z) : string :=
  (if n <? 0 then "-" else "") ++ integer_text false (Z.abs_N n).

(** The four [except] clauses. *)
Definition handler (e : Caught) : FredData :=
  match e with
  | Timeout => FredFailure "Request timeout - FRED API may be slow"
  | ConnectionError => FredFailure "Connection error - check internet connection"
  | RequestException text => FredFailure ("Request error: " ++ text)
  | OtherException text => FredFailure ("Unexpected error: " ++ text)
  end.

(** [d.get(key, default)], for the value [o] that [d] holds under [key]. *)
Definition get_default {A : Type} (o : option A) (default : A) : A :=
  match o with
  | Some a => a
  | None => default
  end.

(** [fetch_fred_data] below its decorator: the dictionary returned and
    the requests sent.  [start_date] is given by its day number, as in
    [Remote].  An empty list under [seriess] makes [[0]] raise
    [IndexError]. *)
Definition fetch_fred_data (http : Http) (series_id : string)
    (start_date : option Z) : FredData * list Request :=
  let meta_request := mkRequest Series series_id None in
  match http meta_request with
  | inl e => (handler e, [meta_request])
  | inr meta_response =>
      if negb (status_code meta_response =? 200) then
        (FredFailure ("HTTP " ++ str_int (status_code meta_response)
                      ++ ": Failed to get series metadata"),
         [meta_request])
      else
        match json meta_response with
        | inl e => (handler e, [meta_request])
        | inr meta_data =>
            if has_error_code meta_data then
              (FredFailure (get_default (error_message meta_data) "FRED API error"),
               [meta_request])
            else
              match get_default (seriess meta_data) [mkInfo "" "" ""] with
              | [] => (handler (OtherException "list index out of range"),
                       [meta_request])
              | metadata :: _ =>
                  let obs_request :=
                    mkRequest SeriesObservations series_id start_date in
                  match http obs_request with
                  | inl e => (handler e, [meta_request; obs_request])
                  | inr response =>
                      if negb (status_code response =? 200) then
                        (FredFailure ("HTTP " ++ str_int (status_code response)
                                      ++ ": Failed to get observations"),
                         [meta_request; obs_request])
                      else
                        match json response with
                        | inl e => (handler e, [meta_request; obs_request])
                        | inr data =>
                            if has_error_code data then
                              (FredFailure
                                 (get_default (error_message data) "FRED API error"),
                               [meta_request; obs_request])
                            else
                              (FredSuccess (get_default (observations data) [])
                                 metadata,
                               [meta_request; obs_request])
                        end
                  end
              end
        end
  end.

(** The provider that [update_indicator_data] sees over a network. *)
Definition remote_over (http : Http) : Remote :=
  fun series_id start_date => fst (fetch_fred_data http series_id start_date).

End Fred.

(* ------------------------------------------------------------------ *)
(** ** The catalogue of indicators *)

Module Catalog.

(** The configuration of one indicator. *)
Record Config : Type := mkConfig {
  cfg_name : string;
  cfg_description : string;
  cfg_unit : string;
  cfg_format : string
}.

(** The dictionary [INDICATORS]: the sections in their order, each with
    its indicators in their order. *)
Definition INDICATORS : list (string * list (string * Config)) :=
  [
   ("LABOR MARKET",
     [
      ("UNRATE",
       mkConfig "Unemployment Rate"
         "The percentage of the labor force that is unemployed and actively seeking employment."
         "percent" "percentage");
      ("PAYEMS",
       mkConfig "Nonfarm Payrolls"
         "The total number of paid employees in the U.S. excluding farm workers, government employees, and employees of nonprofits."
         "thousands" "number");
      ("CIVPART",
       mkConfig "Labor Force Participation Rate"
         "The percentage of the working-age population that is either employed or actively looking for work."
         "percent" "percentage");
      ("ICSA",
       mkConfig "Initial Jobless Claims"
         "The number of first-time claims for unemployment insurance, indicating the pace of layoffs in the economy."
         "number" "number");
      ("JTSJOL",
       mkConfig "Job Openings"
         "The total number of job openings available, indicating labor demand and economic strength."
         "thousands" "number");
      ("CES0500000003",
       mkConfig "Average Hourly Earnings"
         "The average hourly wage for all employees on private nonfarm payrolls, indicating wage growth trends."
         "dollars" "currency")]);
   ("INFLATION",
     [
      ("CPIAUCSL",
       mkConfig "Consumer Price Index (CPI)"
         "Measures the average change in prices paid by consumers for goods and services over time."
         "index" "number");
      ("CPILFESL",
       mkConfig "Core CPI"
         "CPI excluding food and energy prices, providing a clearer view of underlying inflation trends."
         "index" "number");
      ("PCEPI",
       mkConfig "Personal Consumption Expenditures Price Index (PCE)"
         "The Federal Reserve's preferred inflation measure, tracking price changes in consumer spending."
         "index" "number");
      ("PCEPILFE",
       mkConfig "Core PCE Price Index"
         "PCE excluding food and energy, used by the Fed to guide monetary policy decisions."
         "index" "number");
      ("PPIACO",
       mkConfig "Producer Price Index (PPI)"
         "Measures the average change in selling prices received by producers for their output."
         "index" "number")]);
   ("OUTPUT & GROWTH",
     [
      ("GDPC1",
       mkConfig "Real Gross Domestic Product (GDP)"
         "The total value of all goods and services produced, adjusted for inflation."
         "billions" "currency");
      ("INDPRO",
       mkConfig "Industrial Production Index"
         "Measures the real output of manufacturing, mining, and electric and gas utilities sectors."
         "index" "number");
      ("TCU",
       mkConfig "Capacity Utilization"
         "The percentage of total industrial capacity currently being utilized in production."
         "percent" "percentage");
      ("TSIFRGHT",
       mkConfig "Freight Transportation Services Index"
         "Measures the volume of freight movement across the U.S. and signals trends in industrial activity and supply chain demand."
         "index" "number");
      ("RSAFS",
       mkConfig "Retail Sales"
         "The total receipts of retail stores, indicating consumer spending strength."
         "millions" "currency");
      ("TOTALSA",
       mkConfig "Auto Sales"
         "Total vehicle sales in the U.S., a key indicator of consumer confidence and economic health."
         "millions" "number")]);
   ("HOUSING & CONSTRUCTION",
     [
      ("HOUST",
       mkConfig "Housing Starts"
         "The number of new residential construction projects begun, indicating housing market strength."
         "thousands" "number");
      ("PERMIT",
       mkConfig "Building Permits"
         "Permits issued for new construction, a leading indicator of housing activity."
         "thousands" "number");
      ("HSN1F",
       mkConfig "New Home Sales"
         "The number of newly built homes sold, reflecting housing demand and economic health."
         "thousands" "number");
      ("EXHOSLUSM495S",
       mkConfig "Existing Home Sales"
         "The number of previously owned homes sold, indicating overall housing market activity."
         "number" "number");
      ("CSUSHPINSA",
       mkConfig "Case-Shiller Home Price Index"
         "Tracks changes in home prices across major U.S. metropolitan areas."
         "index" "number")]);
   ("MONETARY POLICY & BANKING",
     [
      ("FEDFUNDS",
       mkConfig "Effective Federal Funds Rate"
         "The interest rate at which banks lend to each other overnight, set by the Federal Reserve."
         "percent" "percentage");
      ("GS10",
       mkConfig "10-Year Treasury Yield"
         "The yield on 10-year U.S. Treasury bonds, a benchmark for long-term interest rates."
         "percent" "percentage");
      ("MPRIME",
       mkConfig "Bank Prime Loan Rate"
         "The interest rate banks charge their most creditworthy customers."
         "percent" "percentage");
      ("M2SL",
       mkConfig "M2 Money Supply"
         "The total amount of money in circulation including cash, checking deposits, and savings."
         "billions" "currency");
      ("WALCL",
       mkConfig "Total Assets of the Federal Reserve"
         "The total assets on the Federal Reserve's balance sheet, indicating monetary policy stance."
         "millions" "currency");
      ("GFDEGDQ188S",
       mkConfig "Total Public Debt As % Of GDP"
         "The total federal debt as a percentage of total GDP, assessing the country's financial sustainability."
         "percent" "percentage")]);
   ("CREDIT & LENDING",
     [
      ("TOTALSL",
       mkConfig "Total Consumer Credit Outstanding"
         "The total amount of consumer credit outstanding, including credit cards and auto loans."
         "millions" "currency");
      ("DRCLACBS",
       mkConfig "Delinquency Rate on Consumer Loans"
         "The percentage of consumer loans that are delinquent, indicating credit quality."
         "percent" "percentage")]);
   ("TRADE & EXTERNAL SECTOR",
     [
      ("NETEXP",
       mkConfig "Net Exports (Trade Balance)"
         "The difference between exports and imports, indicating trade competitiveness."
         "billions" "currency");
      ("IEABC",
       mkConfig "Current Account Balance"
         "The balance of trade, net income, and net current transfers with the rest of the world."
         "millions" "currency")]);
   ("CORPORATE & INVESTMENT",
     [
      ("CPATAX",
       mkConfig "Corporate Profits After Tax"
         "Total after-tax profits of U.S. corporations, indicating business profitability."
         "billions" "currency");
      ("ISRATIO",
       mkConfig "Inventory-to-Sales Ratio"
         "The ratio of business inventories to sales, indicating supply chain efficiency and demand."
         "ratio" "number");
      ("GPDI",
       mkConfig "Gross Private Domestic Investment"
         "Business investment in equipment, structures, and inventories, indicating economic confidence."
         "billions" "currency");
      ("BOGZ1FA105050005Q",
       mkConfig "Nonfinancial Corporate Business CapEx"
         "Reflects investment by nonfinancial corporations in long-term assets like property, plant, equipment, and software, indicating future productivity."
         "millions" "currency")]);
   ("SENTIMENT & LEADING INDICATORS",
     [
      ("UMCSENT",
       mkConfig "University of Michigan Consumer Sentiment"
         "A measure of consumer confidence and expectations about the economy."
         "index" "number");
      ("ATLSBUSRGEP",
       mkConfig "Business Expectations of Sales Revenue Growth"
         "Survey-based indicator measuring firms’ projections for their own sales revenue growth over the next 12 months."
         "percent" "percentage");
      ("T10Y3M",
       mkConfig "Treasury Yield Curve Spread (10Y - 3M)"
         "The spread between 10-year and 3-month Treasury yields, often used to predict recessions."
         "percent" "percentage");
      ("BAMLC0A1CAAA",
       mkConfig "ICE BofA AAA Corporate Index Spread (AAA - 10Y) "
         "The spread between AAA corporate bond and 10-year Treasury yields, often used as an indicator for investor outlook on credit risk."
         "percent" "percentage")])].

(** The series of the catalogue, in the order in which the two nested
    loops over [INDICATORS] meet them. *)
Definition all_indicators : list (string * Config) :=
  flat_map snd INDICATORS.

Definition all_series : list string := map fst all_indicators.

End Catalog.

(* ------------------------------------------------------------------ *)
(** ** The initial load ([scripts/initial_data_load.py]) *)

Module Loader.

Import Sync Catalog.

(** The loop of [load_all_indicators] over a list of series: a forced
    synchronisation of each, whatever the one before returned.  The
    result lists what each call returned, the database left behind and
    the calls of [fetch_fred_data].  [clock series_id] is the reading of
    the clock while that series is synchronised. *)
Fixpoint load_series (float_of : string -> option float) (remote : Remote)
    (clock : string -> Z) (series : list string) (st : Database)
    : list (string * bool) * Database * list FetchCall :=
  match series with
  | [] => ([], st, [])
  | series_id :: rest =>
      let '(success, st1, calls) :=
        update_indicator_data float_of remote (clock series_id) (clock series_id)
          series_id true st in
      let '(log, st2, calls') := load_series float_of remote clock rest st1 in
      ((series_id, success) :: log, st2, calls ++ calls')
  end.

(** [load_all_indicators]; [init_db] creates the tables only where they
    do not exist and leaves their rows. *)
Definition load_all_indicators (float_of : string -> option float)
    (remote : Remote) (clock : string -> Z) (st : Database)
    : list (string * bool) * Database * list FetchCall :=
  load_series float_of remote clock all_series st.

End Loader.

(* ------------------------------------------------------------------ *)
(** ** Recent updates *)

Module Recent.

Import Sync Format Catalog.

(** The number of hundredths nearest to [m * 2^e]. *)
Definition hundredths (m : positive) (e : Z) : N :=
  match e with
  | Zneg p => round_half_even (Npos m * 100) (2 ^ Npos p)
  | _ => (Npos m * 2 ^ Z.to_N e * 100)%N
  end.

(** [f"{x:.2f}"]. *)
Definition format_2f (x : float) : string :=
  match Prim2SF x with
  | S754_nan => "nan"
  | S754_infinity s => if s then "-inf" else "inf"
  | S754_zero s => if s then "-0.00" else "0.00"
  | S754_finite s m e =>
      let h := hundredths m e in
      (if s then "-" else "")
      ++ integer_text false (h / 100)
      ++ "."
      ++ String (digit ((h / 10) mod 10)) (String (digit (h mod 10)) "")
  end.

(** [format_change]; on a float no statement of its [try] block raises. *)
Definition format_change (change : option float) (format_type : string)
    : string :=
  match change with
  | None => "N/A"
  | Some change =>
      if String.eqb format_type "percentage" then
        let sign := if (0 <? change)%float then "+" else "" in
        sign ++ format_2f change ++ "pp"
      else
        let sign := if (0 <? change)%float then "+" else "" in
        sign ++ format_2f change ++ "%"
  end.

(** One entry of the list of recent updates. *)
Record Update : Type := mkUpdate {
  u_series_id : string;
  u_name : string;
  latest_value : string;
  yoy_change : string;
  qoq_change : string;
  yoy_change_raw : option float;
  qoq_change_raw : option float;
  days_ago : Z;
  last_updated_date : Date;
  data_date : Date;
  config : Config;
  is_priority : bool
}.

Definition priority_indicators : list string :=
  ["UNRATE"; "PAYEMS"; "CPIAUCSL"; "CPILFESL"; "GDPC1"; "FEDFUNDS"; "GS10";
   "HOUST"; "RSAFS"; "INDPRO"].

(** The observations whose value is not the missing token. *)
Definition valid_observations (observations : list Observation)
    : list Observation :=
  filter (fun obs => negb (String.eqb (obs_value obs) ".")) observations.

(** The loop that looks among the observations for the one nearest to
    the day [target], no further than [tolerance] days from it.
    [min_diff] is [None] for [float('inf')]. *)
Fixpoint nearest_observation (target tolerance : Z) (min_diff : option Z)
    (found : option Observation) (l : list Observation)
    : py (option Observation) :=
  match l with
  | [] => Ret found
  | obs :: l' =>
      py_bind (strptime (obs_date obs)) (fun obs_dt =>
      let diff := Z.abs (toordinal obs_dt - target) in
      let closer :=
        match min_diff with
        | None => true
        | Some m => diff <? m
        end in
      if closer && (diff <=? tolerance) then
        nearest_observation target tolerance (Some diff) (Some obs) l'
      else nearest_observation target tolerance min_diff found l')
  end.

(** The change against the observation found, if one was found; [float]
    raises on a text that it does not read. *)
Definition change_against (float_of : string -> option float)
    (format_type : string) (current_value : float) (found : option Observation)
    : py (option float) :=
  match found with
  | None => Ret None
  | Some obs =>
      match float_of (obs_value obs) with
      | None => Raise ValueError
      | Some historical_value =>
          Ret (change_from format_type current_value historical_value)
      end
  end.

(** The statements of the inner [try] block for one series: [Ret None]
    where the loop continues without an entry.  [now] is the reading of
    the clock in this iteration.  [valid_obs[-1]] is read on a list of
    two entries or more, where it cannot fail. *)
Definition series_update (float_of : string -> option float) (remote : Remote)
    (now : Z) (series_id : string) (config : Config) : py (option Update) :=
  match remote series_id None with
  | FredFailure _ => Ret None
  | FredSuccess observations _ =>
      match observations with
      | [] => Ret None
      | _ :: _ =>
          let valid_obs := valid_observations observations in
          if Z.of_nat (List.length valid_obs) <? 2 then Ret None
          else
            match last (map Some valid_obs) None with
            | None => Ret None
            | Some latest_obs =>
                match float_of (obs_value latest_obs) with
                | None => Raise ValueError
                | Some current_value =>
                    let current_date := obs_date latest_obs in
                    py_bind (strptime current_date) (fun current_dt =>
                    let days_since_data := day_of now - toordinal current_dt in
                    if 90 <? days_since_data then Ret None
                    else
                      py_bind (replace_year current_dt (year current_dt - 1))
                        (fun target_date =>
                      py_bind (nearest_observation (toordinal target_date) 30
                                 None None valid_obs) (fun year_ago_obs =>
                      py_bind (change_against float_of (cfg_format config)
                                 current_value year_ago_obs) (fun yoy_change =>
                      py_bind (shift_days (toordinal current_dt) (-90))
                        (fun quarter_ago_date =>
                      py_bind (nearest_observation quarter_ago_date 15
                                 None None valid_obs) (fun quarter_ago_obs =>
                      py_bind (change_against float_of (cfg_format config)
                                 current_value quarter_ago_obs) (fun qoq_change =>
                      Ret (Some
                        (mkUpdate series_id (cfg_name config)
                           (format_value (Some current_value) (cfg_format config)
                              (Some (cfg_unit config)))
                           (format_change yoy_change (cfg_format config))
                           (format_change qoq_change (cfg_format config))
                           yoy_change qoq_change days_since_data
                           current_date current_date config
                           (Health.is_in series_id priority_indicators))))))))))
                end
            end
      end
  end.

(** The two nested loops: an entry for each series whose statements
    ended with one; an exception ends the iteration of its series. *)
Fixpoint collect_updates (float_of : string -> option float) (remote : Remote)
    (clock : string -> Z) (indicators : list (string * Config))
    : list Update :=
  match indicators with
  | [] => []
  | (series_id, config) :: rest =>
      match series_update float_of remote (clock series_id) series_id config with
      | Ret (Some u) => u :: collect_updates float_of remote clock rest
      | _ => collect_updates float_of remote clock rest
      end
  end.

(** The order of the keys [(days_ago, not is_priority)]: [False] comes
    before [True]. *)
Definition key_leb (a b : Update) : bool :=
  (days_ago a <? days_ago b)
  || ((days_ago a =? days_ago b) && (is_priority a || negb (is_priority b))).

(** [list.sort(key=...)]: a stable sort. *)
Fixpoint insert_update (u : Update) (l : list Update) : list Update :=
  match l with
  | [] => [u]
  | x :: l' =>
      if key_leb x u then x :: insert_update u l'
      else u :: l
  end.

Definition sort_updates (l : list Update) : list Update :=
  fold_left (fun acc u => insert_update u acc) l [].

(** [l[:n]]; a negative [n] counts from the end. *)
Definition slice_to {A : Type} (n : Z) (l : list A) : list A :=
  if 0 <=? n then firstn (Z.to_nat n) l
  else firstn (Z.to_nat (Z.of_nat (List.length l) + n)) l.

(** The statements of the outer [try] block of
    [get_recent_updates_from_fred]. *)
Definition recent_updates_body (float_of : string -> option float)
    (remote : Remote) (clock : string -> Z) (max_indicators : Z)
    : py (list Update) :=
  let all_updates := collect_updates float_of remote clock all_indicators in
  Ret (slice_to max_indicators (sort_updates all_updates)).

(** [get_recent_updates_from_fred]. *)
Definition get_recent_updates (float_of : string -> option float)
    (remote : Remote) (clock : string -> Z) (max_indicators : Z)
    : list Update :=
  match Cache.get_recent_updates_from_fred
          (recent_updates_body float_of remote clock max_indicators) with
  | Ret l => l
  | Raise _ => []
  end.

End Recent.

(* ------------------------------------------------------------------ *)
(** ** The health of a section *)

Module SectionHealth.

Import Sync Health Catalog.

(** What the [try] block of [analyze_section_health] can meet: an
    exception of a call, the [NameError] of a name that is not bound, or
    the [IndexError] of an index outside of a list. *)
Inductive Raised : Type :=
| Propagated (e : exn)
| NameError (name : string)
| IndexError.

Inductive outcome (A : Type) : Type :=
| Done (a : A)
| Failed (r : Raised).

Arguments Done {A} a.
Arguments Failed {A} r.

Definition outcome_bind {A B : Type} (m : outcome A) (f : A -> outcome B)
    : outcome B :=
  match m with
  | Done a => f a
  | Failed r => Failed r
  end.

Definition of_py {A : Type} (m : py A) : outcome A :=
  match m with
  | Ret a => Done a
  | Raise e => Failed (Propagated e)
  end.

(** The name [mean] is neither imported nor defined in [app.py]: its
    evaluation raises [NameError]. *)
Definition mean (values : list float) : outcome float :=
  Failed (NameError "mean").

(** One value of the dictionary [section_data]. *)
Record Entry : Type := mkEntry {
  entry_config : Config;
  entry_current_value : float;
  entry_yoy_change : option float;
  entry_three_year_avg : float;
  entry_ten_year_avg : float;
  vs_3yr_avg : float;
  vs_10yr_avg : float
}.

(** [d[key] = v] on a dictionary kept as the list of its items. *)
Fixpoint dict_set {A : Type} (key : string) (v : A) (d : list (string * A))
    : list (string * A) :=
  match d with
  | [] => [(key, v)]
  | (k, x) :: d' =>
      if String.eqb k key then (k, v) :: d'
      else (k, x) :: dict_set key v d'
  end.

Definition is_nil {A : Type} (l : list A) : bool :=
  match l with
  | [] => true
  | _ => false
  end.

Section WithAnalysis.

(** [generate_section_analysis], which writes the paragraph. *)
Variable generate_section_analysis :
  string -> list (string * Entry) -> string -> float -> string.

(** The clock: the reading taken by the first and by the second call of
    [get_indicator_data] in the iteration of a series. *)
Variable clock : string -> Z * Z.

(** The body of the loop for one indicator. *)
Definition indicator_step (t : IndicatorData) (series_id : string)
    (config : Config) (acc : list float * list (string * Entry))
    : outcome (list float * list (string * Entry)) :=
  let (health_scores, section_data) := acc in
  outcome_bind
    (of_py (get_indicator_data (fst (clock series_id)) series_id (Some 1095) t))
    (fun recent_data =>
  if Z.of_nat (List.length recent_data) <? 12 then Done acc
  else
    match last (map Some recent_data) None with
    | None => Failed IndexError
    | Some latest =>
        let current_value := snd latest in
        let current_date := fst latest in
        outcome_bind
          (of_py (fst (calculate_yoy_change current_date current_value
                         (Some series_id) (cfg_format config) t)))
          (fun yoy_change =>
        let three_year_values := map snd recent_data in
        outcome_bind
          (of_py (get_indicator_data (snd (clock series_id)) series_id
                    (Some 3650) t))
          (fun ten_year_data =>
        let ten_year_values :=
          if is_nil ten_year_data then three_year_values
          else map snd ten_year_data in
        outcome_bind
          (if is_nil three_year_values then Done current_value
           else mean three_year_values)
          (fun three_year_avg =>
        outcome_bind
          (if is_nil ten_year_values then Done current_value
           else mean ten_year_values)
          (fun ten_year_avg =>
        let entry :=
          mkEntry config current_value yoy_change three_year_avg ten_year_avg
            (if negb (three_year_avg =? 0)%float
             then ((current_value - three_year_avg) / three_year_avg * 100)%float
             else 0%float)
            (if negb (ten_year_avg =? 0)%float
             then ((current_value - ten_year_avg) / ten_year_avg * 100)%float
             else 0%float) in
        let score :=
          analyze_indicator_health series_id current_value yoy_change
            three_year_avg ten_year_avg in
        Done (health_scores ++ [score], dict_set series_id entry section_data)))))
    end).

(** The loop over the indicators of the section. *)
Fixpoint scan (t : IndicatorData) (indicators : list (string * Config))
    (acc : list float * list (string * Entry))
    : outcome (list float * list (string * Entry)) :=
  match indicators with
  | [] => Done acc
  | (series_id, config) :: rest =>
      outcome_bind (indicator_step t series_id config acc) (scan t rest)
  end.

(** [analyze_section_health]: the analysis and the health status. *)
Definition analyze_section_health (section_name : string)
    (indicators : list (string * Config)) (t : IndicatorData)
    : string * string :=
  let body :=
    outcome_bind (scan t indicators ([], [])) (fun acc =>
    let (health_scores, section_data) := acc in
    if is_nil health_scores then
      Done ("Insufficient data available for comprehensive analysis of this economic section.",
            "moderate")
    else
      outcome_bind (mean health_scores) (fun avg_score =>
      let health_status :=
        if (0.7 <=? avg_score)%float then "healthy"
        else if (0.4 <=? avg_score)%float then "moderate"
        else "unhealthy" in
      Done (generate_section_analysis section_name section_data health_status
              avg_score,
            health_status))) in
  match body with
  | Done r => r
  | Failed _ =>
      (("Analysis temporarily unavailable for " ++ section_name
        ++ " due to data processing issues. Please try refreshing the page.")%string,
       "moderate")
  end.

End WithAnalysis.

End SectionHealth.

(* ------------------------------------------------------------------ *)
(** ** The JSON routes *)

Module Api.

Import Sync Format Catalog Recent Cache.

(** What a route returns: a payload with status 200, or the dictionary
    [{'error': ...}] with another status. *)
Inductive Reply (A : Type) : Type :=
| Ok (payload : A)
| Status (code : Z) (error : string).

Arguments Ok {A} payload.
Arguments Status {A} code error.

(** The readings of the clock in [get_indicator_api]: the two of the
    entry [YTD], as dates, then those of [update_indicator_data] and the
    one of [get_indicator_data], as instants. *)
Record Clock : Type := mkClock {
  ytd_now : Date;
  ytd_year_now : Date;
  sync_now : Z;
  sync_stored : Z;
  read_now : Z
}.

(** The dictionary [period_days] of the route and its [get]. *)
Definition days_back_of (clock : Clock) (period : string) : option Z :=
  let ytd :=
    toordinal (ytd_now clock) - toordinal (mkDate (year (ytd_year_now clock)) 1 1) in
  if String.eqb period "3M" then Some 90
  else if String.eqb period "6M" then Some 180
  else if String.eqb period "YTD" then Some ytd
  else if String.eqb period "1Y" then Some 365
  else if String.eqb period "5Y" then Some 1825
  else if String.eqb period "10Y" then Some 3650
  else None.

(** The loop that looks for the configuration of a series. *)
Definition find_config (series_id : string) : option Config :=
  match find (fun ic => String.eqb (fst ic) series_id) all_indicators with
  | Some ic => Some (snd ic)
  | None => None
  end.

(** One entry of [formatted_data]. *)
Record FormattedPoint : Type := mkFormattedPoint {
  point_date : Date;
  point_value : float;
  formatted_value : string;
  point_yoy_change : option float;
  formatted_yoy_change : string
}.

(** The payload of [get_indicator_api]. *)
Record IndicatorPayload : Type := mkIndicatorPayload {
  payload_data : list FormattedPoint;
  payload_latest_value : string;
  payload_period_change : string;
  payload_metadata : Config
}.

(** The loop that fills [formatted_data]. *)
Fixpoint format_points (series_id : string) (cfg : Config) (t : IndicatorData)
    (data : list Point) : py (list FormattedPoint) :=
  match data with
  | [] => Ret []
  | point :: rest =>
      py_bind (fst (calculate_yoy_change (fst point) (snd point) (Some series_id)
                      (cfg_format cfg) t)) (fun yoy_change =>
      py_bind (format_points series_id cfg t rest) (fun formatted_rest =>
      Ret (mkFormattedPoint (fst point) (snd point)
             (format_value (Some (snd point)) (cfg_format cfg) (Some (cfg_unit cfg)))
             yoy_change
             (format_change yoy_change (cfg_format cfg))
           :: formatted_rest)))
  end.

(** [get_indicator_api]: the reply, the database left behind and the
    calls of [fetch_fred_data].  [period] is the query parameter, if
    given. *)
Definition get_indicator_api (float_of : string -> option float)
    (remote : Remote) (clock : Clock) (series_id : string)
    (period : option string) (st : Database)
    : Reply IndicatorPayload * Database * list FetchCall :=
  let period := Fred.get_default period "1Y" in
  let days_back := days_back_of clock period in
  let '(_, st1, calls) :=
    update_indicator_data float_of remote (sync_now clock) (sync_stored clock)
      series_id false st in
  let internal_error := (Status 500 "Internal server error", st1, calls) in
  match get_indicator_data (read_now clock) series_id days_back
          (indicator_data st1) with
  | Raise _ => internal_error
  | Ret data =>
      match last (map Some data) None with
      | None => (Status 404 "No data available", st1, calls)
      | Some latest_point =>
          match find_config series_id with
          | None => (Status 404 "Indicator not found", st1, calls)
          | Some indicator_config =>
              let latest_value := snd latest_point in
              match fst (calculate_period_change data (cfg_format indicator_config)
                           period (Some series_id) (indicator_data st1)) with
              | Raise _ => internal_error
              | Ret period_change =>
                  match format_points series_id indicator_config
                          (indicator_data st1) data with
                  | Raise _ => internal_error
                  | Ret formatted_data =>
                      (Ok (mkIndicatorPayload formatted_data
                             (format_value (Some latest_value)
                                (cfg_format indicator_config)
                                (Some (cfg_unit indicator_config)))
                             (format_change period_change
                                (cfg_format indicator_config))
                             indicator_config),
                       st1, calls)
                  end
              end
          end
      end
  end.

Section RecentUpdatesApi.

Variable Update : Type.
Variable dumps : list Update -> py string.
Variable loads : string -> py (list Update).

(** [analyze_recent_economic_trends_from_fred], which writes the
    paragraph of the reply. *)
Variable analyze_recent_economic_trends_from_fred : list Update -> py string.

(** The payload of [get_recent_updates_api]. *)
Record RecentPayload : Type := mkRecentPayload {
  updates : list Update;
  economic_analysis : string;
  total_updates : Z;
  data_source : string;
  is_cached : bool;
  fetch_time : Z
}.

(** [get_recent_updates_api]: the reply and the cache table left behind.
    The clock is read when the cache is looked up ([now]), when a
    snapshot is saved ([now_saved]), when the cache is looked up again
    ([now_checked]) and when the reply is built ([now_sent]). *)
Definition get_recent_updates_api (now now_saved now_checked now_sent : Z)
    (body : py (list Update)) (t : CacheTable)
    : Reply RecentPayload * CacheTable :=
  let (updates, t') := get_recent_updates_with_cache dumps loads now now_saved body t in
  match analyze_recent_economic_trends_from_fred updates with
  | Raise _ => (Status 500 "Internal server error", t')
  | Ret economic_analysis =>
      let cached_data := get_cached_recent_updates loads now_checked t' in
      let is_cached :=
        match cached_data with
        | Some _ => true
        | None => false
        end in
      (Ok (mkRecentPayload updates economic_analysis
             (Z.of_nat (List.length updates))
             (if is_cached then "Cache" else "FRED API")
             is_cached now_sent),
       t')
  end.

End RecentUpdatesApi.

End Api.

(* ================================================================== *)
(** * Auxiliary definitions and sample data *)

Import RateLimit Sync Format Health Cache.
Import Fred Catalog Loader Recent SectionHealth Api.

(** An observation that the loop of [update_indicator_data] stores: its
    value is not the missing token and [float] reads it. *)
Definition stored (float_of : string -> option float) (o : Observation) : bool :=
  negb (String.eqb (obs_value o) ".")
  && match float_of (obs_value o) with Some _ => true | None => false end.

(** A row whose key is written by one of the observations. *)
Definition touched (float_of : string -> option float) (sid : string)
    (obs : list Observation) (r : Row) : bool :=
  existsb (fun o => stored float_of o && same_key sid (obs_date o) r) obs.

Definition inflation_series (s : string) : Prop :=
  s = "CPIAUCSL" \/ s = "CPILFESL" \/ s = "PCEPI" \/ s = "PCEPILFE".

(** The provider of the examples: one observation, whatever is asked. *)
Definition sample_remote : Remote :=
  fun _ _ => FredSuccess [mkObs (mkDate 2024 5 1) "4.0"] (mkInfo "Monthly" "Percent" "Unemployment Rate").

Definition sample_float_of (s : string) : option float :=
  if String.eqb s "4.0" then Some 4.0%float else None.

(** A database whose metadata for UNRATE were written at instant [last]. *)
Definition synced_at (last : Z) : Database :=
  mkDatabase [] [mkMeta "UNRATE" last "Monthly" "Percent" "Unemployment Rate"].

(** [a] is at least as recent as [b]. *)
Definition newer_eq (a b : Snapshot) : Prop := created_at b <= created_at a.

(** A [json.dumps] and a [json.loads] for the examples, on two payloads. *)
Definition sample_dumps (l : list Z) : py string :=
  match l with
  | [] => Ret "[]"
  | _ => Ret "[7]"
  end.

Definition sample_loads (s : string) : py (list Z) :=
  if String.eqb s "[7]" then Ret [7]
  else if String.eqb s "[]" then Ret []
  else Raise JSONDecodeError.

(** Six snapshots, taken one hour apart. *)
Definition six_snapshots : CacheTable :=
  map (fun k => mkSnapshot k "[7]" (hours k)) [1; 2; 3; 4; 5; 6].

(** Seven snapshots taken at the same instant. *)
Definition tied_snapshots : CacheTable :=
  map (fun k => mkSnapshot k "[7]" 0) [1; 2; 3; 4; 5; 6; 7].

(** One snapshot, 13 hours old, whose payload is the list [[7]]. *)
Definition expired_snapshot : CacheTable := [mkSnapshot 1 "[7]" 0].

(** The query that a calculator runs for a target day. *)
Definition nearest_query (sid : string) (target : Z) : Query :=
  mkQuery sid (target - 15) (target + 15) target.

(** What a calculator returns once the query has run. *)
Definition change_to (format_type : string) (current_value : float)
    (result : option Row) : option float :=
  match result with
  | Some r => change_from format_type current_value (value r)
  | None => None
  end.

(** Two quarterly points more than a year apart, and a store whose rows
    are far from 2024-03-03, the day 90 days before the last point. *)
Definition gdp_rows : IndicatorData :=
  [mkRow "GDPC1" (mkDate 2023 1 1) 100%float;
   mkRow "GDPC1" (mkDate 2024 6 1) 110%float].

(** A database that holds the two quarterly points and the metadata of
    UNRATE, written at instant 0. *)
Definition two_series : Database :=
  mkDatabase gdp_rows (api_metadata (synced_at 0)).

(** Rows of two series, the later point of GDPC1 stored first. *)
Definition unordered_rows : IndicatorData :=
  [mkRow "GDPC1" (mkDate 2024 6 1) 110%float;
   mkRow "UNRATE" (mkDate 2024 5 1) 4.0%float;
   mkRow "GDPC1" (mkDate 2023 1 1) 100%float].

(** Two rows of UNRATE five days on each side of 2023-06-01, and two
    rows five days on each side of 2024-03-03; in both pairs the row of
    the later date was stored first. *)
Definition year_tie_rows : IndicatorData :=
  [mkRow "UNRATE" (mkDate 2023 6 6) 2%float;
   mkRow "UNRATE" (mkDate 2023 5 27) 3%float].


(** The order of the rows by their dates. *)
Definition by_date (a b : Row) : Prop := date_leb (date a) (date b) = true.

(** The condition [date >= cutoff_date] of [get_indicator_data] on a row,
    for the clock [now] and the argument [days_back]. *)
Definition from_cutoff (now : Z) (days_back : option Z) (r : Row) : bool :=
  match days_back with
  | Some n => if n =? 0 then true else day_of now + - n <=? toordinal (date r)
  | None => true
  end.

(** What a request yields when it goes well: the JSON object of a
    response of status 200 that has no key [error_code]. *)
Definition good (http : Http) (r : Request) : option Body :=
  match http r with
  | inr response =>
      if status_code response =? 200 then
        match json response with
        | inr body => if has_error_code body then None else Some body
        | inl _ => None
        end
      else None
  | inl _ => None
  end.

(** The first entry of [seriess]; the list [[{}]] when the key is absent. *)
Definition first_series (b : Body) : option SeriesInfo :=
  head (get_default (seriess b) [mkInfo "" "" ""]).

(** The key [success] of the dictionary returned by [fetch_fred_data]. *)
Definition succeeded (d : FredData) : bool :=
  match d with
  | FredSuccess _ _ => true
  | FredFailure _ => false
  end.

(** The rows of a series, in the order of the table. *)
Definition rows_of (series_id : string) (st : Database) : list Row :=
  filter (fun r => String.eqb (Store.series_id r) series_id) (indicator_data st).

(** No text occurs twice in the list. *)
Fixpoint distinct (l : list string) : bool :=
  match l with
  | [] => true
  | x :: l' => negb (existsb (String.eqb x) l') && distinct l'
  end.

(** The first test of the loop of [analyze_section_health]: the read of
    the last three years returns fewer than 12 points. *)
Definition short_history (now : Z) (series_id : string) (t : IndicatorData)
    : bool :=
  match get_indicator_data now series_id (Some 1095) t with
  | Ret recent_data => Z.of_nat (List.length recent_data) <? 12
  | Raise _ => false
  end.

(** The two texts that [analyze_section_health] has beside the
    paragraph of [generate_section_analysis]. *)
Definition insufficient_data : string :=
  "Insufficient data available for comprehensive analysis of this economic section.".

Definition temporarily_unavailable (section_name : string) : string :=
  "Analysis temporarily unavailable for " ++ section_name
  ++ " due to data processing issues. Please try refreshing the page.".

(** A paragraph writer and a clock for the examples. *)
Definition sample_analysis (section_name : string)
    (section_data : list (string * Entry)) (health_status : string)
    (avg_score : float) : string := section_name.

Definition sample_clock (series_id : string) : Z * Z :=
  (days 739000, days 739000).

(** Twelve monthly points of UNRATE, all of them within three years of day
    739000 (2024-05-01 is day 739007). *)
Definition twelve_points : IndicatorData :=
  map (fun m => mkRow "UNRATE" (mkDate 2023 m 1) 4.0%float)
    [1; 2; 3; 4; 5; 6; 7; 8; 9; 10; 11; 12].

(** A series that a run has left alone: its rows, in their order, and
    its [last_updated]. *)
Definition untouched (series_id : string) (st st' : Database) : Prop :=
  rows_of series_id st' = rows_of series_id st
  /\ select_last_updated series_id (api_metadata st')
     = select_last_updated series_id (api_metadata st).

(** Every indicator of the list has a short history. *)
Definition all_short (clock : string -> Z * Z)
    (indicators : list (string * Config)) (t : IndicatorData) : bool :=
  forallb (fun ic => short_history (fst (clock (fst ic))) (fst ic) t) indicators.

(** The order of the sort keys [(days_ago, not is_priority)]. *)
Definition key_le (a b : Update) : Prop :=
  days_ago a < days_ago b
  \/ (days_ago a = days_ago b /\ (is_priority a = true \/ is_priority b = false)).

(** The entries that the two loops of [get_recent_updates_from_fred]
    collect, before the sort and the slice. *)
Definition collected (float_of : string -> option float) (remote : Remote)
    (clock : string -> Z) : list Update :=
  collect_updates float_of remote clock all_indicators.

(** What an entry tells of its series: it comes from the last
    observation with a value of a successful fetch. *)
Definition describes (float_of : string -> option float) (remote : Remote)
    (clock : string -> Z) (u : Update) : Prop :=
  exists observations metadata latest current_value,
    remote (u_series_id u) None = FredSuccess observations metadata
    /\ last (map Some (valid_observations observations)) None = Some latest
    /\ float_of (obs_value latest) = Some current_value
    /\ data_date u = obs_date latest
    /\ last_updated_date u = obs_date latest
    /\ days_ago u = day_of (clock (u_series_id u)) - toordinal (obs_date latest)
    /\ latest_value u
       = format_value (Some current_value) (cfg_format (config u))
           (Some (cfg_unit (config u))).

(** A provider for the examples of recent updates: monthly values of
    UNRATE up to a 29 February, quarterly values of GDPC1, a failure
    for every other series. *)
Definition leap_remote : Remote :=
  fun series_id _ =>
    if String.eqb series_id "UNRATE" then
      FredSuccess
        [mkObs (mkDate 2023 2 28) "4.0"; mkObs (mkDate 2024 1 31) "4.0";
         mkObs (mkDate 2024 2 29) "4.0"]
        (mkInfo "Monthly" "Percent" "Unemployment Rate")
    else if String.eqb series_id "GDPC1" then
      FredSuccess
        [mkObs (mkDate 2023 1 1) "4.0"; mkObs (mkDate 2023 10 1) "4.0";
         mkObs (mkDate 2024 1 1) "."; mkObs (mkDate 2024 1 1) "4.0"]
        (mkInfo "Quarterly" "Billions" "Real GDP")
    else FredFailure "Connection error - check internet connection".

(** 2024-03-15 is day 738960. *)
Definition leap_clock (series_id : string) : Z := days 738960 + hours 9.

(** The points of a reply, without their formatting. *)
Definition plain_points (payload : IndicatorPayload) : list Point :=
  map (fun p => (point_date p, point_value p)) (payload_data payload).

(** The whole history of a series, in the order of the dates. *)
Definition whole_history (series_id : string) (st : Database) : list Point :=
  map (fun r => (date r, value r)) (order_by_date (rows_of series_id st)).

(** A paragraph writer for the examples. *)
Definition sample_trends (updates : list Z) : py string := Ret "trends".

(** Readings of the clock on 2024-01-01 (day 738886). *)
Definition new_year_clock : Clock :=
  mkClock (mkDate 2024 1 1) (mkDate 2024 1 1)
    (days 738886) (days 738886) (days 738886).

(** A database with two points of UNRATE, synchronised at the instant of
    [new_year_clock]. *)
Definition unrate_database : Database :=
  mkDatabase
    [mkRow "UNRATE" (mkDate 2019 5 1) 3.6%float;
     mkRow "UNRATE" (mkDate 2023 12 1) 3.7%float]
    [mkMeta "UNRATE" (days 738886) "Monthly" "Percent" "Unemployment Rate"].

(** The distance in days of an observation from a target day. *)
Definition days_from (target : Z) (o : Observation) : Z :=
  Z.abs (toordinal (obs_date o) - target).

(** [r] is what a search for the observation nearest to [target] within
    [tolerance] days may return: none when every observation is further
    away, otherwise one that is within the tolerance and as near as
    any. *)
Definition nearest_within (target tolerance : Z) (l : list Observation)
    (r : option Observation) : Prop :=
  match r with
  | Some o =>
      In o l
      /\ days_from target o <= tolerance
      /\ forall o', In o' l -> days_from target o <= days_from target o'
  | None => forall o', In o' l -> tolerance < days_from target o'
  end.

(** The change of a value against the observation found, if any. *)
Definition change_of (float_of : string -> option float) (format_type : string)
    (current_value : float) (found : option Observation) : option float :=
  match found with
  | Some o =>
      match float_of (obs_value o) with
      | Some historical_value =>
          change_from format_type current_value historical_value
      | None => None
      end
  | None => None
  end.

(** What the two changes of an entry are: the change against the
    observation nearest to the same day one year earlier, within 30
    days, and against the one nearest to the day 90 days earlier, within
    15 days, among the observations with a value. *)
Definition changes_explained (float_of : string -> option float)
    (remote : Remote) (u : Update) : Prop :=
  exists observations metadata latest current_value year_ago quarter_ago,
    remote (u_series_id u) None = FredSuccess observations metadata
    /\ last (map Some (valid_observations observations)) None = Some latest
    /\ float_of (obs_value latest) = Some current_value
    /\ nearest_within
         (toordinal (mkDate (year (obs_date latest) - 1)
                       (month (obs_date latest)) (day (obs_date latest))))
         30 (valid_observations observations) year_ago
    /\ yoy_change_raw u
       = change_of float_of (cfg_format (config u)) current_value year_ago
    /\ nearest_within (toordinal (obs_date latest) - 90) 15
         (valid_observations observations) quarter_ago
    /\ qoq_change_raw u
       = change_of float_of (cfg_format (config u)) current_value quarter_ago
    /\ Recent.yoy_change u
       = format_change (yoy_change_raw u) (cfg_format (config u))
    /\ Recent.qoq_change u
       = format_change (qoq_change_raw u) (cfg_format (config u)).

(* ================================================================== *)
(** * Properties *)

Unset Implicit Arguments.

(* ------------------------------------------------------------------ *)
(** ** Short data lists *)

(** C10: on a data list of fewer than two points [calculate_period_change]
    returns [None], whatever the format, the period and the series, and
    runs no query. *)
Theorem calculate_period_change_short_data :
  forall (data : list Point) (format_type period : string)
         (series_id : option string) (t : IndicatorData),
    (List.length data < 2)%nat ->
    calculate_period_change data format_type period series_id t = (Ret None, []).
Proof.
  intros data format_type period series_id t Hlen.
  unfold calculate_period_change.
  assert (Hlt : (Z.of_nat (List.length data) <? 2) = true) by (apply Z.ltb_lt; lia).
  rewrite Hlt. reflexivity.
Qed.

Lemma calculate_period_change_short_data_witness :
  calculate_period_change [(mkDate 2024 6 1, 4.1%float)] "number" "1Y"
    (Some "UNRATE") [mkRow "UNRATE" (mkDate 2023 6 1) 3.6%float]
  = (Ret None, []).
Proof.
  apply calculate_period_change_short_data. simpl. lia.
Defined.

(* ------------------------------------------------------------------ *)
(** ** The value formatter *)

(** [1250000 / 1000000] is the float [1.25], which lies half way between
    two numbers of one decimal; the format rounds it to the even one. *)
Example format_1f_tie : format_1f true 1.25%float = "1.2".
Proof. vm_compute. reflexivity. Qed.

(** C6, as the code has it: 1,250,000 millions of a currency cross the
    threshold of 1,000,000 and are rendered in trillions, ["$1.2T"]. *)
Theorem format_value_currency_millions :
  format_value (Some 1250000%float) "currency" (Some "millions") = "$1.2T".
Proof. vm_compute. reflexivity. Qed.

(** C6, the claim's literal is not what [format_value] returns: the
    comparison of the result with ["$1.3B"] fails. *)
Lemma format_value_currency_millions_not_billions :
  String.eqb (format_value (Some 1250000%float) "currency" (Some "millions")) "$1.3B"
  = false.
Proof. vm_compute. reflexivity. Qed.

(** The billions branch is taken from 1,000 up to 1,000,000 millions. *)
Example format_value_billions_branch :
  format_value (Some 1250%float) "currency" (Some "millions") = "$1.2B".
Proof. vm_compute. reflexivity. Qed.

Example format_value_percentage :
  format_value (Some (-0.4)%float) "percentage" None = "-0.4%".
Proof. vm_compute. reflexivity. Qed.

(* ------------------------------------------------------------------ *)
(** ** The health score *)

(** The unemployment rate scores on three bands of the current value. *)
Lemma unrate_score :
  forall (v : float) (y : option float) (a3 a10 : float),
    analyze_indicator_health "UNRATE" v y a3 a10 =
    if (v <=? 4.0)%float then 0.9%float
    else if (v <=? 6.0)%float then 0.6%float
    else 0.2%float.
Proof. intros. reflexivity. Qed.

Example unrate_literals :
  analyze_indicator_health "UNRATE" 3.9 None 0 0 = 0.9%float
  /\ analyze_indicator_health "UNRATE" 5.0 None 0 0 = 0.6%float
  /\ analyze_indicator_health "UNRATE" 7.0 None 0 0 = 0.2%float.
Proof. repeat split; vm_compute; reflexivity. Qed.

(** An inflation series with a year-over-year change that is not zero
    scores on four bands of the change. *)
Lemma inflation_score_nonzero :
  forall (s : string) (v y a3 a10 : float),
    inflation_series s ->
    (y =? 0)%float = false ->
    analyze_indicator_health s v (Some y) a3 a10 =
    if (1.5 <=? y)%float && (y <=? 2.5)%float then 0.9%float
    else if (1.0 <=? y)%float && (y <=? 3.0)%float then 0.7%float
    else if (y <? 0)%float then 0.2%float
    else 0.4%float.
Proof.
  intros s v y a3 a10 Hs Hy.
  destruct Hs as [-> | [-> | [-> | ->]]];
    unfold analyze_indicator_health; simpl; rewrite Hy; reflexivity.
Qed.

Example inflation_literals :
  analyze_indicator_health "CPIAUCSL" 300 (Some 2.0%float) 0 0 = 0.9%float
  /\ analyze_indicator_health "CPIAUCSL" 300 (Some (-1.0)%float) 0 0 = 0.2%float.
Proof. split; vm_compute; reflexivity. Qed.

(** C2, at a year-over-year change of exactly zero: the condition
    [if yoy_change:] takes the float [0.0] for an absent change, and every
    inflation series scores 0.5 where the bands give 0.4. *)
Theorem inflation_score_at_zero :
  forall (s : string) (v a3 a10 : float),
    inflation_series s ->
    analyze_indicator_health s v (Some 0%float) a3 a10 = 0.5%float.
Proof.
  intros s v a3 a10 Hs.
  destruct Hs as [-> | [-> | [-> | ->]]]; reflexivity.
Qed.

Lemma inflation_score_at_zero_witness :
  analyze_indicator_health "CPIAUCSL" 310.3 (Some 0%float) 300 280 = 0.5%float.
Proof.
  apply inflation_score_at_zero. left. reflexivity.
Defined.

(* ------------------------------------------------------------------ *)
(** ** The rate limiter *)

(** Below the limit a call is not delayed and its time is recorded. *)
Lemma wrapper_below_limit :
  forall (calls period now : Z) (calls_made : list Z),
    let live := filter (fun call_time => now - call_time <? period) calls_made in
    Z.of_nat (List.length live) < calls ->
    wrapper calls period now calls_made = Some (0, live ++ [now]).
Proof.
  intros calls period now calls_made live Hlt.
  unfold wrapper. fold live.
  assert (H : (Z.of_nat (List.length live) >=? calls) = false).
  { rewrite Z.geb_leb. apply Z.leb_gt. exact Hlt. }
  rewrite H. reflexivity.
Qed.

(** At the limit the call sleeps until the oldest recorded call is [period]
    old; the whole list is then dropped and the time read before the sleep
    is recorded. *)
Lemma wrapper_at_limit :
  forall (calls period now oldest : Z) (calls_made rest : list Z),
    filter (fun call_time => now - call_time <? period) calls_made = oldest :: rest ->
    calls <= Z.of_nat (List.length (oldest :: rest)) ->
    wrapper calls period now calls_made = Some (period - (now - oldest), [now])
    /\ 0 < period - (now - oldest).
Proof.
  intros calls period now oldest calls_made rest Hlive Hlen.
  assert (Hold : now - oldest < period).
  { assert (Hin : In oldest (filter (fun c => now - c <? period) calls_made))
      by (rewrite Hlive; left; reflexivity).
    apply filter_In in Hin. destruct Hin as [_ Hin]. apply Z.ltb_lt. exact Hin. }
  unfold wrapper. rewrite Hlive.
  assert (H : (Z.of_nat (List.length (oldest :: rest)) >=? calls) = true).
  { rewrite Z.geb_leb. apply Z.leb_le. exact Hlen. }
  rewrite H.
  assert (Hs : (period - (now - oldest) >? 0) = true).
  { rewrite Z.gtb_ltb. apply Z.ltb_lt. lia. }
  rewrite Hs. split; [reflexivity | lia].
Qed.

(** 120 calls issued at once start at once; the 121st starts 60 seconds
    later. *)
Example burst_of_121 :
  run fetch_limiter 0 [] (repeat 0 121%nat)
  = Some (repeat 0 120%nat ++ [seconds 60]).
Proof. vm_compute. reflexivity. Qed.

(** C5, the bound on a 60-second span: 241 calls issued back to back.  The
    121st sleeps for 60 seconds, after which the list of recorded calls
    holds only the time read before the sleep, which is out of the window
    at once: the 120 calls that follow start in the same instant as the
    121st, and 121 calls start within one span of 60 seconds. *)
Theorem limiter_exceeds_bound :
  exists starts : list Z,
    run fetch_limiter 0 [] (repeat 0 241%nat) = Some starts
    /\ started_within (seconds 60) (seconds 60) starts = 121.
Proof.
  eexists. split.
  - vm_compute. reflexivity.
  - vm_compute. reflexivity.
Qed.

(** The same with calls that take time: 120 calls 0.4 seconds apart, then
    calls 0.05 seconds apart.  The 121st call sleeps 12 seconds, and 190
    calls start within the 60 seconds that follow the instant 20. *)
Example spaced_calls_exceed_bound :
  exists starts : list Z,
    run fetch_limiter 0 []
      (0 :: repeat 400 120%nat ++ repeat 50 119%nat) = Some starts
    /\ nth 120 starts 0 = seconds 60
    /\ started_within (seconds 20) (seconds 60) starts = 190.
Proof.
  eexists. split; [vm_compute; reflexivity |].
  split; vm_compute; reflexivity.
Qed.

(* ------------------------------------------------------------------ *)
(** ** The staleness gate *)

(** C3: without [force_update], a series whose metadata were written less
    than 12 hours before [now] is skipped: no fetch, the value [True], the
    database as it was.  From 12 hours on, without any metadata, or with
    [force_update], exactly one fetch is issued. *)
Theorem staleness_gate :
  forall (float_of : string -> option float) (remote : Remote)
         (now now_stored : Z) (series_id : string) (st : Database),
    (forall last,
        select_last_updated series_id (api_metadata st) = Some last ->
        now - last < hours 12 ->
        update_indicator_data float_of remote now now_stored series_id false st
        = (true, st, []))
    /\ (forall last,
        select_last_updated series_id (api_metadata st) = Some last ->
        hours 12 <= now - last ->
        snd (update_indicator_data float_of remote now now_stored series_id false st)
        = [mkFetch series_id (Some (day_of (last - days 7)))])
    /\ (forall force_update,
        select_last_updated series_id (api_metadata st) = None ->
        snd (update_indicator_data float_of remote now now_stored series_id force_update st)
        = [mkFetch series_id None])
    /\ snd (update_indicator_data float_of remote now now_stored series_id true st)
       = [mkFetch series_id None].
Proof.
  intros float_of remote now now_stored series_id st.
  repeat split.
  - intros last Hsel Hlt. unfold update_indicator_data. rewrite Hsel. simpl.
    assert (H : (now - last <? hours 12) = true) by (apply Z.ltb_lt; exact Hlt).
    rewrite H. reflexivity.
  - intros last Hsel Hge. unfold update_indicator_data. rewrite Hsel. simpl.
    assert (H : (now - last <? hours 12) = false) by (apply Z.ltb_ge; exact Hge).
    rewrite H.
    destruct (remote series_id (Some (day_of (last - days 7)))); reflexivity.
  - intros force_update Hsel. unfold update_indicator_data. rewrite Hsel.
    destruct (remote series_id None); reflexivity.
  - unfold update_indicator_data.
    destruct (select_last_updated series_id (api_metadata st)); simpl;
      destruct (remote series_id None); reflexivity.
Qed.

(** 11 hours 59 minutes after the last synchronisation nothing is fetched;
    at 12 hours the series is fetched again. *)
Lemma staleness_gate_witness :
  let last := days 738000 in
  update_indicator_data sample_float_of sample_remote
    (last + hours 12 - 60 * 1000000) (last + hours 12) "UNRATE" false (synced_at last)
  = (true, synced_at last, [])
  /\ snd (update_indicator_data sample_float_of sample_remote
            (last + hours 12) (last + hours 12 + 1) "UNRATE" false (synced_at last))
     = [mkFetch "UNRATE" (Some (day_of (last - days 7)))].
Proof.
  intro last. split.
  - apply (proj1 (staleness_gate sample_float_of sample_remote
                    (last + hours 12 - 60 * 1000000) (last + hours 12)
                    "UNRATE" (synced_at last)) last).
    + reflexivity.
    + vm_compute. reflexivity.
  - apply (proj1 (proj2 (staleness_gate sample_float_of sample_remote
                    (last + hours 12) (last + hours 12 + 1)
                    "UNRATE" (synced_at last))) last).
    + reflexivity.
    + vm_compute. discriminate.
Defined.

(* ------------------------------------------------------------------ *)
(** ** Dates and keys *)

Lemma date_eqb_eq :
  forall a b,
    date_eqb a b = true <->
    year a = year b /\ month a = month b /\ day a = day b.
Proof.
  intros a b. unfold date_eqb. rewrite !andb_true_iff, !Z.eqb_eq. tauto.
Qed.

Lemma same_key_spec :
  forall sid d r,
    same_key sid d r = true <-> series_id r = sid /\ date_eqb (date r) d = true.
Proof.
  intros sid d r. unfold same_key. rewrite andb_true_iff, String.eqb_eq. tauto.
Qed.

(** ** The order of the dates *)

Lemma date_leb_spec :
  forall a b,
    date_leb a b = true <->
    year a < year b
    \/ (year a = year b
        /\ (month a < month b \/ (month a = month b /\ day a <= day b))).
Proof.
  intros a b. unfold date_leb.
  rewrite !orb_true_iff, !andb_true_iff, !orb_true_iff, !andb_true_iff.
  rewrite !Z.ltb_lt, !Z.eqb_eq, Z.leb_le. tauto.
Qed.

Lemma date_leb_total :
  forall a b, date_leb a b = false -> date_leb b a = true.
Proof.
  intros a b H. apply date_leb_spec.
  assert (Hn : ~ (date_leb a b = true)) by (rewrite H; discriminate).
  rewrite date_leb_spec in Hn. lia.
Qed.

Lemma date_leb_trans :
  forall a b c, date_leb a b = true -> date_leb b c = true -> date_leb a c = true.
Proof.
  intros a b c Hab Hbc. rewrite date_leb_spec in *. lia.
Qed.

Lemma insert_by_date_perm :
  forall r l, Permutation (r :: l) (insert_by_date r l).
Proof.
  intros r l. induction l as [| x l IH]; simpl.
  - apply Permutation_refl.
  - destruct (date_leb (date x) (date r)).
    + apply perm_trans with (x :: r :: l); [apply perm_swap | apply perm_skip; exact IH].
    + apply Permutation_refl.
Qed.

Lemma insert_by_date_sorted :
  forall r l,
    StronglySorted by_date l -> StronglySorted by_date (insert_by_date r l).
Proof.
  intros r l Hs. induction Hs as [| x l Hs IH Hall]; simpl.
  - constructor; constructor.
  - destruct (date_leb (date x) (date r)) eqn:Hle.
    + constructor; [exact IH |].
      apply Forall_forall. intros y Hy.
      apply (Permutation_in _ (Permutation_sym (insert_by_date_perm r l))) in Hy.
      destruct Hy as [<- | Hy]; [exact Hle |].
      rewrite Forall_forall in Hall. apply Hall. exact Hy.
    + apply date_leb_total in Hle.
      constructor; [constructor; assumption |].
      constructor; [exact Hle |].
      rewrite Forall_forall in *. intros y Hy.
      apply (date_leb_trans _ (date x)); [exact Hle | apply Hall; exact Hy].
Qed.

Lemma order_by_date_fold :
  forall l acc,
    StronglySorted by_date acc ->
    StronglySorted by_date (fold_left (fun a r => insert_by_date r a) l acc)
    /\ Permutation (acc ++ l) (fold_left (fun a r => insert_by_date r a) l acc).
Proof.
  induction l as [| r l IH]; intros acc Hs; simpl.
  - rewrite app_nil_r. split; [exact Hs | apply Permutation_refl].
  - destruct (IH (insert_by_date r acc) (insert_by_date_sorted r acc Hs)) as [H1 H2].
    split; [exact H1 |].
    apply perm_trans with (insert_by_date r acc ++ l); [| exact H2].
    apply perm_trans with ((r :: acc) ++ l).
    + apply Permutation_sym. apply Permutation_middle.
    + apply Permutation_app_tail. apply insert_by_date_perm.
Qed.

Lemma order_by_date_spec :
  forall l,
    StronglySorted by_date (order_by_date l) /\ Permutation l (order_by_date l).
Proof.
  intro l. unfold order_by_date.
  exact (order_by_date_fold l [] (SSorted_nil _)).
Qed.

Lemma StronglySorted_map :
  forall (A B : Type) (f : A -> B) (R : B -> B -> Prop) (l : list A),
    StronglySorted (fun a b => R (f a) (f b)) l -> StronglySorted R (map f l).
Proof.
  intros A B f R l H. induction H as [| x l Hs IH Hall]; simpl.
  - constructor.
  - constructor; [exact IH |].
    rewrite Forall_forall in *. intros y Hy.
    apply in_map_iff in Hy. destruct Hy as [a [<- Ha]]. apply Hall. exact Ha.
Qed.

(* ------------------------------------------------------------------ *)
(** ** Upserts into [indicator_data] *)

Section Upsert.

Variable float_of : string -> option float.
Variable sid : string.

Lemma date_eqb_refl : forall d, date_eqb d d = true.
Proof.
  intro d. unfold date_eqb. rewrite !Z.eqb_refl. reflexivity.
Qed.

Lemma same_key_new_row : forall d v, same_key sid d (mkRow sid d v) = true.
Proof.
  intros d v. unfold same_key. simpl.
  rewrite String.eqb_refl, date_eqb_refl. reflexivity.
Qed.

Lemma filter_filter :
  forall (A : Type) (p q : A -> bool) (l : list A),
    filter p (filter q l) = filter (fun x => q x && p x) l.
Proof.
  intros A p q l. induction l as [| x l IH]; simpl.
  - reflexivity.
  - destruct (q x); simpl.
    + destruct (p x); rewrite IH; reflexivity.
    + exact IH.
Qed.

Lemma filter_none :
  forall (A : Type) (p : A -> bool) (l : list A),
    (forall x, In x l -> p x = false) -> filter p l = [].
Proof.
  intros A p l H. induction l as [| x l IH]; simpl.
  - reflexivity.
  - rewrite (H x (or_introl eq_refl)). apply IH.
    intros y Hy. apply H. right. exact Hy.
Qed.

(** The loop unfolds one observation at a time. *)
Lemma store_observations_cons :
  forall o obs t,
    store_observations float_of sid (o :: obs) t =
    store_observations float_of sid obs
      (if String.eqb (obs_value o) "." then t
       else match float_of (obs_value o) with
            | Some v => insert_or_replace sid (obs_date o) (real_column v) t
            | None => t
            end).
Proof. reflexivity. Qed.

(** A list stored in two parts. *)
Lemma store_observations_app :
  forall obs1 obs2 t,
    store_observations float_of sid (obs1 ++ obs2) t
    = store_observations float_of sid obs2 (store_observations float_of sid obs1 t).
Proof.
  intros obs1 obs2 t. unfold store_observations. apply fold_left_app.
Qed.

(** What the loop leaves: the rows whose key no observation writes, in
    their order, followed by what the loop builds from the empty table. *)
Lemma store_observations_split :
  forall obs t,
    store_observations float_of sid obs t =
    filter (fun r => negb (touched float_of sid obs r)) t
    ++ store_observations float_of sid obs [].
Proof.
  induction obs as [| o obs IH]; intro t.
  - simpl. unfold store_observations. simpl.
    rewrite app_nil_r. induction t as [| r t IHt]; simpl; congruence.
  - rewrite !store_observations_cons.
    unfold touched. simpl existsb. unfold stored at 1.
    destruct (String.eqb (obs_value o) ".") eqn:Hdot; simpl.
    + apply IH.
    + destruct (float_of (obs_value o)) as [v |] eqn:Hf; simpl.
      * rewrite (IH (insert_or_replace sid (obs_date o) (real_column v) t)).
        rewrite (IH (insert_or_replace sid (obs_date o) (real_column v) [])).
        unfold insert_or_replace, rows. simpl.
        rewrite filter_app, filter_filter, <- app_assoc.
        f_equal.
        apply filter_ext. intro r.
        destruct (same_key sid (obs_date o) r); reflexivity.
      * apply IH.
Qed.

(** Every row that the loop builds from the empty table has a written key. *)
Lemma store_observations_touched :
  forall obs t r,
    In r (store_observations float_of sid obs t) ->
    In r t \/ touched float_of sid obs r = true.
Proof.
  induction obs as [| o obs IH]; intros t r Hin.
  - left. exact Hin.
  - rewrite store_observations_cons in Hin.
    unfold touched. simpl existsb. unfold stored at 1.
    destruct (String.eqb (obs_value o) ".") eqn:Hdot; simpl.
    + apply IH. exact Hin.
    + destruct (float_of (obs_value o)) as [v |] eqn:Hf; simpl.
      * apply IH in Hin. destruct Hin as [Hin | Hin].
        -- unfold insert_or_replace, rows in Hin.
           apply in_app_or in Hin. destruct Hin as [Hin | [<- | []]].
           ++ left. apply filter_In in Hin. tauto.
           ++ right. rewrite same_key_new_row. reflexivity.
        -- right. fold (touched float_of sid obs r). rewrite Hin. apply orb_true_r.
      * apply IH. exact Hin.
Qed.

(** The rows whose key no observation writes are kept, in their order. *)
Lemma store_observations_untouched :
  forall obs t,
    filter (fun r => negb (touched float_of sid obs r))
      (store_observations float_of sid obs t)
    = filter (fun r => negb (touched float_of sid obs r)) t.
Proof.
  intros obs t.
  rewrite (store_observations_split obs t).
  rewrite filter_app, filter_filter.
  rewrite (filter_none _ (fun r => negb (touched float_of sid obs r))
             (store_observations float_of sid obs [])).
  - rewrite app_nil_r. apply filter_ext. intro r.
    destruct (touched float_of sid obs r); reflexivity.
  - intros r Hin. apply store_observations_touched in Hin.
    destruct Hin as [[] | ->]. reflexivity.
Qed.

(** Storing the same observations a second time changes no row. *)
Lemma store_observations_idempotent :
  forall obs t,
    store_observations float_of sid obs (store_observations float_of sid obs t)
    = store_observations float_of sid obs t.
Proof.
  intros obs t.
  rewrite (store_observations_split obs (store_observations float_of sid obs t)).
  rewrite store_observations_untouched.
  symmetry. apply store_observations_split.
Qed.

(** A row under a key that no observation of a list writes is not touched
    by the list. *)
Lemma key_not_written :
  forall obs d r,
    (forall o', In o' obs -> stored float_of o' = true ->
                date_eqb (obs_date o') d = false) ->
    same_key sid d r = true ->
    touched float_of sid obs r = false.
Proof.
  intros obs d r Hlater Hkey.
  apply same_key_spec in Hkey. destruct Hkey as [_ Hd].
  unfold touched.
  destruct (existsb (fun o => stored float_of o && same_key sid (obs_date o) r) obs)
    eqn:He; [| reflexivity].
  exfalso. apply existsb_exists in He. destruct He as [o' [Hin Ho']].
  apply andb_prop in Ho'. destruct Ho' as [Hst Hk].
  apply same_key_spec in Hk. destruct Hk as [_ Hd'].
  specialize (Hlater o' Hin Hst).
  assert (Heq : date_eqb (obs_date o') d = true).
  { apply date_eqb_eq in Hd. apply date_eqb_eq in Hd'.
    apply date_eqb_eq. intuition congruence. }
  congruence.
Qed.

(** C7: storing an identical list of observations a second time leaves
    every answer of [get_indicator_data] as it was.  Whatever the list
    and the table, the last observation of the list that is stored for a
    date leaves exactly one row under the key of that date, which holds
    its value (a number, as the column gives it back) whatever the table
    held under the key; and the rows whose key the list does not write
    are kept as they were, in their order. *)
Theorem upsert_idempotent_and_replacing :
  forall (obs : list Observation) (t : IndicatorData),
    (forall now series days_back,
        get_indicator_data now series days_back
          (store_observations float_of sid obs (store_observations float_of sid obs t))
        = get_indicator_data now series days_back
            (store_observations float_of sid obs t))
    /\ (forall before o after v,
        obs = before ++ o :: after ->
        String.eqb (obs_value o) "." = false ->
        float_of (obs_value o) = Some v ->
        is_nan v = false ->
        (forall o', In o' after -> stored float_of o' = true ->
                    date_eqb (obs_date o') (obs_date o) = false) ->
        filter (same_key sid (obs_date o)) (store_observations float_of sid obs t)
        = [mkRow sid (obs_date o) (real_column v)])
    /\ filter (fun r => negb (touched float_of sid obs r))
         (store_observations float_of sid obs t)
       = filter (fun r => negb (touched float_of sid obs r)) t.
Proof.
  intros obs t. split; [| split].
  - intros now series days_back.
    rewrite store_observations_idempotent. reflexivity.
  - intros before o after v Hobs Hdot Hf Hnumber Hlater. subst obs.
    rewrite store_observations_app, store_observations_cons, Hdot, Hf.
    set (t1 := store_observations float_of sid before t).
    rewrite (store_observations_split after
               (insert_or_replace sid (obs_date o) (real_column v) t1)).
    rewrite filter_app.
    rewrite (filter_none _ (same_key sid (obs_date o))
               (store_observations float_of sid after [])).
    + rewrite app_nil_r. unfold insert_or_replace, rows.
      rewrite !filter_app. cbn [filter].
      rewrite (key_not_written after (obs_date o)
                 (mkRow sid (obs_date o) (real_column v)) Hlater
                 (same_key_new_row _ _)).
      cbn [negb filter]. rewrite same_key_new_row.
      rewrite !filter_filter.
      rewrite filter_none; [reflexivity |].
      intros r _. destruct (same_key sid (obs_date o) r);
        destruct (touched float_of sid after r); reflexivity.
    + intros r Hin. apply store_observations_touched in Hin.
      destruct Hin as [[] | Ht].
      destruct (same_key sid (obs_date o) r) eqn:Hk; [| reflexivity].
      rewrite (key_not_written after (obs_date o) r Hlater Hk) in Ht.
      discriminate.
  - apply store_observations_untouched.
Qed.

End Upsert.

(** The column gives a negative zero back as zero, and any other number
    as it is. *)
Example real_column_zero :
  real_column (-0)%float = 0%float /\ real_column 4.0%float = 4.0%float.
Proof. split; reflexivity. Qed.

(** Two observations are stored over a table that holds both days: the
    revised value for 2024-05-01 replaces the stored 3.9 by 4.0 in the
    one row of that day. *)
Lemma upsert_idempotent_and_replacing_witness :
  filter (same_key "UNRATE" (mkDate 2024 5 1))
    (store_observations sample_float_of "UNRATE"
       [mkObs (mkDate 2024 5 1) "4.0"; mkObs (mkDate 2024 4 1) "4.0"]
       [mkRow "UNRATE" (mkDate 2024 5 1) 3.9%float;
        mkRow "UNRATE" (mkDate 2024 4 1) 3.8%float])
  = [mkRow "UNRATE" (mkDate 2024 5 1) 4.0%float].
Proof.
  refine (proj1 (proj2 (upsert_idempotent_and_replacing sample_float_of "UNRATE"
                          [mkObs (mkDate 2024 5 1) "4.0"; mkObs (mkDate 2024 4 1) "4.0"]
                          [mkRow "UNRATE" (mkDate 2024 5 1) 3.9%float;
                           mkRow "UNRATE" (mkDate 2024 4 1) 3.8%float]))
            [] (mkObs (mkDate 2024 5 1) "4.0") [mkObs (mkDate 2024 4 1) "4.0"]
            4.0%float eq_refl eq_refl eq_refl eq_refl _).
  intros o' [<- | []] _. reflexivity.
Defined.

(* ------------------------------------------------------------------ *)
(** ** The snapshots of the cache *)

Lemma insert_newest_perm :
  forall r l, Permutation (r :: l) (insert_newest r l).
Proof.
  intros r l. induction l as [| x l IH]; simpl.
  - apply Permutation_refl.
  - destruct (comes_before x r).
    + apply perm_trans with (x :: r :: l).
      * apply perm_swap.
      * apply perm_skip. exact IH.
    + apply Permutation_refl.
Qed.

(** A row that comes before another one is at least as recent. *)
Lemma comes_before_newer :
  forall x r,
    (comes_before x r = true -> created_at r <= created_at x)
    /\ (comes_before x r = false -> created_at x <= created_at r).
Proof.
  intros x r. unfold comes_before. split; intro H.
  - apply orb_prop in H. destruct H as [H | H].
    + apply Z.ltb_lt in H. lia.
    + apply andb_prop in H. destruct H as [H _]. apply Z.eqb_eq in H. lia.
  - apply orb_false_elim in H. destruct H as [H _]. apply Z.ltb_ge in H. exact H.
Qed.

Lemma newest_first_perm : forall t, Permutation t (newest_first t).
Proof.
  induction t as [| r t IH]; simpl.
  - apply perm_nil.
  - apply perm_trans with (r :: newest_first t).
    + apply perm_skip. exact IH.
    + apply insert_newest_perm.
Qed.

Lemma insert_newest_sorted :
  forall r l,
    StronglySorted newer_eq l -> StronglySorted newer_eq (insert_newest r l).
Proof.
  intros r l Hs. induction Hs as [| x l Hs IH Hall]; simpl.
  - constructor; constructor.
  - destruct (comes_before x r) eqn:Hle.
    + apply (proj1 (comes_before_newer x r)) in Hle.
      constructor; [exact IH |].
      apply Forall_forall. intros y Hy.
      apply (Permutation_in _ (Permutation_sym (insert_newest_perm r l))) in Hy.
      destruct Hy as [<- | Hy].
      * unfold newer_eq. exact Hle.
      * rewrite Forall_forall in Hall. apply Hall. exact Hy.
    + apply (proj2 (comes_before_newer x r)) in Hle.
      constructor; [constructor; assumption |].
      constructor.
      * unfold newer_eq. lia.
      * rewrite Forall_forall in *. intros y Hy. specialize (Hall y Hy).
        unfold newer_eq in *. lia.
Qed.

Lemma newest_first_sorted : forall t, StronglySorted newer_eq (newest_first t).
Proof.
  induction t as [| r t IH]; simpl.
  - constructor.
  - apply insert_newest_sorted. exact IH.
Qed.

(** In a sorted list every row of a prefix is at least as recent as every
    row of the rest. *)
Lemma sorted_firstn_skipn :
  forall n l a b,
    StronglySorted newer_eq l ->
    In a (firstn n l) -> In b (skipn n l) -> newer_eq a b.
Proof.
  induction n as [| n IH]; intros l a b Hs Ha Hb.
  - destruct Ha.
  - destruct l as [| x l]; [destruct Ha |].
    inversion Hs as [| ? ? Hs' Hall]; subst.
    simpl in Ha, Hb. destruct Ha as [<- | Ha].
    + rewrite Forall_forall in Hall. apply Hall.
      rewrite <- (firstn_skipn n l). apply in_or_app. right. exact Hb.
    + apply (IH l); assumption.
Qed.

Lemma NoDup_map_filter :
  forall (A B : Type) (f : A -> B) (p : A -> bool) (l : list A),
    NoDup (map f l) -> NoDup (map f (filter p l)).
Proof.
  intros A B f p l. induction l as [| x l IH]; simpl; intro H.
  - constructor.
  - inversion H as [| ? ? Hnin Hnd]; subst.
    destruct (p x); simpl.
    + constructor; [| apply IH; exact Hnd].
      intro Hin. apply Hnin. apply in_map_iff in Hin.
      destruct Hin as [y [Hy Hin]]. apply filter_In in Hin.
      apply in_map_iff. exists y. tauto.
    + apply IH. exact Hnd.
Qed.

Lemma NoDup_map_injective :
  forall (A B : Type) (f : A -> B) (l : list A) (a b : A),
    NoDup (map f l) -> In a l -> In b l -> f a = f b -> a = b.
Proof.
  intros A B f l a b. induction l as [| x l IH]; simpl; intros Hnd Ha Hb Hf.
  - destruct Ha.
  - inversion Hnd as [| ? ? Hnin Hnd']; subst.
    destruct Ha as [-> | Ha]; destruct Hb as [-> | Hb].
    + reflexivity.
    + exfalso. apply Hnin. rewrite Hf. apply in_map. exact Hb.
    + exfalso. apply Hnin. rewrite <- Hf. apply in_map. exact Ha.
    + apply IH; assumption.
Qed.

Lemma existsb_eqb_In :
  forall (k : Z) (ks : list Z), existsb (Z.eqb k) ks = true <-> In k ks.
Proof.
  intros k ks. rewrite existsb_exists. split.
  - intros [x [Hin Heq]]. apply Z.eqb_eq in Heq. subst. exact Hin.
  - intro Hin. exists k. split; [exact Hin | apply Z.eqb_refl].
Qed.

(** The rows that the [DELETE] keeps are the five most recent ones. *)
Lemma delete_old_kept :
  forall t r,
    NoDup (map cache_id t) ->
    (In r (delete_old t) <-> In r (firstn 5 (newest_first t))).
Proof.
  intros t r Hnd. unfold delete_old. rewrite filter_In, existsb_eqb_In.
  assert (Hsub : forall x, In x (firstn 5 (newest_first t)) -> In x t).
  { intros x Hx. apply (Permutation_in _ (Permutation_sym (newest_first_perm t))).
    rewrite <- (firstn_skipn 5 (newest_first t)). apply in_or_app. left. exact Hx. }
  split.
  - intros [Hin Hid]. apply in_map_iff in Hid. destruct Hid as [r0 [Hid Hr0]].
    assert (r0 = r) by (apply (NoDup_map_injective _ _ cache_id t); auto).
    subst. exact Hr0.
  - intro Hin. split; [apply Hsub; exact Hin | apply in_map; exact Hin].
Qed.

Lemma delete_old_length :
  forall t,
    NoDup (map cache_id t) ->
    List.length (delete_old t) = Nat.min 5 (List.length t).
Proof.
  intros t Hnd.
  rewrite (Permutation_length (newest_first_perm t)).
  rewrite <- (length_firstn 5 (newest_first t)).
  rewrite <- (length_map cache_id (delete_old t)).
  rewrite <- (length_map cache_id (firstn 5 (newest_first t))).
  apply Permutation_length. apply NoDup_Permutation.
  - apply NoDup_map_filter. exact Hnd.
  - assert (Hnd' : NoDup (map cache_id (newest_first t))).
    { apply (Permutation_NoDup (l := map cache_id t)); [| exact Hnd].
      apply Permutation_map. apply newest_first_perm. }
    rewrite <- (firstn_skipn 5 (newest_first t)) in Hnd'.
    rewrite map_app in Hnd'. apply NoDup_app_remove_r in Hnd'. exact Hnd'.
  - intro k. rewrite !in_map_iff. split; intros [r [Hk Hin]]; exists r;
      (split; [exact Hk |]); apply (delete_old_kept t r Hnd); exact Hin.
Qed.

Lemma delete_old_incl :
  forall (t : CacheTable) (s : Snapshot), In s (delete_old t) -> In s t.
Proof.
  intros t s H. unfold delete_old in H. apply filter_In in H. tauto.
Qed.

Lemma next_id_above :
  forall (t : CacheTable) (s : Snapshot), In s t -> cache_id s < next_id t.
Proof.
  intros t s. unfold next_id. induction t as [| r t IH]; simpl; intro H.
  - destruct H.
  - destruct H as [-> | H]; [lia |]. specialize (IH H). lia.
Qed.

(** C8, as the code has it: a save first deletes all but the five most
    recent snapshots, then inserts the new one.  For a table whose rowids
    are distinct and below the largest one, the table then holds the new
    snapshot, under an id that no other row has, and beside it the five
    most recent of the earlier snapshots and no other row: six rows at
    most; and every deleted snapshot is no more recent than every
    earlier one kept. *)
Theorem save_keeps_five_and_adds_one :
  forall (Update : Type) (dumps : list Update -> py string) (now : Z)
         (updates_data : list Update) (cache_json : string) (t : CacheTable),
    NoDup (map cache_id t) ->
    (forall r, In r t -> cache_id r < MAX_ROWID) ->
    dumps updates_data = Ret cache_json ->
    let t' := save_recent_updates_cache dumps now updates_data t in
    (exists new : Snapshot,
        cache_data new = cache_json
        /\ created_at new = now
        /\ (forall r, In r t' <-> r = new \/ In r (delete_old t))
        /\ (forall r, In r (delete_old t) -> cache_id r <> cache_id new))
    /\ (forall r, In r (delete_old t) <-> In r (firstn 5 (newest_first t)))
    /\ List.length t' = S (Nat.min 5 (List.length t))
    /\ (forall r r' : Snapshot,
           In r (delete_old t) -> In r' t -> ~ In r' (delete_old t) ->
           created_at r' <= created_at r).
Proof.
  intros Update dumps now updates_data cache_json t Hnd Hbound Hdumps t'.
  assert (Ht' : t' = delete_old t
                     ++ [mkSnapshot (next_id (delete_old t)) cache_json now]).
  { subst t'. unfold save_recent_updates_cache. rewrite Hdumps. reflexivity. }
  split; [| split; [| split]].
  - exists (mkSnapshot (next_id (delete_old t)) cache_json now).
    split; [reflexivity |]. split; [reflexivity |]. split.
    + intro r. rewrite Ht', in_app_iff. simpl. intuition congruence.
    + intros r Hr. pose proof (next_id_above (delete_old t) r Hr) as Hlt.
      simpl. lia.
  - intro r. apply delete_old_kept. exact Hnd.
  - rewrite Ht', length_app, delete_old_length by exact Hnd. simpl. lia.
  - intros r r' Hr Hr' Hdel.
    apply (delete_old_kept t r Hnd) in Hr.
    assert (Hskip : In r' (skipn 5 (newest_first t))).
    { apply (Permutation_in _ (newest_first_perm t)) in Hr'.
      rewrite <- (firstn_skipn 5 (newest_first t)) in Hr'.
      apply in_app_or in Hr'. destruct Hr' as [Hr' | Hr']; [| exact Hr'].
      exfalso. apply Hdel. apply (delete_old_kept t r' Hnd). exact Hr'. }
    unfold newer_eq in *.
    exact (sorted_firstn_skipn 5 (newest_first t) r r'
             (newest_first_sorted t) Hr Hskip).
Qed.

Lemma save_keeps_five_and_adds_one_witness :
  List.length (save_recent_updates_cache sample_dumps (hours 7) [7] six_snapshots)
  = S (Nat.min 5 (List.length six_snapshots)).
Proof.
  refine (proj1 (proj2 (proj2 (save_keeps_five_and_adds_one Z sample_dumps (hours 7)
                                 [7] "[7]" six_snapshots _ _ _)))).
  - vm_compute. repeat constructor; simpl; intuition discriminate.
  - intros r Hr. simpl in Hr.
    repeat (destruct Hr as [<- | Hr]; [vm_compute; reflexivity |]).
    destruct Hr.
  - reflexivity.
Defined.

(** C8, as the claim states it: a save on a table of six snapshots leaves
    six rows, one more than the five that the claim allows. *)
Lemma save_leaves_six_snapshots :
  List.length (save_recent_updates_cache sample_dumps (hours 7) [7] six_snapshots)
  = 6%nat.
Proof. vm_compute. reflexivity. Qed.

(** The oldest of the six is the one that the save deleted. *)
Example save_deletes_the_oldest :
  map cache_id (save_recent_updates_cache sample_dumps (hours 7) [7] six_snapshots)
  = [2; 3; 4; 5; 6; 7].
Proof. vm_compute. reflexivity. Qed.

(** Among snapshots of the same instant the lowest rowids are kept, and
    the first of them is the one that is read. *)
Example save_on_tied_snapshots :
  map cache_id (save_recent_updates_cache sample_dumps (hours 7) [7] tied_snapshots)
  = [1; 2; 3; 4; 5; 6]
  /\ map cache_id (firstn 1 (newest_first tied_snapshots)) = [1].
Proof. split; vm_compute; reflexivity. Qed.

(* ------------------------------------------------------------------ *)
(** ** The fallback on a failed recomputation *)

(** No exception leaves [get_recent_updates_from_fred]. *)
Lemma get_recent_updates_from_fred_returns :
  forall (Update : Type) (body : py (list Update)),
    exists l, get_recent_updates_from_fred body = Ret l.
Proof.
  intros Update body. destruct body as [l | e]; simpl; eauto.
Qed.

(** C9, when the recomputation fails: an exception raised among the
    statements of [get_recent_updates_from_fred] is caught there and the
    empty list returned, as it is when every fetch has failed; the caller
    receives the empty list and returns it.  The stored snapshots are not
    read again, however many there are. *)
Theorem failed_recomputation_returns_empty :
  forall (Update : Type) (dumps : list Update -> py string)
         (loads : string -> py (list Update)) (now now_saved : Z)
         (e : exn) (t : CacheTable),
    get_cached_recent_updates loads now t = None ->
    get_recent_updates_with_cache dumps loads now now_saved (Raise e) t = ([], t)
    /\ get_recent_updates_with_cache dumps loads now now_saved (Ret []) t = ([], t).
Proof.
  intros Update dumps loads now now_saved e t Hmiss.
  unfold get_recent_updates_with_cache. rewrite Hmiss. split; reflexivity.
Qed.

Example expired_snapshot_payload :
  get_cached_recent_updates sample_loads (hours 13) expired_snapshot = None
  /\ sample_loads (cache_data (mkSnapshot 1 "[7]" 0)) = Ret [7].
Proof. split; reflexivity. Qed.

Lemma failed_recomputation_returns_empty_witness :
  get_recent_updates_with_cache sample_dumps sample_loads (hours 13) (hours 13)
    (Raise ValueError) expired_snapshot
  = ([], expired_snapshot).
Proof.
  apply (proj1 (failed_recomputation_returns_empty Z sample_dumps sample_loads
                  (hours 13) (hours 13) ValueError expired_snapshot eq_refl)).
Defined.

(* ------------------------------------------------------------------ *)
(** ** Calendar facts *)

Lemma valid_fields :
  forall d,
    valid d = true ->
    1 <= year d <= 9999 /\ 1 <= month d <= 12
    /\ 1 <= day d <= days_in_month (year d) (month d).
Proof.
  intros d H. unfold valid, MINYEAR, MAXYEAR in H.
  repeat (apply andb_prop in H; destruct H as [H ?]).
  repeat match goal with
         | H : (_ <=? _) = true |- _ => apply Z.leb_le in H
         end.
  lia.
Qed.

Lemma month_cases :
  forall m, 1 <= m <= 12 ->
    m = 1 \/ m = 2 \/ m = 3 \/ m = 4 \/ m = 5 \/ m = 6
    \/ m = 7 \/ m = 8 \/ m = 9 \/ m = 10 \/ m = 11 \/ m = 12.
Proof. intros m H. lia. Qed.

(** The year before a leap year is not one. *)
Lemma leap_year_before :
  forall y, is_leap y = true -> is_leap (y - 1) = false.
Proof.
  intros y H. unfold is_leap in *.
  apply andb_prop in H. destruct H as [H4 _]. apply Z.eqb_eq in H4.
  assert (Hn : ((y - 1) mod 4 =? 0) = false).
  { apply Z.eqb_neq. intro H1.
    pose proof (Z.div_mod y 4 ltac:(lia)) as Hy.
    pose proof (Z.div_mod (y - 1) 4 ltac:(lia)) as Hy1.
    lia. }
  rewrite Hn. reflexivity.
Qed.

(** [replace(year=year - 1)] succeeds on every day but a 29 February (and
    but the days of the first year). *)
Lemma replace_year_same_day :
  forall d,
    valid d = true ->
    2 <= year d ->
    ~ (month d = 2 /\ day d = 29) ->
    replace_year d (year d - 1) = Ret (mkDate (year d - 1) (month d) (day d)).
Proof.
  intros d Hv Hy Hleap. apply valid_fields in Hv.
  destruct d as [y m dd]. simpl in *.
  unfold replace_year, valid, MINYEAR, MAXYEAR. simpl.
  assert (Hdim : dd <= days_in_month (y - 1) m).
  { destruct Hv as [_ [Hm Hd]]. apply month_cases in Hm.
    destruct Hm as [-> | [-> | [-> | [-> | [-> | [-> | [-> | [-> | [-> | [-> | [-> | ->]]]]]]]]]]];
      simpl in *; try lia.
    destruct (is_leap y), (is_leap (y - 1)); lia. }
  assert (H : ((1 <=? y - 1) && (y - 1 <=? 9999) && (1 <=? m) && (m <=? 12)
               && (1 <=? dd) && (dd <=? days_in_month (y - 1) m)) = true).
  { repeat (apply andb_true_intro; split); apply Z.leb_le; lia. }
  rewrite H. reflexivity.
Qed.

(** On a 29 February it raises: the year before has no such day. *)
Lemma replace_year_leap_day :
  forall d,
    valid d = true -> month d = 2 -> day d = 29 ->
    replace_year d (year d - 1) = Raise ValueError.
Proof.
  intros d Hv Hm Hd. apply valid_fields in Hv.
  destruct d as [y m dd]. simpl in *. subst m dd.
  unfold replace_year, valid. simpl.
  assert (Hl : is_leap y = true).
  { destruct Hv as [_ [_ Hd]]. simpl in Hd. destruct (is_leap y); [reflexivity | lia]. }
  rewrite (leap_year_before y Hl). simpl.
  rewrite !andb_false_r. reflexivity.
Qed.

Lemma days_before_month_bounds :
  forall y m, 0 <= days_before_month y m <= 335.
Proof.
  intros y m. unfold days_before_month.
  destruct ((2 <? m) && is_leap y);
    destruct m as [| p | p]; try lia;
    do 4 (try destruct p as [p | p |]); lia.
Qed.

(** The day number of a date lies within its year. *)
Lemma toordinal_bounds :
  forall d,
    valid d = true ->
    days_before_year (year d) + 1 <= toordinal d <= days_before_year (year d) + 366.
Proof.
  intros d Hv. apply valid_fields in Hv.
  destruct d as [y m dd]. simpl in *. unfold toordinal. simpl.
  destruct Hv as [_ [Hm Hd]].
  apply month_cases in Hm.
  destruct Hm as [-> | [-> | [-> | [-> | [-> | [-> | [-> | [-> | [-> | [-> | [-> | ->]]]]]]]]]]];
    unfold days_before_month; simpl in *; destruct (is_leap y); simpl; lia.
Qed.

Lemma days_before_year_bounds :
  forall y, 1 <= y <= 9999 ->
    365 * (y - 1) <= days_before_year y
    /\ days_before_year y <= 365 * (y - 1) + 2499
    /\ days_before_year y <= 3651694.
Proof.
  intros y Hy. unfold days_before_year.
  pose proof (Z.div_mod (y - 1) 4 ltac:(lia)).
  pose proof (Z.mod_pos_bound (y - 1) 4 ltac:(lia)).
  pose proof (Z.div_mod (y - 1) 100 ltac:(lia)).
  pose proof (Z.mod_pos_bound (y - 1) 100 ltac:(lia)).
  pose proof (Z.div_mod (y - 1) 400 ltac:(lia)).
  pose proof (Z.mod_pos_bound (y - 1) 400 ltac:(lia)).
  lia.
Qed.

Lemma toordinal_range :
  forall d, valid d = true -> 1 <= toordinal d <= MAXORDINAL + 1.
Proof.
  intros d Hv. pose proof (toordinal_bounds d Hv) as Hb.
  apply valid_fields in Hv.
  pose proof (days_before_year_bounds (year d) ltac:(lia)).
  unfold MAXORDINAL. lia.
Qed.

Lemma shift_days_in_range :
  forall o n, 1 <= o + n <= MAXORDINAL -> shift_days o n = Ret (o + n).
Proof.
  intros o n H. unfold shift_days.
  assert (Hb : ((1 <=? o + n) && (o + n <=? MAXORDINAL)) = true).
  { apply andb_true_intro. split; apply Z.leb_le; lia. }
  rewrite Hb. reflexivity.
Qed.

Lemma window_query_in_range :
  forall sid target,
    16 <= target -> target + 15 <= MAXORDINAL ->
    window_query sid target = Ret (mkQuery sid (target - 15) (target + 15) target).
Proof.
  intros sid target Hlo Hhi. unfold window_query.
  rewrite (shift_days_in_range target (-15)) by lia. simpl.
  rewrite (shift_days_in_range target 15) by lia. simpl.
  replace (target + -15) with (target - 15) by lia. reflexivity.
Qed.

(* ------------------------------------------------------------------ *)
(** ** The nearest-date query *)

Lemma closest_spec :
  forall q l best r,
    closest q best l = Some r ->
    (best = Some r \/ In r l)
    /\ (forall b, best = Some b -> distance q r <= distance q b)
    /\ (forall x, In x l -> distance q r <= distance q x).
Proof.
  intros q l. induction l as [| x l IH]; intros best r H; simpl in H.
  - subst best. repeat split.
    + left. reflexivity.
    + intros b Hb. inversion Hb. lia.
    + intros x [].
  - destruct best as [b |].
    + destruct (distance q x <? distance q b) eqn:Hlt.
      * apply Z.ltb_lt in Hlt. apply IH in H. destruct H as [Hin [Hb Hall]].
        specialize (Hb x eq_refl). repeat split.
        -- right. destruct Hin as [Hin | Hin]; [inversion Hin; left; reflexivity | right; exact Hin].
        -- intros b' Hb'. inversion Hb'; subst. lia.
        -- intros y [<- | Hy]; [exact Hb | apply Hall; exact Hy].
      * apply Z.ltb_ge in Hlt. apply IH in H. destruct H as [Hin [Hb Hall]].
        specialize (Hb b eq_refl). repeat split.
        -- destruct Hin as [Hin | Hin]; [left; exact Hin | right; right; exact Hin].
        -- intros b' Hb'. inversion Hb'; subst. exact Hb.
        -- intros y [<- | Hy]; [lia | apply Hall; exact Hy].
    + apply IH in H. destruct H as [Hin [Hb Hall]]. repeat split.
      * right. destruct Hin as [Hin | Hin]; [inversion Hin; left; reflexivity | right; exact Hin].
      * intros b' Hb'. discriminate.
      * intros y [<- | Hy]; [apply Hb; reflexivity | apply Hall; exact Hy].
Qed.

Lemma closest_none :
  forall q l best, closest q best l = None -> best = None /\ l = [].
Proof.
  intros q l. induction l as [| x l IH]; intros best H; simpl in H.
  - split; [exact H | reflexivity].
  - destruct best as [b |].
    + destruct (distance q x <? distance q b); apply IH in H; destruct H; discriminate.
    + apply IH in H. destruct H. discriminate.
Qed.

(** X1: the row returned is a row of the series within the window, and no
    row of the series within the window is nearer to the target. *)
Lemma fetch_nearest_some :
  forall q t r,
    fetch_nearest q t = Some r ->
    In r t /\ in_window q r = true
    /\ (forall x, In x t -> in_window q x = true -> distance q r <= distance q x).
Proof.
  intros q t r H. unfold fetch_nearest, rows in H.
  destruct (order_by_date_spec (filter (in_window q) t)) as [_ Hperm].
  apply closest_spec in H. destruct H as [[Hin | Hin] [_ Hall]]; [discriminate |].
  apply (Permutation_in _ (Permutation_sym Hperm)) in Hin.
  apply filter_In in Hin. destruct Hin as [Hin Hw]. repeat split; try assumption.
  intros x Hx Hxw. apply Hall. apply (Permutation_in _ Hperm).
  apply filter_In. split; assumption.
Qed.

(** No row is returned exactly when no row of the series is in the window. *)
Lemma fetch_nearest_none :
  forall q t,
    fetch_nearest q t = None <-> (forall x, In x t -> in_window q x = false).
Proof.
  intros q t. unfold fetch_nearest, rows.
  destruct (order_by_date_spec (filter (in_window q) t)) as [_ Hperm]. split.
  - intros H x Hx. apply closest_none in H. destruct H as [_ H].
    destruct (in_window q x) eqn:Hw; [| reflexivity].
    assert (Hin : In x (filter (in_window q) t)) by (apply filter_In; split; assumption).
    apply (Permutation_in _ Hperm) in Hin. rewrite H in Hin. destruct Hin.
  - intro H. rewrite (filter_none _ (in_window q) t H). reflexivity.
Qed.

(** The row returned is the first of the rows of least distance. *)
Lemma closest_first :
  forall q l best r,
    closest q best l = Some r ->
    best = Some r
    \/ exists l1 l2,
         l = l1 ++ r :: l2
         /\ (forall x, In x l1 -> distance q r < distance q x)
         /\ (forall b, best = Some b -> distance q r < distance q b).
Proof.
  intros q l. induction l as [| x l IH]; intros best r H; simpl in H.
  - left. exact H.
  - destruct best as [b |].
    + destruct (distance q x <? distance q b) eqn:Hlt.
      * apply Z.ltb_lt in Hlt. apply IH in H. right.
        destruct H as [H | [l1 [l2 [Hl [H1 Hb]]]]].
        -- inversion H; subst x. exists [], l. split; [reflexivity |].
           split; [intros y [] |]. intros b' Hb'. inversion Hb'; subst b'. exact Hlt.
        -- exists (x :: l1), l2. split; [rewrite Hl; reflexivity |].
           pose proof (Hb x eq_refl) as Hx. split.
           ++ intros y [<- | Hy]; [exact Hx | apply H1; exact Hy].
           ++ intros b' Hb'. inversion Hb'; subst b'. lia.
      * apply Z.ltb_ge in Hlt. apply IH in H.
        destruct H as [H | [l1 [l2 [Hl [H1 Hb]]]]]; [left; exact H | right].
        exists (x :: l1), l2. split; [rewrite Hl; reflexivity |].
        pose proof (Hb b eq_refl) as Hrb. split.
        -- intros y [<- | Hy]; [lia | apply H1; exact Hy].
        -- intros b' Hb'. inversion Hb'; subst b'. exact Hrb.
    + apply IH in H. right.
      destruct H as [H | [l1 [l2 [Hl [H1 Hb]]]]].
      * inversion H; subst x. exists [], l. split; [reflexivity |].
        split; [intros y [] | intros b' Hb'; discriminate].
      * exists (x :: l1), l2. split; [rewrite Hl; reflexivity |].
        pose proof (Hb x eq_refl) as Hx. split.
        -- intros y [<- | Hy]; [exact Hx | apply H1; exact Hy].
        -- intros b' Hb'. discriminate.
Qed.

Lemma sorted_after :
  forall (l1 l2 : list Row) (r : Row),
    StronglySorted by_date (l1 ++ r :: l2) -> Forall (by_date r) l2.
Proof.
  induction l1 as [| x l1 IH]; intros l2 r Hs; simpl in Hs.
  - inversion Hs; assumption.
  - inversion Hs; subst. apply IH. assumption.
Qed.

(** Among the rows of the window that are as near to the target as the
    row returned, the row returned has the earliest date. *)
Lemma fetch_nearest_earliest :
  forall q t r x,
    fetch_nearest q t = Some r ->
    In x t -> in_window q x = true ->
    distance q x = distance q r ->
    date_leb (date r) (date x) = true.
Proof.
  intros q t r x H Hx Hw Hd. unfold fetch_nearest, rows in H.
  destruct (order_by_date_spec (filter (in_window q) t)) as [Hsorted Hperm].
  apply closest_first in H. destruct H as [H | [l1 [l2 [Hl [H1 _]]]]];
    [discriminate |].
  assert (Hin : In x (order_by_date (filter (in_window q) t))).
  { apply (Permutation_in _ Hperm). apply filter_In. split; assumption. }
  rewrite Hl in Hin, Hsorted. apply in_app_or in Hin.
  destruct Hin as [Hin | [<- | Hin]].
  - specialize (H1 x Hin). lia.
  - apply date_leb_spec. lia.
  - apply sorted_after in Hsorted. rewrite Forall_forall in Hsorted.
    exact (Hsorted x Hin).
Qed.

(** The window of a query built by [window_query]: fifteen days on each
    side of the target. *)
Lemma in_window_days :
  forall sid target r,
    in_window (mkQuery sid (target - 15) (target + 15) target) r = true <->
    series_id r = sid /\ Z.abs (toordinal (date r) - target) <= 15.
Proof.
  intros sid target r. unfold in_window. simpl.
  rewrite !andb_true_iff, String.eqb_eq, !Z.leb_le.
  generalize (toordinal (date r)). intro o. intuition lia.
Qed.

(* ------------------------------------------------------------------ *)
(** ** The change calculators *)

(** The change is a difference for a percentage, a relative change in
    percent otherwise, and undefined on a reference value of zero. *)
Lemma change_from_cases :
  forall format_type current h,
    (format_type = "percentage" ->
     change_from format_type current h = Some (current - h)%float)
    /\ (format_type <> "percentage" -> (h =? 0)%float = true ->
        change_from format_type current h = None)
    /\ (format_type <> "percentage" -> (h =? 0)%float = false ->
        change_from format_type current h
        = Some ((current - h) / abs h * 100)%float).
Proof.
  intros format_type current h. unfold change_from. repeat split.
  - intros ->. reflexivity.
  - intros Hf Hz. apply String.eqb_neq in Hf. rewrite Hf, Hz. reflexivity.
  - intros Hf Hz. apply String.eqb_neq in Hf. rewrite Hf, Hz. reflexivity.
Qed.



Lemma period_days_at_least_90 :
  forall period n, period_days period = Some n -> 90 <= n.
Proof.
  intros period n H. unfold period_days in H.
  repeat match type of H with
         | (if ?c then _ else _) = _ => destruct c
         end;
    inversion H; lia.
Qed.

Lemma last_point :
  forall (middle : list Point) (first p : Point),
    last (map Some (first :: middle ++ [p])) None = Some p.
Proof.
  induction middle as [| x middle IH]; intros first p.
  - reflexivity.
  - change (last (map Some (x :: middle ++ [p])) None = Some p). apply IH.
Qed.

(** A fixed period with a series: one query around the day [n] days before
    the last point of the data; when a row is found the change against it
    is returned, and when none is found the change from the first point of
    the data to the last one. *)
Lemma calculate_period_change_spec :
  forall first middle d v format_type period n sid t,
    sid <> "" ->
    period_days period = Some n ->
    valid d = true ->
    let target := toordinal d - n in
    16 <= target ->
    calculate_period_change (first :: middle ++ [(d, v)]) format_type period (Some sid) t
    = (Ret (match fetch_nearest (nearest_query sid target) t with
            | Some r => change_from format_type v (value r)
            | None => change_from format_type v (snd first)
            end),
       [nearest_query sid target]).
Proof.
  intros first middle d v format_type period n sid t Hsid Hper Hv target Hlo.
  pose proof (period_days_at_least_90 period n Hper) as Hn.
  pose proof (toordinal_range d Hv) as Hr.
  assert (Hhi : target + 15 <= MAXORDINAL) by (unfold target; lia).
  unfold calculate_period_change.
  match goal with
  | |- context [Z.of_nat ?len <? 2] =>
      assert (Hlen : (Z.of_nat len <? 2) = false)
        by (apply Z.ltb_ge; simpl List.length; rewrite length_app; simpl; lia);
      rewrite Hlen
  end.
  rewrite last_point. simpl fst. simpl snd.
  unfold truthy_series. apply String.eqb_neq in Hsid. rewrite Hsid, Hper.
  unfold db_bind, db_lift, db_fetchone, db_ret, strptime. cbn [fst snd].
  rewrite Hv.
  rewrite (shift_days_in_range (toordinal d) (- n)) by (unfold target in *; lia).
  replace (toordinal d + - n) with target by (unfold target; lia).
  rewrite (window_query_in_range sid target Hlo Hhi).
  fold (nearest_query sid target).
  destruct (fetch_nearest (nearest_query sid target) t); reflexivity.
Qed.

(** C1, a fixed period whose window holds no observation: the function
    does not return [None]; it goes on to the lines kept for the period
    MAX and for a missing series, and returns the change from the first
    point of the data to the last one. *)
Theorem period_change_on_empty_window :
  forall first middle d v format_type period n sid t,
    sid <> "" ->
    period_days period = Some n ->
    valid d = true ->
    16 <= toordinal d - n ->
    (forall r, In r t -> series_id r = sid ->
               15 < Z.abs (toordinal (date r) - (toordinal d - n))) ->
    calculate_period_change (first :: middle ++ [(d, v)]) format_type period (Some sid) t
    = (Ret (change_from format_type v (snd first)),
       [nearest_query sid (toordinal d - n)]).
Proof.
  intros first middle d v format_type period n sid t Hsid Hper Hv Hlo Hnone.
  rewrite (calculate_period_change_spec first middle d v format_type period n sid t
             Hsid Hper Hv Hlo).
  assert (Hf : fetch_nearest (nearest_query sid (toordinal d - n)) t = None).
  { apply fetch_nearest_none. intros x Hx.
    destruct (in_window (nearest_query sid (toordinal d - n)) x) eqn:Hw; [| reflexivity].
    apply in_window_days in Hw. destruct Hw as [Hs Hd].
    specialize (Hnone x Hx Hs). lia. }
  rewrite Hf. reflexivity.
Qed.

Lemma period_change_on_empty_window_witness :
  calculate_period_change
    ((mkDate 2023 1 1, 100%float) :: [] ++ [(mkDate 2024 6 1, 110%float)])
    "number" "3M" (Some "GDPC1") gdp_rows
  = (Ret (change_from "number" 110%float 100%float),
     [nearest_query "GDPC1" (toordinal (mkDate 2024 6 1) - 90)]).
Proof.
  apply (period_change_on_empty_window
           (mkDate 2023 1 1, 100%float) [] (mkDate 2024 6 1) 110%float
           "number" "3M" 90 "GDPC1" gdp_rows).
  - discriminate.
  - reflexivity.
  - reflexivity.
  - vm_compute. discriminate.
  - intros r [<- | [<- | []]] _; vm_compute; reflexivity.
Defined.

(** The value returned there is 10 percent, where the claim has no value. *)
Example period_change_on_empty_window_value :
  fst (calculate_period_change
         [(mkDate 2023 1 1, 100%float); (mkDate 2024 6 1, 110%float)]
         "number" "3M" (Some "GDPC1") gdp_rows)
  = Ret (Some 10%float).
Proof. vm_compute. reflexivity. Qed.

(** C4, as the code has it: on every day but a 29 February (the first
    days of the calendar apart) [calculate_yoy_change] runs its query for
    the same day of the year before, fifteen days on each side, and
    returns the change against the row found; on a 29 February the
    replacement of the year raises, no other day is taken in its place,
    and [calculate_yoy_change] returns [None] without a query. *)
Theorem yoy_target_date :
  forall d v sid series_id format_type t,
    valid d = true ->
    (2 <= year d -> ~ (month d = 2 /\ day d = 29) ->
     16 <= toordinal (mkDate (year d - 1) (month d) (day d)) ->
     calculate_yoy_change d v (Some sid) format_type t
     = (Ret (change_to format_type v
               (fetch_nearest
                  (nearest_query sid
                     (toordinal (mkDate (year d - 1) (month d) (day d)))) t)),
        [nearest_query sid (toordinal (mkDate (year d - 1) (month d) (day d)))]))
    /\ (month d = 2 -> day d = 29 ->
        replace_year d (year d - 1) = Raise ValueError
        /\ calculate_yoy_change d v series_id format_type t = (Ret None, [])).
Proof.
  intros d v sid series_id format_type t Hv. split.
  - intros Hy Hleap.
    set (target := toordinal (mkDate (year d - 1) (month d) (day d))).
    intro Hlo.
    pose proof (replace_year_same_day d Hv Hy Hleap) as Hrep.
    assert (Hv' : valid (mkDate (year d - 1) (month d) (day d)) = true).
    { unfold replace_year in Hrep.
      destruct (valid (mkDate (year d - 1) (month d) (day d)));
        [reflexivity | discriminate]. }
    pose proof (toordinal_range _ Hv') as Hrange. fold target in Hrange.
    pose proof (toordinal_bounds _ Hv') as Hb. fold target in Hb.
    apply valid_fields in Hv'. simpl in Hv'.
    pose proof (days_before_year_bounds (year d - 1) ltac:(lia)) as Hdb.
    assert (Hhi : target + 15 <= MAXORDINAL).
    { pose proof (valid_fields d Hv). simpl in Hb. clearbody target.
      unfold MAXORDINAL. lia. }
    unfold calculate_yoy_change, db_try, db_bind, db_lift, db_fetchone, db_ret,
      strptime.
    rewrite Hv, Hrep. fold target.
    rewrite (window_query_in_range sid target Hlo Hhi).
    fold (nearest_query sid target).
    destruct (fetch_nearest (nearest_query sid target) t); reflexivity.
  - intros Hm Hd.
    pose proof (replace_year_leap_day d Hv Hm Hd) as Hrep.
    split; [exact Hrep |].
    unfold calculate_yoy_change, db_try, db_bind, db_lift, strptime.
    rewrite Hv, Hrep. reflexivity.
Qed.

(** On 2024-03-15 the query is the one for 2023-03-15; on 2024-02-29
    there is none. *)
Lemma yoy_target_date_witness :
  snd (calculate_yoy_change (mkDate 2024 3 15) 110%float (Some "UNRATE")
         "percentage" [mkRow "UNRATE" (mkDate 2023 2 28) 100%float])
  = [nearest_query "UNRATE" (toordinal (mkDate 2023 3 15))]
  /\ calculate_yoy_change (mkDate 2024 2 29) 110%float (Some "UNRATE") "percentage"
       [mkRow "UNRATE" (mkDate 2023 2 28) 100%float]
     = (Ret None, []).
Proof.
  split.
  - rewrite (proj1 (yoy_target_date (mkDate 2024 3 15) 110%float "UNRATE" None
                      "percentage" [mkRow "UNRATE" (mkDate 2023 2 28) 100%float]
                      eq_refl)).
    + reflexivity.
    + simpl. lia.
    + simpl. intros [H _]. discriminate.
    + vm_compute. discriminate.
  - apply (proj2 (yoy_target_date (mkDate 2024 2 29) 110%float "UNRATE"
                    (Some "UNRATE") "percentage"
                    [mkRow "UNRATE" (mkDate 2023 2 28) 100%float]
                    eq_refl)); reflexivity.
Defined.

(** C4, as the claim states it: the current date is 2024-02-29 and the
    store holds an observation on 2023-02-28, one day from the clamped
    target; the change returned is [None]. *)
Lemma yoy_on_leap_day_is_none :
  calculate_yoy_change (mkDate 2024 2 29) 110%float (Some "UNRATE") "percentage"
    [mkRow "UNRATE" (mkDate 2023 2 28) 100%float]
  = (Ret None, []).
Proof. vm_compute. reflexivity. Qed.

(** The day after, the same store gives a change of 10 points. *)
Example yoy_on_first_of_march :
  fst (calculate_yoy_change (mkDate 2024 3 1) 110%float (Some "UNRATE") "percentage"
         [mkRow "UNRATE" (mkDate 2023 2 28) 100%float])
  = Ret (Some 10%float).
Proof. vm_compute. reflexivity. Qed.

(* ------------------------------------------------------------------ *)
(** ** Instances *)

(** The nearest-date query on two observations, 2023-01-01 and 2023-01-20,
    for the target 2023-01-10: the first one, at 9 days, is returned. *)
Lemma fetch_nearest_some_witness :
  let t := [mkRow "UNRATE" (mkDate 2023 1 1) 100%float;
            mkRow "UNRATE" (mkDate 2023 1 20) 110%float] in
  let q := nearest_query "UNRATE" (toordinal (mkDate 2023 1 10)) in
  let r := mkRow "UNRATE" (mkDate 2023 1 1) 100%float in
  In r t /\ in_window q r = true.
Proof.
  intros t q r.
  pose proof (fetch_nearest_some q t r eq_refl) as H.
  split; [exact (proj1 H) | exact (proj1 (proj2 H))].
Defined.



(** The same tie in a table where the row of the earlier date has the
    lower rowid: the row returned is the same. *)
Example fetch_nearest_tie :
  fetch_nearest (nearest_query "UNRATE" (toordinal (mkDate 2023 6 1))) year_tie_rows
  = Some (mkRow "UNRATE" (mkDate 2023 5 27) 3%float)
  /\ fetch_nearest (nearest_query "UNRATE" (toordinal (mkDate 2023 6 1)))
       (rev year_tie_rows)
     = Some (mkRow "UNRATE" (mkDate 2023 5 27) 3%float).
Proof. split; vm_compute; reflexivity. Qed.

Example calculate_qoq_change_empty_window :
  calculate_qoq_change (mkDate 2024 6 1) 110%float (Some "GDPC1") "number" gdp_rows
  = (Ret None, [nearest_query "GDPC1" (toordinal (mkDate 2024 3 3))]).
Proof. vm_compute. reflexivity. Qed.

Lemma inflation_score_nonzero_witness :
  analyze_indicator_health "PCEPI" 120%float (Some 2.75%float) 118%float 110%float
  = (if (1.5 <=? 2.75)%float && (2.75 <=? 2.5)%float then 0.9%float
     else if (1.0 <=? 2.75)%float && (2.75 <=? 3.0)%float then 0.7%float
     else if (2.75 <? 0)%float then 0.2%float
     else 0.4%float).
Proof.
  apply inflation_score_nonzero.
  - right. right. left. reflexivity.
  - reflexivity.
Defined.

Lemma change_from_cases_witness :
  change_from "percentage" 4.1%float 3.6%float = Some (4.1 - 3.6)%float
  /\ change_from "number" 110%float 0%float = None
  /\ change_from "currency" 110%float (-100)%float
     = Some ((110 - -100) / abs (-100) * 100)%float.
Proof.
  split; [| split].
  - apply (proj1 (change_from_cases "percentage" 4.1%float 3.6%float)). reflexivity.
  - apply (proj1 (proj2 (change_from_cases "number" 110%float 0%float))).
    + discriminate.
    + reflexivity.
  - apply (proj2 (proj2 (change_from_cases "currency" 110%float (-100)%float))).
    + discriminate.
    + reflexivity.
Defined.

(* ------------------------------------------------------------------ *)
(** ** What a synchronisation leaves alone *)

Lemma find_app_none :
  forall (A : Type) (p : A -> bool) (l1 l2 : list A),
    find p l1 = None -> find p (l1 ++ l2) = find p l2.
Proof.
  intros A p l1 l2. induction l1 as [| x l1 IH]; simpl; intro H.
  - reflexivity.
  - destruct (p x); [discriminate | apply IH; exact H].
Qed.

Lemma find_app_some :
  forall (A : Type) (p : A -> bool) (l1 l2 : list A) (a : A),
    find p l1 = Some a -> find p (l1 ++ l2) = Some a.
Proof.
  intros A p l1 l2 a. induction l1 as [| x l1 IH]; simpl; intro H.
  - discriminate.
  - destruct (p x); [exact H | apply IH; exact H].
Qed.

Lemma find_filter_implied :
  forall (A : Type) (p q : A -> bool) (l : list A),
    (forall x, p x = true -> q x = true) ->
    find p (filter q l) = find p l.
Proof.
  intros A p q l H. induction l as [| x l IH]; simpl.
  - reflexivity.
  - destruct (q x) eqn:Hq; simpl.
    + destruct (p x); [reflexivity | exact IH].
    + destruct (p x) eqn:Hp; [| exact IH].
      rewrite (H x Hp) in Hq. discriminate.
Qed.

Lemma find_filter_excluded :
  forall (A : Type) (p q : A -> bool) (l : list A),
    (forall x, p x = true -> q x = false) ->
    find p (filter q l) = None.
Proof.
  intros A p q l H. induction l as [| x l IH]; simpl.
  - reflexivity.
  - destruct (q x) eqn:Hq; simpl; [| exact IH].
    destruct (p x) eqn:Hp; [| exact IH].
    rewrite (H x Hp) in Hq. discriminate.
Qed.

(** The metadata written for a series are the ones read back. *)
Lemma select_after_replace :
  forall sid last f u ttl m,
    select_last_updated sid (replace_meta (mkMeta sid last f u ttl) m) = Some last.
Proof.
  intros sid last f u ttl m. unfold select_last_updated, replace_meta. simpl.
  rewrite find_app_none.
  - simpl. rewrite String.eqb_refl. reflexivity.
  - apply find_filter_excluded. intros x Hx. rewrite Hx. reflexivity.
Qed.

(** The metadata of another series are not touched. *)
Lemma select_other_after_replace :
  forall sid other r m,
    other <> meta_series r ->
    sid = other ->
    select_last_updated sid (replace_meta r m) = select_last_updated sid m.
Proof.
  intros sid other r m Hne ->. unfold select_last_updated, replace_meta.
  assert (Hf : find (fun x => String.eqb (meta_series x) other)
                 (filter (fun x => negb (String.eqb (meta_series x) (meta_series r))) m)
               = find (fun x => String.eqb (meta_series x) other) m).
  { apply find_filter_implied. intros x Hx. apply String.eqb_eq in Hx.
    apply negb_true_iff. apply String.eqb_neq. congruence. }
  destruct (find (fun x => String.eqb (meta_series x) other) m) as [a |] eqn:Hm.
  - rewrite (find_app_some _ _ _ _ a Hf). reflexivity.
  - rewrite (find_app_none _ _ _ _ Hf). simpl.
    assert (Hr : String.eqb (meta_series r) other = false)
      by (apply String.eqb_neq; congruence).
    rewrite Hr. reflexivity.
Qed.

(** The storing loop keeps the rows of every other series, in their order. *)
Lemma store_observations_other_series :
  forall float_of sid other obs t,
    other <> sid ->
    filter (fun r => String.eqb (series_id r) other)
      (store_observations float_of sid obs t)
    = filter (fun r => String.eqb (series_id r) other) t.
Proof.
  intros float_of sid other obs t Hne.
  rewrite (store_observations_split float_of sid obs t).
  rewrite filter_app, filter_filter.
  rewrite (filter_none _ (fun r => String.eqb (series_id r) other)
             (store_observations float_of sid obs [])).
  - rewrite app_nil_r. apply filter_ext_in. intros r _.
    destruct (String.eqb (series_id r) other) eqn:Hs; [| apply andb_false_r].
    rewrite andb_true_r. apply negb_true_iff.
    unfold touched. apply not_true_is_false. intro Hex.
    apply existsb_exists in Hex. destruct Hex as [o [_ Ho]].
    apply andb_prop in Ho. destruct Ho as [_ Hk].
    unfold same_key in Hk. apply andb_prop in Hk. destruct Hk as [Hk _].
    apply String.eqb_eq in Hs. apply String.eqb_eq in Hk. congruence.
  - intros r Hin. apply store_observations_touched in Hin.
    destruct Hin as [[] | Ht].
    unfold touched in Ht. apply existsb_exists in Ht. destruct Ht as [o [_ Ho]].
    apply andb_prop in Ho. destruct Ho as [_ Hk].
    unfold same_key in Hk. apply andb_prop in Hk. destruct Hk as [Hk _].
    apply String.eqb_eq in Hk. apply String.eqb_neq. congruence.
Qed.

(** X4: a synchronisation of one series changes nothing of another series:
    its rows in [indicator_data] stay as they were, in their order, every
    answer of [get_indicator_data] for it is the same, and so is its row of
    metadata -- whether the fetch succeeds, fails or is skipped. *)
Theorem update_leaves_other_series :
  forall float_of remote now now_stored series_id force_update st other,
    other <> series_id ->
    let st' := snd (fst (update_indicator_data float_of remote now now_stored
                           series_id force_update st)) in
    filter (fun r => String.eqb (Store.series_id r) other) (indicator_data st')
    = filter (fun r => String.eqb (Store.series_id r) other) (indicator_data st)
    /\ (forall clock days_back,
           get_indicator_data clock other days_back (indicator_data st')
           = get_indicator_data clock other days_back (indicator_data st))
    /\ select_last_updated other (api_metadata st')
       = select_last_updated other (api_metadata st).
Proof.
  intros float_of remote now now_stored series_id force_update st other Hne st'.
  assert (Hrows : filter (fun r => String.eqb (Store.series_id r) other) (indicator_data st')
                  = filter (fun r => String.eqb (Store.series_id r) other) (indicator_data st)
                  /\ select_last_updated other (api_metadata st')
                     = select_last_updated other (api_metadata st)).
  { subst st'. unfold update_indicator_data.
    destruct (match select_last_updated series_id (api_metadata st) with
              | Some last => negb force_update && (now - last <? hours 12)
              | None => false
              end); [split; reflexivity |].
    match goal with
    | |- context [remote series_id ?s] => destruct (remote series_id s)
    end; simpl; [| split; reflexivity].
    split.
    - apply store_observations_other_series. exact Hne.
    - apply (select_other_after_replace other other); [exact Hne | reflexivity]. }
  destruct Hrows as [Hrows Hmeta]. repeat split; try assumption.
  intros clock days_back. unfold get_indicator_data, rows. rewrite Hrows. reflexivity.
Qed.

(** X5: the database changes only when a fetch succeeds.  When
    [update_indicator_data] returns [False], exactly one fetch was issued,
    it failed, and the database is as it was; and when no fetch was issued
    the value is [True] and the database is as it was. *)
Theorem update_changes_only_on_success :
  forall float_of remote now now_stored series_id force_update st,
    let r := update_indicator_data float_of remote now now_stored
               series_id force_update st in
    (fst (fst r) = false ->
     snd (fst r) = st
     /\ exists start error,
          snd r = [mkFetch series_id start]
          /\ remote series_id start = FredFailure error)
    /\ (snd r = [] -> fst (fst r) = true /\ snd (fst r) = st).
Proof.
  intros float_of remote now now_stored series_id force_update st r. subst r.
  unfold update_indicator_data.
  destruct (match select_last_updated series_id (api_metadata st) with
            | Some last => negb force_update && (now - last <? hours 12)
            | None => false
            end).
  - simpl. split; [discriminate | intros _; split; reflexivity].
  - match goal with
    | |- context [remote series_id ?s] =>
        set (start := s); destruct (remote series_id start) as [obs meta | error] eqn:Hr
    end; simpl.
    + split; discriminate.
    + split; [| discriminate].
      intros _. split; [reflexivity |].
      exists start, error. split; [reflexivity | exact Hr].
Qed.

(** X6: a synchronisation that fetched and succeeded writes the time of
    the write as [last_updated] of the series, and a further unforced
    synchronisation less than 12 hours after that time fetches nothing and
    leaves the database as it is. *)
Theorem update_then_skipped :
  forall float_of remote now now_stored series_id force_update st,
    let r := update_indicator_data float_of remote now now_stored
               series_id force_update st in
    fst (fst r) = true ->
    snd r <> [] ->
    select_last_updated series_id (api_metadata (snd (fst r))) = Some now_stored
    /\ (forall remote' later later_stored,
           later - now_stored < hours 12 ->
           update_indicator_data float_of remote' later later_stored
             series_id false (snd (fst r))
           = (true, snd (fst r), [])).
Proof.
  intros float_of remote now now_stored series_id force_update st r Hok Hcalls.
  assert (Hsel : select_last_updated series_id (api_metadata (snd (fst r)))
                 = Some now_stored).
  { subst r. revert Hok Hcalls. unfold update_indicator_data.
    destruct (match select_last_updated series_id (api_metadata st) with
              | Some last => negb force_update && (now - last <? hours 12)
              | None => false
              end); simpl; [congruence |].
    match goal with
    | |- context [remote series_id ?s] => destruct (remote series_id s)
    end; simpl; [| discriminate].
    intros _ _. apply select_after_replace. }
  split; [exact Hsel |].
  intros remote' later later_stored Hlt.
  unfold update_indicator_data at 1. rewrite Hsel. simpl.
  assert (H : (later - now_stored <? hours 12) = true) by (apply Z.ltb_lt; exact Hlt).
  rewrite H. reflexivity.
Qed.

(* ------------------------------------------------------------------ *)
(** ** What the storing loop writes and keeps *)

(** [INSERT OR REPLACE] keeps every key that the table holds. *)
Lemma insert_or_replace_keeps_key :
  forall ksid kd sid d v t,
    (exists r, In r t /\ same_key ksid kd r = true) ->
    exists r', In r' (insert_or_replace sid d v t) /\ same_key ksid kd r' = true.
Proof.
  intros ksid kd sid d v t [r [Hin Hk]]. unfold insert_or_replace, rows.
  destruct (same_key sid d r) eqn:Hs.
  - exists (mkRow sid d v). split.
    + apply in_or_app. right. left. reflexivity.
    + apply same_key_spec in Hs. apply same_key_spec in Hk.
      destruct Hs as [Hs1 Hs2], Hk as [Hk1 Hk2].
      apply same_key_spec. simpl. split; [congruence |].
      apply date_eqb_eq in Hs2. apply date_eqb_eq in Hk2.
      apply date_eqb_eq. intuition congruence.
  - exists r. split; [| exact Hk].
    apply in_or_app. left. apply filter_In. split; [exact Hin |].
    rewrite Hs. reflexivity.
Qed.

Lemma store_observations_keeps_key :
  forall float_of sid obs ksid kd t,
    (exists r, In r t /\ same_key ksid kd r = true) ->
    exists r', In r' (store_observations float_of sid obs t)
               /\ same_key ksid kd r' = true.
Proof.
  intros float_of sid obs ksid kd. induction obs as [| o obs IH]; intros t H.
  - exact H.
  - rewrite store_observations_cons. apply IH.
    destruct (String.eqb (obs_value o) "."); [exact H |].
    destruct (float_of (obs_value o)) as [v |]; [| exact H].
    apply insert_or_replace_keeps_key. exact H.
Qed.

(** X7: the storing loop never deletes a key and never invents a value.
    Every row it leaves is a row that was there, or a row of the series
    whose date is the one of an observation whose text is not the
    missing token and is read by [float], and whose value, when [float]
    gives a number, is that number as the column gives it back (the
    negative zero as zero); and for every row that was there the table
    still holds a row of the same series and date. *)
Theorem store_observations_rows :
  forall float_of sid obs t,
    (forall r,
        In r (store_observations float_of sid obs t) ->
        In r t
        \/ (series_id r = sid
            /\ exists o v,
                 In o obs
                 /\ obs_value o <> "."
                 /\ float_of (obs_value o) = Some v
                 /\ date r = obs_date o
                 /\ (is_nan v = false -> value r = real_column v)
                 /\ (is_nan v = false -> (v =? 0)%float = false -> value r = v)))
    /\ (forall r,
        In r t ->
        exists r', In r' (store_observations float_of sid obs t)
                   /\ series_id r' = series_id r
                   /\ date_eqb (date r') (date r) = true).
Proof.
  intros float_of sid obs t. split.
  - revert t. induction obs as [| o obs IH]; intros t r Hin.
    + left. exact Hin.
    + rewrite store_observations_cons in Hin.
      assert (Hrest : forall t0,
                 In r (store_observations float_of sid obs t0) ->
                 In r t0
                 \/ (series_id r = sid
                     /\ exists o' v,
                          In o' (o :: obs)
                          /\ obs_value o' <> "."
                          /\ float_of (obs_value o') = Some v
                          /\ date r = obs_date o'
                          /\ (is_nan v = false -> value r = real_column v)
                          /\ (is_nan v = false -> (v =? 0)%float = false ->
                              value r = v))).
      { intros t0 H0. apply IH in H0. destruct H0 as [H0 | [Hs [o' [v [Ho' H0]]]]].
        - left. exact H0.
        - right. split; [exact Hs |]. exists o', v.
          split; [right; exact Ho' | exact H0]. }
      destruct (String.eqb (obs_value o) ".") eqn:Hdot; [apply Hrest; exact Hin |].
      destruct (float_of (obs_value o)) as [v |] eqn:Hf; [| apply Hrest; exact Hin].
      apply Hrest in Hin. destruct Hin as [Hin | Hin]; [| right; exact Hin].
      unfold insert_or_replace, rows in Hin.
      apply in_app_or in Hin. destruct Hin as [Hin | [<- | []]].
      * left. apply filter_In in Hin. tauto.
      * right. simpl. split; [reflexivity |].
        exists o, v. split; [left; reflexivity |].
        split; [apply String.eqb_neq; exact Hdot |].
        split; [exact Hf |]. split; [reflexivity |].
        split; [intros _; reflexivity |].
        intros _ Hz. unfold real_column. rewrite Hz. reflexivity.
  - intros r Hin.
    destruct (store_observations_keeps_key float_of sid obs (series_id r) (date r) t)
      as [r' [Hin' Hk]].
    + exists r. split; [exact Hin |]. apply same_key_spec.
      split; [reflexivity | apply date_eqb_refl].
    + apply same_key_spec in Hk. exists r'. tauto.
Qed.

(* ------------------------------------------------------------------ *)
(** ** The points of a series *)

(** X8: when [get_indicator_data] returns, the points come in ascending
    order of their dates, and they are exactly the stored rows of the
    series from the cutoff on, each one once: no point is lost, and none
    comes from another series or from before the cutoff.  Without
    [days_back], or with [days_back] zero, there is no cutoff. *)
Theorem get_indicator_data_sorted_complete :
  forall now series days_back t points,
    get_indicator_data now series days_back t = Ret points ->
    StronglySorted (fun p q => date_leb (fst p) (fst q) = true) points
    /\ Permutation points
         (map (fun r => (date r, value r))
            (filter (fun r => String.eqb (series_id r) series
                              && from_cutoff now days_back r) t)).
Proof.
  intros now series days_back t points H.
  unfold get_indicator_data, rows in H.
  set (of_series := filter (fun r => String.eqb (series_id r) series) t) in H.
  assert (Hsel : exists l,
             points = map (fun r => (date r, value r)) (order_by_date l)
             /\ l = filter (from_cutoff now days_back) of_series).
  { unfold from_cutoff. destruct days_back as [n |].
    - destruct (n =? 0) eqn:Hn.
      + simpl in H. inversion H. exists of_series. split; [reflexivity |].
        symmetry. apply forallb_filter_id. apply forallb_forall. reflexivity.
      + destruct (shift_days (day_of now) (- n)) as [c | e] eqn:Hc; simpl in H;
          [| discriminate].
        inversion H. eexists. split; [reflexivity |].
        unfold shift_days in Hc.
        destruct ((1 <=? day_of now + - n) && (day_of now + - n <=? MAXORDINAL));
          inversion Hc. reflexivity.
    - simpl in H. inversion H. exists of_series. split; [reflexivity |].
      symmetry. apply forallb_filter_id. apply forallb_forall. reflexivity. }
  destruct Hsel as [l [-> Hl]].
  destruct (order_by_date_spec l) as [Hs Hp]. split.
  - apply StronglySorted_map. exact Hs.
  - apply Permutation_sym. apply Permutation_map.
    apply perm_trans with l; [| exact Hp].
    rewrite Hl. unfold of_series. rewrite filter_filter. apply Permutation_refl.
Qed.

(* ------------------------------------------------------------------ *)
(** ** A saved list is served from the cache *)

(** A snapshot more recent than every row of the table is the first of
    [ORDER BY created_at DESC] once it is inserted. *)
Lemma newest_first_app_newest :
  forall (t : CacheTable) (new : Snapshot),
    (forall s, In s t -> created_at s < created_at new) ->
    newest_first (t ++ [new]) = new :: newest_first t.
Proof.
  induction t as [| r t IH]; intros new Hlt.
  - reflexivity.
  - simpl. rewrite IH by (intros s Hs; apply Hlt; right; exact Hs).
    simpl. assert (H : comes_before new r = true).
    { unfold comes_before. apply orb_true_iff. left.
      apply Z.ltb_lt. apply Hlt. left. reflexivity. }
    rewrite H. reflexivity.
Qed.

(** X9: a list that is not empty and that [json] writes and reads back,
    once saved when every snapshot of the table is dated before the save
    (and has a rowid below the largest one), is what
    [get_recent_updates_with_cache] returns during the 12 hours that
    follow, whatever a recomputation would give, and the table is left as
    it is; from 12 hours after the save on, the snapshot is no longer
    read from the cache. *)
Theorem saved_updates_are_served :
  forall (Update : Type) (dumps : list Update -> py string)
         (loads : string -> py (list Update)) (now_saved : Z)
         (fresh_updates : list Update) (cache_json : string) (t : CacheTable),
    fresh_updates <> [] ->
    dumps fresh_updates = Ret cache_json ->
    loads cache_json = Ret fresh_updates ->
    (forall s, In s t -> created_at s < now_saved /\ cache_id s < MAX_ROWID) ->
    let t' := save_recent_updates_cache dumps now_saved fresh_updates t in
    forall (later later_saved : Z) (body : py (list Update)),
      (later - now_saved < hours 12 ->
       get_recent_updates_with_cache dumps loads later later_saved body t'
       = (fresh_updates, t'))
      /\ (hours 12 <= later - now_saved ->
          get_cached_recent_updates loads later t' = None).
Proof.
  intros Update dumps loads now_saved fresh_updates cache_json t
         Hne Hdumps Hloads Hle t' later later_saved body.
  assert (Hfirst : newest_first t'
                   = mkSnapshot (next_id (delete_old t)) cache_json now_saved
                     :: newest_first (delete_old t)).
  { subst t'. unfold save_recent_updates_cache. rewrite Hdumps.
    apply newest_first_app_newest. simpl. intros s Hs.
    apply Hle. apply delete_old_incl. exact Hs. }
  split; intro Hage.
  - unfold get_recent_updates_with_cache, get_cached_recent_updates.
    rewrite Hfirst. simpl.
    assert (H : (later - now_saved <? hours 12) = true) by (apply Z.ltb_lt; exact Hage).
    rewrite H, Hloads.
    destruct fresh_updates as [| u l]; [contradiction Hne; reflexivity | reflexivity].
  - unfold get_cached_recent_updates. rewrite Hfirst. simpl.
    assert (H : (later - now_saved <? hours 12) = false) by (apply Z.ltb_ge; exact Hage).
    rewrite H. reflexivity.
Qed.

(** X10: the cache table stays small.  When the ids of the table are
    distinct, they are distinct after [get_recent_updates_with_cache], and
    the table then holds at most six snapshots, or as many as it held
    when nothing was saved. *)
Theorem cache_stays_bounded :
  forall (Update : Type) (dumps : list Update -> py string)
         (loads : string -> py (list Update)) (now now_saved : Z)
         (body : py (list Update)) (t : CacheTable),
    NoDup (map cache_id t) ->
    let t' := snd (get_recent_updates_with_cache dumps loads now now_saved body t) in
    NoDup (map cache_id t')
    /\ (t' = t \/ (List.length t' <= 6)%nat).
Proof.
  intros Update dumps loads now now_saved body t Hnd t'.
  assert (Hsave : forall l,
             let s := save_recent_updates_cache dumps now_saved l t in
             NoDup (map cache_id s) /\ (s = t \/ (List.length s <= 6)%nat)).
  { intros l s. subst s. unfold save_recent_updates_cache.
    destruct (dumps l) as [j | e]; [| split; [exact Hnd | left; reflexivity]].
    split.
    - rewrite map_app. simpl.
      apply (Permutation_NoDup
               (l := next_id (delete_old t) :: map cache_id (delete_old t)));
        [apply Permutation_cons_append |].
      constructor.
      + intro Hin. apply in_map_iff in Hin. destruct Hin as [s [Hid Hs]].
        pose proof (next_id_above (delete_old t) s Hs) as Hlt.
        rewrite Hid in Hlt. exact (Z.lt_irrefl _ Hlt).
      + unfold delete_old. apply NoDup_map_filter. exact Hnd.
    - right. rewrite length_app, delete_old_length by exact Hnd.
      cbn [List.length]. lia. }
  subst t'. unfold get_recent_updates_with_cache.
  destruct (get_cached_recent_updates loads now t) as [[| u l] |].
  - destruct body as [[| f fs] | e]; simpl;
      try (split; [exact Hnd | left; reflexivity]).
    apply Hsave.
  - simpl. split; [exact Hnd | left; reflexivity].
  - destruct body as [[| f fs] | e]; simpl;
      try (split; [exact Hnd | left; reflexivity]).
    apply Hsave.
Qed.

(* ------------------------------------------------------------------ *)
(** ** Instances of the synchronisation and cache properties *)

Lemma update_leaves_other_series_witness :
  filter (fun r => String.eqb (Store.series_id r) "GDPC1")
    (indicator_data
       (snd (fst (update_indicator_data sample_float_of sample_remote
                    (hours 13) (hours 13) "UNRATE" false two_series))))
  = gdp_rows.
Proof.
  refine (proj1 (update_leaves_other_series sample_float_of sample_remote
                   (hours 13) (hours 13) "UNRATE" false two_series "GDPC1" _)).
  discriminate.
Defined.

Lemma update_then_skipped_witness :
  select_last_updated "UNRATE"
    (api_metadata
       (snd (fst (update_indicator_data sample_float_of sample_remote
                    (hours 13) (hours 13) "UNRATE" false two_series))))
  = Some (hours 13).
Proof.
  refine (proj1 (update_then_skipped sample_float_of sample_remote
                   (hours 13) (hours 13) "UNRATE" false two_series _ _)).
  - reflexivity.
  - discriminate.
Defined.

Lemma get_indicator_data_sorted_complete_witness :
  StronglySorted (fun p q => date_leb (fst p) (fst q) = true)
    [(mkDate 2023 1 1, 100%float); (mkDate 2024 6 1, 110%float)]
  /\ Permutation
       [(mkDate 2023 1 1, 100%float); (mkDate 2024 6 1, 110%float)]
       (map (fun r => (date r, value r))
          (filter (fun r => String.eqb (series_id r) "GDPC1"
                            && from_cutoff 0 None r) unordered_rows)).
Proof.
  apply (get_indicator_data_sorted_complete 0 "GDPC1" None unordered_rows).
  reflexivity.
Defined.

Lemma saved_updates_are_served_witness :
  get_recent_updates_with_cache sample_dumps sample_loads (hours 18) (hours 18)
    (Raise ValueError)
    (save_recent_updates_cache sample_dumps (hours 7) [7] six_snapshots)
  = ([7], save_recent_updates_cache sample_dumps (hours 7) [7] six_snapshots).
Proof.
  refine (proj1 (saved_updates_are_served Z sample_dumps sample_loads (hours 7)
                   [7] "[7]" six_snapshots _ _ _ _
                   (hours 18) (hours 18) (Raise ValueError)) _).
  - discriminate.
  - reflexivity.
  - reflexivity.
  - intros s Hs. simpl in Hs.
    repeat (destruct Hs as [<- | Hs]; [split; vm_compute; reflexivity |]).
    destruct Hs.
  - vm_compute. reflexivity.
Defined.

Lemma cache_stays_bounded_witness :
  NoDup (map cache_id
           (snd (get_recent_updates_with_cache sample_dumps sample_loads
                   (hours 20) (hours 20) (Ret [7]) six_snapshots)))
  /\ (snd (get_recent_updates_with_cache sample_dumps sample_loads
             (hours 20) (hours 20) (Ret [7]) six_snapshots) = six_snapshots
      \/ (List.length
            (snd (get_recent_updates_with_cache sample_dumps sample_loads
                    (hours 20%Z) (hours 20%Z) (Ret [7%Z]) six_snapshots)) <= 6)%nat).
Proof.
  refine (cache_stays_bounded Z sample_dumps sample_loads (hours 20) (hours 20)
            (Ret [7]) six_snapshots _).
  vm_compute. repeat constructor; simpl; intuition discriminate.
Defined.

(* ------------------------------------------------------------------ *)
(** ** Fetching a series *)

Lemma handler_fails : forall e, exists error, handler e = FredFailure error.
Proof. intro e. destruct e; simpl; eauto. Qed.

(** The cases of [fetch_fred_data] that end before the second request,
    and those that end with a failure after it. *)
Ltac fetch_early :=
  repeat split;
  try (left; reflexivity);
  try (let H := fresh in intro H; discriminate H);
  try (let H := fresh in intros [? [? [H _]]]; discriminate H).

Ltac fetch_late Hmeta Hno :=
  repeat split;
  try (right; reflexivity);
  try (let H := fresh in intro H; discriminate H);
  try (intros _; exact Hmeta);
  try (let H := fresh in intro H; exfalso; exact (Hno _ _ H)).

(** X11: [fetch_fred_data] succeeds exactly when both requests are
    answered with status 200 by a JSON object without [error_code] and
    the list [seriess] is absent or not empty; the observations returned
    are then those of the second object (none when the key is absent)
    and the metadata the first entry of [seriess].  The metadata are
    requested first, without a start date; the observations are
    requested only after metadata that are good, with the start date
    given; nothing else is requested. *)
Theorem fetch_fred_data_spec :
  forall (http : Http) (series_id : string) (start_date : option Z),
    let meta_request := mkRequest Series series_id None in
    let obs_request := mkRequest SeriesObservations series_id start_date in
    let r := fetch_fred_data http series_id start_date in
    (forall obs metadata,
        fst r = FredSuccess obs metadata
        <-> exists b1 b2,
              good http meta_request = Some b1
              /\ first_series b1 = Some metadata
              /\ good http obs_request = Some b2
              /\ obs = get_default (Fred.observations b2) [])
    /\ (snd r = [meta_request; obs_request]
        <-> exists b1 metadata,
              good http meta_request = Some b1
              /\ first_series b1 = Some metadata)
    /\ (snd r = [meta_request] \/ snd r = [meta_request; obs_request]).
Proof.
  intros http series_id start_date meta_request obs_request r.
  subst r. unfold fetch_fred_data, good, first_series.
  fold meta_request. fold obs_request.
  destruct (http meta_request) as [e1 | r1].
  { destruct (handler_fails e1) as [err ->]. simpl. fetch_early. }
  destruct (status_code r1 =? 200); simpl; [| fetch_early].
  destruct (json r1) as [e1 | b1].
  { destruct (handler_fails e1) as [err ->]. simpl. fetch_early. }
  destruct (has_error_code b1); simpl; [fetch_early |].
  destruct (get_default (seriess b1) [mkInfo "" "" ""]) as [| m ms] eqn:Hs; simpl.
  { repeat split; try (intro H; discriminate H); try (left; reflexivity).
    - intros [b1' [b2 [H1 [H2 _]]]]. inversion H1; subst b1'.
      rewrite Hs in H2. discriminate.
    - intros [b1' [m [H1 H2]]]. inversion H1; subst b1'.
      rewrite Hs in H2. discriminate. }
  assert (Hmeta : exists b1' metadata,
             Some b1 = Some b1'
             /\ head (get_default (seriess b1') [mkInfo "" "" ""]) = Some metadata).
  { exists b1, m. rewrite Hs. split; reflexivity. }
  assert (Hno : forall obs metadata,
             (exists b1' b2 : Body,
                 Some b1 = Some b1'
                 /\ head (get_default (seriess b1') [mkInfo "" "" ""]) = Some metadata
                 /\ None = Some b2
                 /\ obs = get_default (Fred.observations b2) []) -> False).
  { intros obs metadata [b1' [b2 [_ [_ [H _]]]]]. discriminate. }
  destruct (http obs_request) as [e2 | r2].
  { destruct (handler_fails e2) as [err ->]. simpl. fetch_late Hmeta Hno. }
  destruct (status_code r2 =? 200); simpl; [| fetch_late Hmeta Hno].
  destruct (json r2) as [e2 | b2].
  { destruct (handler_fails e2) as [err ->]. simpl. fetch_late Hmeta Hno. }
  destruct (has_error_code b2); simpl; [fetch_late Hmeta Hno |].
  repeat split; try (right; reflexivity); try (intros _; exact Hmeta).
  - intro H. inversion H; subst. exists b1, b2. rewrite Hs.
    repeat split; reflexivity.
  - intros [b1' [b2' [H1 [H2 [H3 H4]]]]].
    inversion H1; subst b1'. inversion H3; subst b2'.
    rewrite Hs in H2. simpl in H2. inversion H2. subst. reflexivity.
Qed.

(* ------------------------------------------------------------------ *)
(** ** The initial load *)

Lemma distinct_NoDup : forall l, distinct l = true -> NoDup l.
Proof.
  induction l as [| x l IH]; simpl; intro H.
  - constructor.
  - apply andb_prop in H. destruct H as [Hx Hl]. constructor.
    + intro Hin. apply negb_true_iff in Hx.
      assert (Ht : existsb (String.eqb x) l = true).
      { apply existsb_exists. exists x. split; [exact Hin | apply String.eqb_refl]. }
      congruence.
    + apply IH. exact Hl.
Qed.

(** No series occurs twice in the catalogue. *)
Lemma all_series_distinct : NoDup all_series.
Proof. apply distinct_NoDup. vm_compute. reflexivity. Qed.

(** A forced synchronisation fetches the whole history, whatever the
    metadata say. *)
Lemma update_forced :
  forall float_of remote now now_stored series_id st,
    update_indicator_data float_of remote now now_stored series_id true st
    = match remote series_id None with
      | FredFailure _ => (false, st, [mkFetch series_id None])
      | FredSuccess observations metadata =>
          (true,
           mkDatabase
             (store_observations float_of series_id observations (indicator_data st))
             (replace_meta
                (mkMeta series_id now_stored (info_frequency metadata)
                   (info_units metadata) (info_title metadata))
                (api_metadata st)),
           [mkFetch series_id None])
      end.
Proof.
  intros float_of remote now now_stored series_id st.
  unfold update_indicator_data.
  destruct (select_last_updated series_id (api_metadata st)); simpl;
    destruct (remote series_id None); reflexivity.
Qed.

Lemma untouched_refl : forall sid st, untouched sid st st.
Proof. intros sid st. split; reflexivity. Qed.

Lemma untouched_trans :
  forall sid a b c, untouched sid a b -> untouched sid b c -> untouched sid a c.
Proof.
  intros sid a b c [H1 H2] [H3 H4]. split; congruence.
Qed.

Lemma load_series_spec :
  forall float_of remote clock series st,
    let r := load_series float_of remote clock series st in
    snd r = map (fun sid => mkFetch sid None) series
    /\ fst (fst r) = map (fun sid => (sid, succeeded (remote sid None))) series
    /\ (forall sid,
           ~ In sid series \/ succeeded (remote sid None) = false ->
           untouched sid st (snd (fst r)))
    /\ (NoDup series ->
        forall sid,
          In sid series -> succeeded (remote sid None) = true ->
          select_last_updated sid (api_metadata (snd (fst r))) = Some (clock sid)).
Proof.
  intros float_of remote clock series.
  induction series as [| s rest IH]; intro st; simpl.
  - repeat split; try reflexivity. intros _ sid [].
  - rewrite update_forced.
    destruct (remote s None) as [obs meta | err] eqn:Hr.
    + set (st1 := mkDatabase _ _).
      specialize (IH st1).
      destruct (load_series float_of remote clock rest st1) as [[log st2] calls].
      simpl in IH. destruct IH as [Hcalls [Hlog [Hleft Hset]]]. simpl.
      assert (Hstep : forall sid, sid <> s -> untouched sid st st1).
      { intros sid Hne. split.
        - apply store_observations_other_series. exact Hne.
        - apply (select_other_after_replace sid sid); [exact Hne | reflexivity]. }
      split; [rewrite Hcalls; reflexivity |].
      split; [rewrite Hlog; reflexivity |].
      split.
      * intros sid Hsid.
        assert (Hne : sid <> s).
        { intros ->. destruct Hsid as [Hn | Hf].
          - apply Hn. left. reflexivity.
          - rewrite Hr in Hf. discriminate. }
        apply (untouched_trans sid st st1 st2); [apply Hstep; exact Hne |].
        apply Hleft. destruct Hsid as [Hn | Hf]; [left | right; exact Hf].
        intro Hin. apply Hn. right. exact Hin.
      * intros Hnd sid Hin Hok. inversion Hnd as [| ? ? Hnin Hnd']; subst.
        destruct Hin as [<- | Hin].
        -- destruct (Hleft s (or_introl Hnin)) as [_ Hmeta].
           rewrite Hmeta. apply select_after_replace.
        -- apply Hset; assumption.
    + specialize (IH st).
      destruct (load_series float_of remote clock rest st) as [[log st2] calls].
      simpl in IH. destruct IH as [Hcalls [Hlog [Hleft Hset]]]. simpl.
      split; [rewrite Hcalls; reflexivity |].
      split; [rewrite Hlog; reflexivity |].
      split.
      * intros sid Hsid. apply Hleft.
        destruct (String.eqb sid s) eqn:Heq.
        -- apply String.eqb_eq in Heq. subst sid. right. rewrite Hr. reflexivity.
        -- apply String.eqb_neq in Heq.
           destruct Hsid as [Hn | Hf]; [left | right; exact Hf].
           intro Hin. apply Hn. right. exact Hin.
      * intros Hnd sid Hin Hok. inversion Hnd as [| ? ? Hnin Hnd']; subst.
        destruct Hin as [<- | Hin].
        -- rewrite Hr in Hok. discriminate.
        -- apply Hset; assumption.
Qed.

(** X12: the initial load issues one fetch for each of the 40 series of
    the catalogue, in the order of the catalogue and each for the whole
    history, whatever the database holds and whichever fetches fail.  It
    reports success for a series exactly when its fetch succeeded; a
    series fetched with success has the instant of its write as
    [last_updated] when the load ends; the rows and the [last_updated]
    of a series whose fetch failed, and of a series outside of the
    catalogue, are as they were. *)
Theorem load_all_indicators_spec :
  forall float_of remote clock st,
    let r := load_all_indicators float_of remote clock st in
    snd r = map (fun sid => mkFetch sid None) all_series
    /\ List.length (snd r) = 40%nat
    /\ fst (fst r) = map (fun sid => (sid, succeeded (remote sid None))) all_series
    /\ (forall sid,
           In sid all_series -> succeeded (remote sid None) = true ->
           select_last_updated sid (api_metadata (snd (fst r))) = Some (clock sid))
    /\ (forall sid,
           ~ In sid all_series \/ succeeded (remote sid None) = false ->
           untouched sid st (snd (fst r))).
Proof.
  intros float_of remote clock st r. subst r. unfold load_all_indicators.
  destruct (load_series_spec float_of remote clock all_series st)
    as [Hcalls [Hlog [Hleft Hset]]].
  split; [exact Hcalls |].
  split; [rewrite Hcalls, length_map; reflexivity |].
  split; [exact Hlog |].
  split; [exact (Hset all_series_distinct) | exact Hleft].
Qed.

(* ------------------------------------------------------------------ *)
(** ** The health of a section *)

(** The handler of [calculate_yoy_change] lets no exception out. *)
Lemma calculate_yoy_change_returns :
  forall current_date current_value series_id format_type t,
    exists c,
      fst (calculate_yoy_change current_date current_value series_id
             format_type t) = Ret c.
Proof.
  intros current_date current_value series_id format_type t.
  unfold calculate_yoy_change, db_try.
  match goal with
  | |- context [match ?x with _ => _ end] => destruct x as [[a | e] l]
  end; simpl; eauto.
Qed.

(** An indicator with a short history is passed over; for any other one
    the body of the loop ends with an exception. *)
Lemma indicator_step_cases :
  forall clock t series_id config acc,
    (short_history (fst (clock series_id)) series_id t = true
     /\ indicator_step clock t series_id config acc = Done acc)
    \/ (short_history (fst (clock series_id)) series_id t = false
        /\ exists r, indicator_step clock t series_id config acc = Failed r).
Proof.
  intros clock t series_id config [health_scores section_data].
  unfold indicator_step, short_history.
  destruct (get_indicator_data (fst (clock series_id)) series_id (Some 1095) t)
    as [recent_data | e]; simpl; [| right; eauto].
  destruct (Z.of_nat (List.length recent_data) <? 12) eqn:Hlen;
    [left; split; reflexivity | right; split; [reflexivity |]].
  destruct (last (map Some recent_data) None) as [latest |]; [| eauto].
  destruct (calculate_yoy_change_returns (fst latest) (snd latest)
              (Some series_id) (cfg_format config) t) as [c ->]. simpl.
  destruct (get_indicator_data (snd (clock series_id)) series_id (Some 3650) t)
    as [ten_year_data | e]; simpl; [| eauto].
  destruct recent_data as [| p recent_data]; [discriminate Hlen |].
  simpl. eauto.
Qed.

Lemma scan_cases :
  forall clock t indicators acc,
    (all_short clock indicators t = true
     /\ scan clock t indicators acc = Done acc)
    \/ (all_short clock indicators t = false
        /\ exists r, scan clock t indicators acc = Failed r).
Proof.
  intros clock t indicators acc. unfold all_short.
  induction indicators as [| [series_id config] rest IH]; simpl.
  - left. split; reflexivity.
  - destruct (indicator_step_cases clock t series_id config acc)
      as [[Hs ->] | [Hs [r ->]]]; rewrite Hs; simpl.
    + exact IH.
    + right. eauto.
Qed.

(** X13: [analyze_section_health] never reaches a verdict.  The name
    [mean] is bound nowhere, so the first indicator with 12 points or
    more in the last three years ends the [try] block with an exception:
    the status returned is always [moderate], and the text is one of two
    fixed ones, the one on insufficient data when every indicator of the
    section has fewer than 12 points, the one on a temporary
    unavailability otherwise.  The paragraph of
    [generate_section_analysis] is never returned. *)
Theorem analyze_section_health_moderate :
  forall generate_section_analysis clock section_name indicators t,
    analyze_section_health generate_section_analysis clock section_name
      indicators t
    = (if all_short clock indicators t then insufficient_data
       else temporarily_unavailable section_name,
       "moderate").
Proof.
  intros generate_section_analysis clock section_name indicators t.
  unfold analyze_section_health.
  destruct (scan_cases clock t indicators ([], [])) as [[Hs ->] | [Hs [r ->]]];
    rewrite Hs; reflexivity.
Qed.

(** A section with a year of monthly points, and a section without data. *)
Example analyze_section_health_with_data :
  analyze_section_health sample_analysis sample_clock "LABOR MARKET"
    [("UNRATE", mkConfig "Unemployment Rate" "" "percent" "percentage")]
    twelve_points
  = ("Analysis temporarily unavailable for LABOR MARKET due to data processing issues. Please try refreshing the page.",
     "moderate")
  /\ analyze_section_health sample_analysis sample_clock "LABOR MARKET"
       [("UNRATE", mkConfig "Unemployment Rate" "" "percent" "percentage")]
       []
     = ("Insufficient data available for comprehensive analysis of this economic section.",
        "moderate").
Proof. split; vm_compute; reflexivity. Qed.

(* ------------------------------------------------------------------ *)
(** ** Recent updates *)

Lemma key_leb_spec : forall a b, key_leb a b = true <-> key_le a b.
Proof.
  intros a b. unfold key_leb, key_le.
  rewrite orb_true_iff, andb_true_iff, orb_true_iff, negb_true_iff.
  rewrite Z.ltb_lt, Z.eqb_eq. tauto.
Qed.

Lemma key_le_total : forall a b, key_leb a b = false -> key_le b a.
Proof.
  intros a b H.
  assert (Hn : ~ key_le a b).
  { intro Hk. apply key_leb_spec in Hk. congruence. }
  unfold key_le in *.
  destruct (is_priority a), (is_priority b);
    destruct (Z.lt_total (days_ago a) (days_ago b)) as [Hlt | [Heq | Hgt]];
    try (exfalso; apply Hn; tauto); try tauto; try (left; lia);
    try (right; split; [lia | tauto]).
Qed.

Lemma key_le_trans : forall a b c, key_le a b -> key_le b c -> key_le a c.
Proof.
  intros a b c. unfold key_le.
  destruct (is_priority a), (is_priority b), (is_priority c);
    intros [H1 | [H1 H1']] [H2 | [H2 H2']];
    try (left; lia); try (right; split; [lia | tauto]);
    try (destruct H1'; discriminate); try (destruct H2'; discriminate).
Qed.

Lemma insert_update_perm :
  forall u l, Permutation (u :: l) (insert_update u l).
Proof.
  intros u l. induction l as [| x l IH]; simpl.
  - apply Permutation_refl.
  - destruct (key_leb x u).
    + apply perm_trans with (x :: u :: l); [apply perm_swap | apply perm_skip; exact IH].
    + apply Permutation_refl.
Qed.

Lemma insert_update_sorted :
  forall u l, StronglySorted key_le l -> StronglySorted key_le (insert_update u l).
Proof.
  intros u l Hs. induction Hs as [| x l Hs IH Hall]; simpl.
  - constructor; constructor.
  - destruct (key_leb x u) eqn:Hle.
    + constructor; [exact IH |].
      apply Forall_forall. intros y Hy.
      apply (Permutation_in _ (Permutation_sym (insert_update_perm u l))) in Hy.
      destruct Hy as [<- | Hy]; [apply key_leb_spec; exact Hle |].
      rewrite Forall_forall in Hall. apply Hall. exact Hy.
    + apply key_le_total in Hle.
      constructor; [constructor; assumption |].
      constructor; [exact Hle |].
      rewrite Forall_forall in *. intros y Hy.
      apply (key_le_trans _ x); [exact Hle | apply Hall; exact Hy].
Qed.

Lemma sort_updates_fold :
  forall l acc,
    StronglySorted key_le acc ->
    StronglySorted key_le (fold_left (fun a u => insert_update u a) l acc)
    /\ Permutation (acc ++ l) (fold_left (fun a u => insert_update u a) l acc).
Proof.
  induction l as [| u l IH]; intros acc Hs; simpl.
  - rewrite app_nil_r. split; [exact Hs | apply Permutation_refl].
  - destruct (IH (insert_update u acc) (insert_update_sorted u acc Hs)) as [H1 H2].
    split; [exact H1 |].
    apply perm_trans with (insert_update u acc ++ l); [| exact H2].
    apply perm_trans with ((u :: acc) ++ l).
    + apply Permutation_sym. apply Permutation_middle.
    + apply Permutation_app_tail. apply insert_update_perm.
Qed.

Lemma sort_updates_spec :
  forall l,
    StronglySorted key_le (sort_updates l) /\ Permutation l (sort_updates l).
Proof.
  intro l. unfold sort_updates.
  exact (sort_updates_fold l [] (SSorted_nil _)).
Qed.

(** A slice from the start is a prefix. *)
Lemma slice_to_prefix :
  forall (A : Type) (n : Z) (l : list A), exists rest, l = slice_to n l ++ rest.
Proof.
  intros A n l. unfold slice_to.
  destruct (0 <=? n); eexists; symmetry; apply firstn_skipn.
Qed.

Lemma sorted_prefix :
  forall (l1 l2 : list Update),
    StronglySorted key_le (l1 ++ l2) ->
    StronglySorted key_le l1
    /\ (forall u v, In u l1 -> In v l2 -> key_le u v).
Proof.
  induction l1 as [| x l1 IH]; intros l2 Hs; simpl in *.
  - split; [constructor | intros u v []].
  - inversion Hs as [| ? ? Hs' Hall]; subst.
    destruct (IH l2 Hs') as [H1 H2]. split.
    + constructor; [exact H1 |].
      rewrite Forall_forall in *. intros y Hy. apply Hall.
      apply in_or_app. left. exact Hy.
    + intros u v [<- | Hu] Hv.
      * rewrite Forall_forall in Hall. apply Hall. apply in_or_app. right. exact Hv.
      * apply H2; assumption.
Qed.

(** What the statements for one series have checked when they end with
    an entry. *)
Lemma series_update_some :
  forall float_of remote now series_id cfg u,
    series_update float_of remote now series_id cfg = Ret (Some u) ->
    exists observations metadata latest current_value target,
      remote series_id None = FredSuccess observations metadata
      /\ last (map Some (valid_observations observations)) None = Some latest
      /\ float_of (obs_value latest) = Some current_value
      /\ valid (obs_date latest) = true
      /\ replace_year (obs_date latest) (year (obs_date latest) - 1) = Ret target
      /\ u_series_id u = series_id
      /\ config u = cfg
      /\ data_date u = obs_date latest
      /\ last_updated_date u = obs_date latest
      /\ days_ago u = day_of now - toordinal (obs_date latest)
      /\ days_ago u <= 90
      /\ is_priority u = is_in series_id priority_indicators
      /\ latest_value u
         = format_value (Some current_value) (cfg_format cfg) (Some (cfg_unit cfg)).
Proof.
  intros float_of remote now series_id cfg u. unfold series_update.
  destruct (remote series_id None) as [observations metadata | error];
    [| discriminate].
  destruct observations as [| o observations']; [discriminate |].
  set (observations := o :: observations').
  destruct (Z.of_nat (List.length (valid_observations observations)) <? 2);
    [discriminate |].
  destruct (last (map Some (valid_observations observations)) None)
    as [latest |] eqn:Hlast; [| discriminate].
  destruct (float_of (obs_value latest)) as [current_value |] eqn:Hfloat;
    [| discriminate].
  unfold strptime at 1.
  destruct (valid (obs_date latest)) eqn:Hvalid; simpl; [| discriminate].
  destruct (90 <? day_of now - toordinal (obs_date latest)) eqn:H90;
    [discriminate |].
  destruct (replace_year (obs_date latest) (year (obs_date latest) - 1))
    as [target |] eqn:Hreplace; simpl; [| discriminate].
  repeat match goal with
         | |- context [py_bind ?m _] => destruct m; simpl; [| discriminate]
         end.
  intro H. inversion H; subst u. simpl.
  exists observations, metadata, latest, current_value, target.
  apply Z.ltb_ge in H90. repeat split; try reflexivity; assumption.
Qed.

Lemma collect_updates_In :
  forall float_of remote clock indicators u,
    In u (collect_updates float_of remote clock indicators) ->
    exists series_id cfg,
      In (series_id, cfg) indicators
      /\ series_update float_of remote (clock series_id) series_id cfg
         = Ret (Some u).
Proof.
  intros float_of remote clock indicators u.
  induction indicators as [| [series_id cfg] rest IH]; simpl; [intros [] |].
  destruct (series_update float_of remote (clock series_id) series_id cfg)
    as [[u0 |] | e] eqn:Hs; intro Hin.
  - destruct Hin as [<- | Hin].
    + exists series_id, cfg. split; [left; reflexivity | exact Hs].
    + destruct (IH Hin) as [s [c [H1 H2]]]. exists s, c. split; [right |]; assumption.
  - destruct (IH Hin) as [s [c [H1 H2]]]. exists s, c. split; [right |]; assumption.
  - destruct (IH Hin) as [s [c [H1 H2]]]. exists s, c. split; [right |]; assumption.
Qed.

Lemma collect_updates_NoDup :
  forall float_of remote clock indicators,
    NoDup (map fst indicators) ->
    NoDup (map u_series_id (collect_updates float_of remote clock indicators)).
Proof.
  intros float_of remote clock indicators.
  induction indicators as [| [series_id cfg] rest IH]; simpl; intro Hnd.
  - constructor.
  - inversion Hnd as [| ? ? Hnin Hnd']; subst.
    destruct (series_update float_of remote (clock series_id) series_id cfg)
      as [[u0 |] | e] eqn:Hs; try (apply IH; exact Hnd').
    simpl. constructor; [| apply IH; exact Hnd'].
    intro Hin. apply Hnin. apply in_map_iff in Hin. destruct Hin as [v [Hv Hin]].
    apply collect_updates_In in Hin. destruct Hin as [s [c [H1 H2]]].
    apply series_update_some in Hs. apply series_update_some in H2.
    destruct Hs as [? [? [? [? [? [_ [_ [_ [_ [_ [Hu0 _]]]]]]]]]]].
    destruct H2 as [? [? [? [? [? [_ [_ [_ [_ [_ [Hv' _]]]]]]]]]]].
    apply in_map_iff. exists (s, c). split; [simpl; congruence | exact H1].
Qed.

(** No exception leaves the statements of the outer [try] block. *)
Lemma get_recent_updates_eq :
  forall float_of remote clock max_indicators,
    get_recent_updates float_of remote clock max_indicators
    = slice_to max_indicators (sort_updates (collected float_of remote clock)).
Proof. reflexivity. Qed.

(** The list returned is a prefix of the sorted list of the entries
    collected. *)
Lemma get_recent_updates_prefix :
  forall float_of remote clock max_indicators,
    exists rest,
      sort_updates (collected float_of remote clock)
      = get_recent_updates float_of remote clock max_indicators ++ rest.
Proof.
  intros float_of remote clock max_indicators.
  rewrite get_recent_updates_eq. apply slice_to_prefix.
Qed.

Lemma get_recent_updates_collected :
  forall float_of remote clock max_indicators u,
    In u (get_recent_updates float_of remote clock max_indicators) ->
    In u (collected float_of remote clock).
Proof.
  intros float_of remote clock max_indicators u Hin.
  destruct (get_recent_updates_prefix float_of remote clock max_indicators)
    as [rest Hrest].
  destruct (sort_updates_spec (collected float_of remote clock)) as [_ Hp].
  apply (Permutation_in _ (Permutation_sym Hp)).
  rewrite Hrest. apply in_or_app. left. exact Hin.
Qed.

(** X14: what the list of recent updates holds.  No series has two
    entries; every entry belongs to a series of the catalogue, with its
    configuration and its priority flag; its dates and its value are
    those of the last observation with a value that a successful fetch
    of the series returned, and that observation is at most 90 days
    older than the clock. *)
Theorem recent_updates_content :
  forall float_of remote clock max_indicators,
    let result := get_recent_updates float_of remote clock max_indicators in
    NoDup (map u_series_id result)
    /\ Forall (fun u =>
                 In (u_series_id u, config u) all_indicators
                 /\ is_priority u = is_in (u_series_id u) priority_indicators
                 /\ days_ago u <= 90
                 /\ describes float_of remote clock u)
         result.
Proof.
  intros float_of remote clock max_indicators result. split.
  - destruct (get_recent_updates_prefix float_of remote clock max_indicators)
      as [rest Hrest]. fold result in Hrest.
    assert (Hnd : NoDup (map u_series_id (sort_updates (collected float_of remote clock)))).
    { apply (Permutation_NoDup
               (l := map u_series_id (collected float_of remote clock))).
      - apply Permutation_map. apply sort_updates_spec.
      - apply collect_updates_NoDup. exact all_series_distinct. }
    rewrite Hrest, map_app in Hnd. apply NoDup_app_remove_r in Hnd. exact Hnd.
  - apply Forall_forall. intros u Hin.
    apply get_recent_updates_collected in Hin.
    apply collect_updates_In in Hin. destruct Hin as [s [c [Hcat Hs]]].
    apply series_update_some in Hs.
    destruct Hs as [obs [meta [latest [v [target
      [Hr [Hl [Hf [_ [_ [Hid [Hcfg [Hd [Hlu [Hdays [H90 [Hp Hv]]]]]]]]]]]]]]]]].
    subst s c. repeat split; try assumption.
    exists obs, meta, latest, v. repeat split; assumption.
Qed.

(** X15: the order and the choice of the recent updates.  The list
    comes in ascending order of [days_ago], an entry of a priority
    series before the others of the same [days_ago]; for a limit that is
    not negative it holds as many entries as were collected, up to the
    limit; and every entry collected but left out comes no earlier in
    that order than every entry returned. *)
Theorem recent_updates_order :
  forall float_of remote clock max_indicators,
    let result := get_recent_updates float_of remote clock max_indicators in
    StronglySorted key_le result
    /\ (0 <= max_indicators ->
        Z.of_nat (List.length result)
        = Z.min max_indicators
            (Z.of_nat (List.length (collected float_of remote clock))))
    /\ (forall u v,
           In u result -> In v (collected float_of remote clock) ->
           ~ In v result -> key_le u v).
Proof.
  intros float_of remote clock max_indicators result.
  destruct (get_recent_updates_prefix float_of remote clock max_indicators)
    as [rest Hrest]. fold result in Hrest.
  destruct (sort_updates_spec (collected float_of remote clock)) as [Hs Hp].
  rewrite Hrest in Hs. destruct (sorted_prefix result rest Hs) as [Hsorted Hout].
  split; [exact Hsorted |]. split.
  - intro Hmax. subst result.
    rewrite get_recent_updates_eq. unfold slice_to.
    assert (H : (0 <=? max_indicators) = true) by (apply Z.leb_le; exact Hmax).
    rewrite H. rewrite length_firstn.
    rewrite <- (Permutation_length Hp). lia.
  - intros u v Hu Hv Hnot. apply Hout; [exact Hu |].
    apply (Permutation_in _ Hp) in Hv. rewrite Hrest in Hv.
    apply in_app_or in Hv. destruct Hv as [Hv | Hv]; [contradiction | exact Hv].
Qed.

(** X16: a series whose last observation with a value is dated 29
    February has no entry among the recent updates, however recent that
    observation is: the date one year earlier does not exist, the
    replacement of the year raises and the series is passed over. *)
Theorem recent_updates_skip_leap_day :
  forall float_of remote clock max_indicators series_id observations metadata
         latest,
    remote series_id None = FredSuccess observations metadata ->
    last (map Some (valid_observations observations)) None = Some latest ->
    month (obs_date latest) = 2 ->
    day (obs_date latest) = 29 ->
    is_in series_id
      (map u_series_id (get_recent_updates float_of remote clock max_indicators))
    = false.
Proof.
  intros float_of remote clock max_indicators series_id observations metadata
         latest Hr Hlast Hm Hd.
  destruct (is_in series_id
              (map u_series_id
                 (get_recent_updates float_of remote clock max_indicators)))
    eqn:Hin; [| reflexivity].
  exfalso. unfold is_in in Hin. apply existsb_exists in Hin.
  destruct Hin as [s [Hin Heq]]. apply String.eqb_eq in Heq. subst s.
  apply in_map_iff in Hin. destruct Hin as [u [Hid Hin]].
  apply get_recent_updates_collected in Hin.
  apply collect_updates_In in Hin. destruct Hin as [s [c [_ Hs]]].
  apply series_update_some in Hs.
  destruct Hs as [obs' [meta' [latest' [v [target
    [Hr' [Hl' [_ [Hvalid [Hreplace [Hid' _]]]]]]]]]]].
  assert (Hsame : s = series_id) by congruence.
  rewrite Hsame, Hr in Hr'. inversion Hr'; subst obs' meta'.
  rewrite Hlast in Hl'. inversion Hl'; subst latest'.
  rewrite (replace_year_leap_day (obs_date latest) Hvalid Hm Hd) in Hreplace.
  discriminate.
Qed.

Lemma recent_updates_skip_leap_day_witness :
  is_in "UNRATE"
    (map u_series_id (get_recent_updates sample_float_of leap_remote leap_clock 10))
  = false.
Proof.
  eapply (recent_updates_skip_leap_day sample_float_of leap_remote leap_clock 10
            "UNRATE" _ _ (mkObs (mkDate 2024 2 29) "4.0")); reflexivity.
Defined.

(** With that provider the one entry is the one of GDPC1, 74 days old. *)
Example recent_updates_example :
  map (fun u => (u_series_id u, days_ago u, latest_value u, Recent.yoy_change u,
                 Recent.qoq_change u, is_priority u))
    (get_recent_updates sample_float_of leap_remote leap_clock 10)
  = [("GDPC1", 74, "$4.0B", "0.00%", "0.00%", true)].
Proof. vm_compute. reflexivity. Qed.

(* ------------------------------------------------------------------ *)
(** ** The route of the recent updates *)

(** X17: the reply of [/api/recent-updates] labels as cached a list that
    the request itself has just computed.  On a cache miss, when the
    recomputation gives a list that is not empty, the save succeeds
    (every stored snapshot is dated before the save and has a rowid
    below the largest one) and the snapshot can be read back, the second
    look at the cache finds the snapshot just saved: [is_cached] is true
    and [data_source] is [Cache], with the fresh list as [updates]. *)
Theorem recent_updates_api_labels_fresh_as_cached :
  forall (Update : Type) (dumps : list Update -> py string)
         (loads : string -> py (list Update))
         (analyze : list Update -> py string)
         (now now_saved now_checked now_sent : Z)
         (fresh_updates reloaded : list Update) (cache_json paragraph : string)
         (t : CacheTable),
    get_cached_recent_updates loads now t = None ->
    fresh_updates <> [] ->
    dumps fresh_updates = Ret cache_json ->
    loads cache_json = Ret reloaded ->
    analyze fresh_updates = Ret paragraph ->
    (forall s, In s t -> created_at s < now_saved /\ cache_id s < MAX_ROWID) ->
    now_checked - now_saved < hours 12 ->
    get_recent_updates_api dumps loads analyze now now_saved now_checked now_sent
      (Ret fresh_updates) t
    = (Ok (mkRecentPayload fresh_updates paragraph
             (Z.of_nat (List.length fresh_updates)) "Cache" true now_sent),
       save_recent_updates_cache dumps now_saved fresh_updates t).
Proof.
  intros Update dumps loads analyze now now_saved now_checked now_sent
         fresh_updates reloaded cache_json paragraph t
         Hmiss Hne Hdumps Hloads Hanalyze Hle Hage.
  unfold get_recent_updates_api, get_recent_updates_with_cache.
  rewrite Hmiss. cbn [get_recent_updates_from_fred].
  destruct fresh_updates as [| u l]; [contradiction Hne; reflexivity |].
  cbn [is_empty]. rewrite Hanalyze.
  assert (Hfirst : newest_first (save_recent_updates_cache dumps now_saved (u :: l) t)
                   = mkSnapshot (next_id (delete_old t)) cache_json now_saved
                     :: newest_first (delete_old t)).
  { unfold save_recent_updates_cache. rewrite Hdumps.
    apply newest_first_app_newest. simpl. intros s Hs.
    apply Hle. apply delete_old_incl. exact Hs. }
  unfold get_cached_recent_updates. rewrite Hfirst.
  cbn [created_at cache_data].
  assert (H : (now_checked - now_saved <? hours 12) = true)
    by (apply Z.ltb_lt; exact Hage).
  rewrite H, Hloads. reflexivity.
Qed.

Lemma recent_updates_api_labels_fresh_as_cached_witness :
  fst (get_recent_updates_api sample_dumps sample_loads sample_trends
         (hours 13) (hours 13) (hours 13) (hours 13) (Ret [7]) expired_snapshot)
  = Ok (mkRecentPayload [7] "trends" 1 "Cache" true (hours 13)).
Proof.
  rewrite (recent_updates_api_labels_fresh_as_cached Z sample_dumps sample_loads
             sample_trends (hours 13) (hours 13) (hours 13) (hours 13)
             [7] [7] "[7]" "trends" expired_snapshot).
  - reflexivity.
  - reflexivity.
  - discriminate.
  - reflexivity.
  - reflexivity.
  - reflexivity.
  - intros s [<- | []]. split; vm_compute; reflexivity.
  - vm_compute. reflexivity.
Defined.

(* ------------------------------------------------------------------ *)
(** ** The route of one indicator *)

Lemma find_config_outside :
  forall series_id,
    is_in series_id all_series = false -> find_config series_id = None.
Proof.
  intros series_id. unfold find_config, is_in, all_series.
  generalize all_indicators. intro l.
  induction l as [| [s c] l IH]; cbn [map existsb find fst snd]; intro H.
  - reflexivity.
  - apply orb_false_elim in H. destruct H as [H1 H2].
    rewrite String.eqb_sym, H1. apply IH. exact H2.
Qed.

(** A series without metadata is fetched from its first observation on. *)
Lemma update_first_time :
  forall float_of remote now now_stored series_id force_update st,
    select_last_updated series_id (api_metadata st) = None ->
    update_indicator_data float_of remote now now_stored series_id force_update st
    = match remote series_id None with
      | FredFailure _ => (false, st, [mkFetch series_id None])
      | FredSuccess observations metadata =>
          (true,
           mkDatabase
             (store_observations float_of series_id observations (indicator_data st))
             (replace_meta
                (mkMeta series_id now_stored (info_frequency metadata)
                   (info_units metadata) (info_title metadata))
                (api_metadata st)),
           [mkFetch series_id None])
      end.
Proof.
  intros float_of remote now now_stored series_id force_update st Hsel.
  unfold update_indicator_data. rewrite Hsel.
  destruct (remote series_id None); reflexivity.
Qed.

(** X18: the route of one indicator synchronises before it looks the
    series up.  For a series that is not in the catalogue the reply is
    never a payload: it is one of the two 404 replies or the 500 reply;
    yet the database left behind and the fetches issued are those of
    [update_indicator_data], so that a series never synchronised before
    is fetched for its whole history and, when the fetch succeeds, its
    observations and its metadata are stored. *)
Theorem indicator_api_uncatalogued :
  forall float_of remote clock series_id period st,
    is_in series_id all_series = false ->
    let r := get_indicator_api float_of remote clock series_id period st in
    let u := update_indicator_data float_of remote (sync_now clock)
               (sync_stored clock) series_id false st in
    snd (fst r) = snd (fst u)
    /\ snd r = snd u
    /\ (fst (fst r) = Status 404 "No data available"
        \/ fst (fst r) = Status 404 "Indicator not found"
        \/ fst (fst r) = Status 500 "Internal server error")
    /\ (forall observations metadata,
           select_last_updated series_id (api_metadata st) = None ->
           remote series_id None = FredSuccess observations metadata ->
           snd r = [mkFetch series_id None]
           /\ indicator_data (snd (fst r))
              = store_observations float_of series_id observations
                  (indicator_data st)
           /\ select_last_updated series_id (api_metadata (snd (fst r)))
              = Some (sync_stored clock)).
Proof.
  intros float_of remote clock series_id period st Hout r u.
  assert (Hr : snd (fst r) = snd (fst u) /\ snd r = snd u
               /\ (fst (fst r) = Status 404 "No data available"
                   \/ fst (fst r) = Status 404 "Indicator not found"
                   \/ fst (fst r) = Status 500 "Internal server error")).
  { subst r u. unfold get_indicator_api.
    destruct (update_indicator_data float_of remote (sync_now clock)
                (sync_stored clock) series_id false st) as [[ok st1] calls].
    cbn [fst snd].
    destruct (get_indicator_data (read_now clock) series_id
                (days_back_of clock (get_default period "1Y"))
                (indicator_data st1)) as [data | e];
      [| cbn [fst snd]; tauto].
    destruct (last (map Some data) None) as [latest |];
      [| cbn [fst snd]; tauto].
    rewrite (find_config_outside series_id Hout). cbn [fst snd]. tauto. }
  destruct Hr as [Hst [Hcalls Hreply]].
  split; [exact Hst |]. split; [exact Hcalls |]. split; [exact Hreply |].
  intros observations metadata Hsel Hremote.
  rewrite Hst, Hcalls. subst u.
  rewrite (update_first_time _ _ _ _ _ _ _ Hsel), Hremote. cbn [fst snd].
  split; [reflexivity |]. split; [reflexivity |].
  cbn [api_metadata]. apply select_after_replace.
Qed.

Lemma indicator_api_uncatalogued_witness :
  fst (fst (get_indicator_api sample_float_of sample_remote new_year_clock
              "SP500" (Some "1Y") (synced_at 0)))
  = Status 404 "Indicator not found"
  /\ indicator_data
       (snd (fst (get_indicator_api sample_float_of sample_remote new_year_clock
                    "SP500" (Some "1Y") (synced_at 0))))
     = [mkRow "SP500" (mkDate 2024 5 1) 4.0%float].
Proof.
  split; [vm_compute; reflexivity |].
  refine (proj1 (proj2 (proj2 (proj2 (proj2
            (indicator_api_uncatalogued sample_float_of sample_remote
               new_year_clock "SP500" (Some "1Y") (synced_at 0) _)))
            [mkObs (mkDate 2024 5 1) "4.0"]
            (mkInfo "Monthly" "Percent" "Unemployment Rate") _ _))).
  - vm_compute. reflexivity.
  - reflexivity.
  - reflexivity.
Defined.

Lemma format_points_plain :
  forall series_id cfg t data formatted,
    format_points series_id cfg t data = Ret formatted ->
    map (fun p => (point_date p, point_value p)) formatted = data.
Proof.
  intros series_id cfg t data. induction data as [| point rest IH];
    intros formatted H; simpl in H.
  - inversion H. reflexivity.
  - destruct (fst (calculate_yoy_change (fst point) (snd point) (Some series_id)
                     (cfg_format cfg) t)) as [yoy |]; simpl in H; [| discriminate].
    destruct (format_points series_id cfg t rest) as [formatted_rest |];
      simpl in H; [| discriminate].
    inversion H; subst formatted. simpl. rewrite (IH formatted_rest eq_refl).
    destruct point. reflexivity.
Qed.

(** X19: for the period [YTD] on a first of January the reply holds the
    whole history of the series, not the points of the new year: the
    number of days since the start of the year is 0, which
    [get_indicator_data] takes for an absent [days_back].  The same holds
    for [MAX] and for every period text that is not a key of the
    dictionary.  The points then come in the order of their dates. *)
Theorem indicator_api_whole_history :
  forall float_of remote clock series_id period st payload y,
    let r := get_indicator_api float_of remote clock series_id period st in
    fst (fst r) = Ok payload ->
    (period = Some "YTD" /\ ytd_now clock = mkDate y 1 1
     /\ year (ytd_year_now clock) = y)
    \/ days_back_of clock (get_default period "1Y") = None ->
    plain_points payload = whole_history series_id (snd (fst r)).
Proof.
  intros float_of remote clock series_id period st payload y r Hok Hperiod.
  assert (Hback : days_back_of clock (get_default period "1Y") = None
                  \/ days_back_of clock (get_default period "1Y") = Some 0).
  { destruct Hperiod as [[-> [Hnow Hyear]] | H]; [right | left; exact H].
    unfold days_back_of. cbn [get_default]. rewrite Hnow, Hyear.
    cbn [String.eqb Ascii.eqb Bool.eqb andb]. rewrite Z.sub_diag. reflexivity. }
  subst r. revert Hok. unfold get_indicator_api.
  destruct (update_indicator_data float_of remote (sync_now clock)
              (sync_stored clock) series_id false st) as [[ok st1] calls].
  cbn [fst snd].
  assert (Hdata : get_indicator_data (read_now clock) series_id
                    (days_back_of clock (get_default period "1Y"))
                    (indicator_data st1)
                  = Ret (whole_history series_id st1)).
  { destruct Hback as [-> | ->]; reflexivity. }
  rewrite Hdata.
  destruct (last (map Some (whole_history series_id st1)) None) as [latest |];
    [| discriminate].
  destruct (find_config series_id) as [cfg |]; [| discriminate].
  destruct (fst (calculate_period_change (whole_history series_id st1)
                   (cfg_format cfg) (get_default period "1Y") (Some series_id)
                   (indicator_data st1))) as [change |]; [| discriminate].
  destruct (format_points series_id cfg (indicator_data st1)
              (whole_history series_id st1)) as [formatted |] eqn:Hf;
    [| discriminate].
  cbn [fst snd]. intro H. inversion H; subst payload.
  unfold plain_points. cbn [payload_data].
  exact (format_points_plain _ _ _ _ _ Hf).
Qed.

Lemma indicator_api_whole_history_witness :
  map fst (whole_history "UNRATE" unrate_database)
  = [mkDate 2019 5 1; mkDate 2023 12 1]
  /\ exists payload,
       fst (fst (get_indicator_api sample_float_of sample_remote new_year_clock
                   "UNRATE" (Some "YTD") unrate_database)) = Ok payload
       /\ plain_points payload = whole_history "UNRATE" unrate_database.
Proof.
  split; [reflexivity |].
  eexists. split; [vm_compute; reflexivity |].
  refine (indicator_api_whole_history sample_float_of sample_remote
            new_year_clock "UNRATE" (Some "YTD") unrate_database _ 2024 _ _).
  - vm_compute. reflexivity.
  - left. repeat split.
Defined.

(* ------------------------------------------------------------------ *)
(** ** The order of the ISO texts and the order of the days *)

Lemma days_before_year_succ :
  forall y, 1 <= y ->
    days_before_year (y + 1)
    = days_before_year y + 365 + (if is_leap y then 1 else 0).
Proof.
  intros y Hy. unfold days_before_year, is_leap.
  replace (y + 1 - 1) with y by lia.
  pose proof (Z.div_mod y 4 ltac:(lia)).
  pose proof (Z.mod_pos_bound y 4 ltac:(lia)).
  pose proof (Z.div_mod y 100 ltac:(lia)).
  pose proof (Z.mod_pos_bound y 100 ltac:(lia)).
  pose proof (Z.div_mod y 400 ltac:(lia)).
  pose proof (Z.mod_pos_bound y 400 ltac:(lia)).
  pose proof (Z.div_mod (y - 1) 4 ltac:(lia)).
  pose proof (Z.mod_pos_bound (y - 1) 4 ltac:(lia)).
  pose proof (Z.div_mod (y - 1) 100 ltac:(lia)).
  pose proof (Z.mod_pos_bound (y - 1) 100 ltac:(lia)).
  pose proof (Z.div_mod (y - 1) 400 ltac:(lia)).
  pose proof (Z.mod_pos_bound (y - 1) 400 ltac:(lia)).
  destruct (y mod 4 =? 0) eqn:Hm4; destruct (y mod 100 =? 0) eqn:Hm100;
    destruct (y mod 400 =? 0) eqn:Hm400; simpl;
    repeat match goal with
           | H : (_ =? _) = true |- _ => apply Z.eqb_eq in H
           | H : (_ =? _) = false |- _ => apply Z.eqb_neq in H
           end; lia.
Qed.

Lemma days_before_year_mono :
  forall a b, 1 <= a -> a <= b -> days_before_year a <= days_before_year b.
Proof.
  intros a b Ha Hab. unfold days_before_year.
  pose proof (Z.div_mod (a - 1) 4 ltac:(lia)).
  pose proof (Z.mod_pos_bound (a - 1) 4 ltac:(lia)).
  pose proof (Z.div_mod (a - 1) 100 ltac:(lia)).
  pose proof (Z.mod_pos_bound (a - 1) 100 ltac:(lia)).
  pose proof (Z.div_mod (a - 1) 400 ltac:(lia)).
  pose proof (Z.mod_pos_bound (a - 1) 400 ltac:(lia)).
  pose proof (Z.div_mod (b - 1) 4 ltac:(lia)).
  pose proof (Z.mod_pos_bound (b - 1) 4 ltac:(lia)).
  pose proof (Z.div_mod (b - 1) 100 ltac:(lia)).
  pose proof (Z.mod_pos_bound (b - 1) 100 ltac:(lia)).
  pose proof (Z.div_mod (b - 1) 400 ltac:(lia)).
  pose proof (Z.mod_pos_bound (b - 1) 400 ltac:(lia)).
  lia.
Qed.

(** Within a year, a later month starts after the last day of an
    earlier one. *)
Lemma days_before_month_mono :
  forall y m m' d,
    1 <= m -> m < m' -> m' <= 12 -> d <= days_in_month y m ->
    days_before_month y m + d <= days_before_month y m'.
Proof.
  intros y m m' d Hm Hlt Hm' Hd.
  assert (Hc : 1 <= m <= 12) by lia. apply month_cases in Hc.
  assert (Hc' : 1 <= m' <= 12) by lia. apply month_cases in Hc'.
  unfold days_before_month, days_in_month in *.
  destruct (is_leap y);
    destruct Hc as [-> | [-> | [-> | [-> | [-> | [-> | [-> | [-> | [-> | [-> | [-> | ->]]]]]]]]]]];
    destruct Hc' as [-> | [-> | [-> | [-> | [-> | [-> | [-> | [-> | [-> | [-> | [-> | ->]]]]]]]]]]];
    cbn -[Z.add] in *; lia.
Qed.

(** The last day of a year. *)
Lemma toordinal_year_end :
  forall d,
    valid d = true ->
    toordinal d
    <= days_before_year (year d) + 365 + (if is_leap (year d) then 1 else 0).
Proof.
  intros d Hv. apply valid_fields in Hv.
  destruct d as [y m dd]. simpl in *. unfold toordinal. simpl.
  destruct Hv as [_ [Hm Hd]]. apply month_cases in Hm.
  unfold days_before_month, days_in_month in *.
  destruct (is_leap y);
    destruct Hm as [-> | [-> | [-> | [-> | [-> | [-> | [-> | [-> | [-> | [-> | [-> | ->]]]]]]]]]]];
    cbn -[Z.add] in *; lia.
Qed.

(** A date that comes earlier as a text names an earlier day. *)
Lemma toordinal_lt :
  forall a b,
    valid a = true -> valid b = true ->
    year a < year b
    \/ (year a = year b
        /\ (month a < month b \/ (month a = month b /\ day a < day b))) ->
    toordinal a < toordinal b.
Proof.
  intros a b Ha Hb Hlt.
  pose proof (toordinal_year_end a Ha) as Hend.
  pose proof (valid_fields a Ha) as [Hya [Hma Hda]].
  pose proof (valid_fields b Hb) as [Hyb [Hmb Hdb]].
  destruct Hlt as [Hy | [Hy [Hm | [Hm Hd]]]].
  - pose proof (days_before_year_succ (year a) ltac:(lia)) as Hsucc.
    pose proof (days_before_year_mono (year a + 1) (year b) ltac:(lia) ltac:(lia)).
    pose proof (days_before_month_bounds (year b) (month b)).
    unfold toordinal in *. lia.
  - pose proof (days_before_month_mono (year a) (month a) (month b) (day a)
                  ltac:(lia) Hm ltac:(lia) ltac:(lia)).
    unfold toordinal. rewrite <- Hy. lia.
  - unfold toordinal. rewrite <- Hy, <- Hm. lia.
Qed.

(** X20: the order of the ISO texts is the order of the days.  The
    queries compare and sort the column [date] as text ([ORDER BY date],
    [date >= ?], [BETWEEN]); for dates that exist, a date comes no later
    than another one as a text exactly when its day comes no later, and
    two dates name the same day only when they are the same date. *)
Theorem text_order_is_day_order :
  forall a b,
    valid a = true -> valid b = true ->
    (date_leb a b = true <-> toordinal a <= toordinal b)
    /\ (toordinal a = toordinal b -> a = b).
Proof.
  intros a b Ha Hb.
  assert (Hcases :
            (year a < year b
             \/ (year a = year b
                 /\ (month a < month b \/ (month a = month b /\ day a < day b))))
            \/ (year a = year b /\ month a = month b /\ day a = day b)
            \/ (year b < year a
                \/ (year b = year a
                    /\ (month b < month a
                        \/ (month b = month a /\ day b < day a))))) by lia.
  split.
  - rewrite date_leb_spec.
    destruct Hcases as [Hlt | [[Hy [Hm Hd]] | Hgt]].
    + pose proof (toordinal_lt a b Ha Hb Hlt). split; [lia | intros _; lia].
    + unfold toordinal. rewrite Hy, Hm, Hd. split; [lia | intros _; lia].
    + pose proof (toordinal_lt b a Hb Ha Hgt). split; [lia | lia].
  - intro Heq. destruct Hcases as [Hlt | [[Hy [Hm Hd]] | Hgt]].
    + pose proof (toordinal_lt a b Ha Hb Hlt). lia.
    + destruct a, b. simpl in *. congruence.
    + pose proof (toordinal_lt b a Hb Ha Hgt). lia.
Qed.

Lemma text_order_is_day_order_witness :
  (date_leb (mkDate 2024 2 29) (mkDate 2024 3 1) = true
   <-> toordinal (mkDate 2024 2 29) <= toordinal (mkDate 2024 3 1))
  /\ (toordinal (mkDate 2024 2 29) = toordinal (mkDate 2024 3 1)
      -> mkDate 2024 2 29 = mkDate 2024 3 1).
Proof.
  apply (text_order_is_day_order (mkDate 2024 2 29) (mkDate 2024 3 1));
    reflexivity.
Defined.

(* ------------------------------------------------------------------ *)
(** ** The changes of a recent update *)

(** The search loop, from any point of its run: [found] is within the
    tolerance and at distance [min_diff]. *)
Lemma nearest_observation_loop :
  forall target tolerance l min_diff found r,
    nearest_observation target tolerance min_diff found l = Ret r ->
    match found with
    | Some f => min_diff = Some (days_from target f)
                /\ days_from target f <= tolerance
    | None => min_diff = None
    end ->
    match r with
    | Some o =>
        (In o l \/ found = Some o)
        /\ days_from target o <= tolerance
        /\ (forall o', In o' l -> days_from target o <= days_from target o')
        /\ (forall f, found = Some f -> days_from target o <= days_from target f)
    | None => found = None /\ forall o', In o' l -> tolerance < days_from target o'
    end.
Proof.
  intros target tolerance l.
  induction l as [| obs l IH]; intros min_diff found r Hrun Hinv.
  - simpl in Hrun. inversion Hrun; subst r.
    destruct found as [f |].
    + destruct Hinv as [_ Hf]. repeat split.
      * right. reflexivity.
      * exact Hf.
      * intros o' [].
      * intros f0 H0. inversion H0. lia.
    + split; [reflexivity | intros o' []].
  - simpl in Hrun. unfold strptime in Hrun.
    destruct (valid (obs_date obs)); simpl in Hrun; [| discriminate].
    fold (days_from target obs) in Hrun.
    destruct ((match min_diff with
               | Some m => days_from target obs <? m
               | None => true
               end) && (days_from target obs <=? tolerance)) eqn:Hc.
    + apply andb_prop in Hc. destruct Hc as [Hcloser Htol].
      apply Z.leb_le in Htol.
      specialize (IH (Some (days_from target obs)) (Some obs) r Hrun
                    (conj eq_refl Htol)).
      assert (Hbeats : forall f, found = Some f ->
                                 days_from target obs < days_from target f).
      { intros f ->. destruct Hinv as [-> _]. apply Z.ltb_lt. exact Hcloser. }
      destruct r as [o |].
      * destruct IH as [Hin [Ho [Hmin Hf]]].
        pose proof (Hf obs eq_refl) as Hobs.
        repeat split.
        -- destruct Hin as [Hin | Hin]; [left; right; exact Hin |].
           inversion Hin. left. left. reflexivity.
        -- exact Ho.
        -- intros o' [<- | Ho']; [exact Hobs | apply Hmin; exact Ho'].
        -- intros f Hfound. pose proof (Hbeats f Hfound). lia.
      * destruct IH as [Hnone _]. discriminate.
    + specialize (IH min_diff found r Hrun Hinv).
      assert (Hfar : match found with
                     | Some f => days_from target f <= days_from target obs
                     | None => tolerance < days_from target obs
                     end).
      { apply andb_false_iff in Hc. destruct found as [f |].
        - destruct Hinv as [-> Hf]. destruct Hc as [Hc | Hc].
          + apply Z.ltb_ge in Hc. exact Hc.
          + apply Z.leb_gt in Hc. lia.
        - rewrite Hinv in Hc. destruct Hc as [Hc | Hc]; [discriminate |].
          apply Z.leb_gt in Hc. exact Hc. }
      destruct r as [o |].
      * destruct IH as [Hin [Ho [Hmin Hf]]]. repeat split.
        -- destruct Hin as [Hin | Hin]; [left; right; exact Hin | right; exact Hin].
        -- exact Ho.
        -- intros o' [<- | Ho']; [| apply Hmin; exact Ho'].
           destruct found as [f |]; [| lia].
           pose proof (Hf f eq_refl). lia.
        -- exact Hf.
      * destruct IH as [Hnone Hall]. split; [exact Hnone |].
        intros o' [<- | Ho']; [| apply Hall; exact Ho'].
        rewrite Hnone in Hfar. exact Hfar.
Qed.

Lemma nearest_observation_spec :
  forall target tolerance l r,
    nearest_observation target tolerance None None l = Ret r ->
    nearest_within target tolerance l r.
Proof.
  intros target tolerance l r Hrun.
  pose proof (nearest_observation_loop target tolerance l None None r Hrun eq_refl)
    as H.
  unfold nearest_within. destruct r as [o |].
  - destruct H as [[Hin | Hin] [Ho [Hmin _]]]; [| discriminate].
    repeat split; assumption.
  - destruct H as [_ H]. exact H.
Qed.

Lemma change_against_spec :
  forall float_of format_type current_value found c,
    change_against float_of format_type current_value found = Ret c ->
    c = change_of float_of format_type current_value found.
Proof.
  intros float_of format_type current_value found c.
  unfold change_against, change_of. destruct found as [o |].
  - destruct (float_of (obs_value o)); [| discriminate].
    intro H. inversion H. reflexivity.
  - intro H. inversion H. reflexivity.
Qed.

Lemma series_update_changes :
  forall float_of remote now series_id cfg u,
    series_update float_of remote now series_id cfg = Ret (Some u) ->
    changes_explained float_of remote u.
Proof.
  intros float_of remote now series_id cfg u. unfold series_update.
  destruct (remote series_id None) as [observations metadata | error] eqn:Hremote;
    [| discriminate].
  destruct observations as [| o observations']; [discriminate |].
  set (observations := o :: observations') in *.
  destruct (Z.of_nat (List.length (valid_observations observations)) <? 2);
    [discriminate |].
  destruct (last (map Some (valid_observations observations)) None)
    as [latest |] eqn:Hlast; [| discriminate].
  destruct (float_of (obs_value latest)) as [current_value |] eqn:Hfloat;
    [| discriminate].
  unfold strptime at 1.
  destruct (valid (obs_date latest)); simpl; [| discriminate].
  destruct (90 <? day_of now - toordinal (obs_date latest)); [discriminate |].
  unfold replace_year at 1.
  destruct (valid (mkDate (year (obs_date latest) - 1) (month (obs_date latest))
                     (day (obs_date latest)))); simpl; [| discriminate].
  match goal with
  | |- context [nearest_observation ?t 30 None None ?l] =>
      destruct (nearest_observation t 30 None None l) as [year_ago |] eqn:Hyear
  end; simpl; [| discriminate].
  destruct (change_against float_of (cfg_format cfg) current_value year_ago)
    as [yoy |] eqn:Hyoy; simpl; [| discriminate].
  unfold shift_days at 1.
  destruct ((1 <=? toordinal (obs_date latest) + -90)
            && (toordinal (obs_date latest) + -90 <=? MAXORDINAL)); simpl;
    [| discriminate].
  match goal with
  | |- context [nearest_observation ?t 15 None None ?l] =>
      destruct (nearest_observation t 15 None None l)
        as [quarter_ago |] eqn:Hquarter
  end; simpl; [| discriminate].
  destruct (change_against float_of (cfg_format cfg) current_value quarter_ago)
    as [qoq |] eqn:Hqoq; simpl; [| discriminate].
  intro H. inversion H; subst u. unfold changes_explained.
  cbn [u_series_id config yoy_change_raw qoq_change_raw Recent.yoy_change
       Recent.qoq_change].
  exists observations, metadata, latest, current_value, year_ago, quarter_ago.
  apply nearest_observation_spec in Hyear.
  apply nearest_observation_spec in Hquarter.
  apply change_against_spec in Hyoy. apply change_against_spec in Hqoq.
  replace (toordinal (obs_date latest) - 90)
    with (toordinal (obs_date latest) + -90) by lia.
  repeat split; assumption || reflexivity.
Qed.

(** X21: what the changes of a recent update are.  For every entry
    returned, [yoy_change_raw] is the change of the latest value against
    the observation nearest to the same day of the year before, provided
    one lies within 30 days of it, and [qoq_change_raw] the change
    against the observation nearest to the day 90 days earlier, provided
    one lies within 15 days of it, both searched among the observations
    of the fetch that have a value; a change is null when no observation
    is near enough.  The two texts are [format_change] of these
    numbers. *)
Theorem recent_updates_changes :
  forall float_of remote clock max_indicators,
    Forall (changes_explained float_of remote)
      (get_recent_updates float_of remote clock max_indicators).
Proof.
  intros float_of remote clock max_indicators.
  apply Forall_forall. intros u Hin.
  apply get_recent_updates_collected in Hin.
  apply collect_updates_In in Hin. destruct Hin as [s [c [_ Hs]]].
  exact (series_update_changes _ _ _ _ _ _ Hs).
Qed.

(* ------------------------------------------------------------------ *)
(** ** What the rate limiter does keep *)

(** X22: the decorator never holds a call back for longer than the
    period and never records more than [calls] times.  For a limit of at
    least one call and a clock that does not run backwards, [wrapper]
    always lets the call through, after a sleep of at most [period];
    the list it leaves ends with the reading of the clock, holds at most
    [calls] times, all of them less than [period] old, and is that
    reading alone after a sleep. *)
Theorem wrapper_keeps_window :
  forall (calls period now : Z) (calls_made : list Z),
    1 <= calls ->
    (forall c, In c calls_made -> c <= now) ->
    exists sleep_time left,
      wrapper calls period now calls_made = Some (sleep_time, left)
      /\ 0 <= sleep_time <= Z.max 0 period
      /\ (0 < sleep_time -> left = [now])
      /\ last left now = now
      /\ Z.of_nat (List.length left) <= calls
      /\ (forall c, In c left -> c = now \/ now - c < period).
Proof.
  intros calls period now calls_made Hcalls Hclock.
  unfold wrapper.
  set (live := filter (fun call_time => now - call_time <? period) calls_made).
  assert (Hlive : forall c, In c live -> c <= now /\ now - c < period).
  { intros c Hc. apply filter_In in Hc. destruct Hc as [Hin Hc].
    apply Z.ltb_lt in Hc. split; [apply Hclock; exact Hin | exact Hc]. }
  destruct (Z.of_nat (List.length live) >=? calls) eqn:Hfull.
  - destruct live as [| oldest rest] eqn:Hl.
    + simpl in Hfull. rewrite Z.geb_leb in Hfull. apply Z.leb_le in Hfull. lia.
    + destruct (Hlive oldest (or_introl eq_refl)) as [Hle Hlt].
      assert (Hs : (period - (now - oldest) >? 0) = true).
      { rewrite Z.gtb_ltb. apply Z.ltb_lt. lia. }
      rewrite Hs. exists (period - (now - oldest)), [now].
      split; [reflexivity |]. split; [lia |].
      split; [intros _; reflexivity |]. split; [reflexivity |].
      split; [simpl; lia |].
      intros c [<- | []]. left. reflexivity.
  - rewrite Z.geb_leb in Hfull. apply Z.leb_gt in Hfull.
    exists 0, (live ++ [now]).
    split; [reflexivity |]. split; [lia |].
    split; [lia |]. split; [apply last_last |].
    split; [rewrite length_app; simpl; lia |].
    intros c Hc. apply in_app_or in Hc. destruct Hc as [Hc | [<- | []]].
    + right. apply Hlive. exact Hc.
    + left. reflexivity.
Qed.

Lemma wrapper_keeps_window_witness :
  exists sleep_time left,
    wrapper 120 (seconds 60) (seconds 30) (repeat 0 120%nat)
    = Some (sleep_time, left)
    /\ 0 <= sleep_time <= Z.max 0 (seconds 60)
    /\ (0 < sleep_time -> left = [seconds 30])
    /\ last left (seconds 30) = seconds 30
    /\ Z.of_nat (List.length left) <= 120
    /\ (forall c, In c left -> c = seconds 30 \/ seconds 30 - c < seconds 60).
Proof.
  apply (wrapper_keeps_window 120 (seconds 60) (seconds 30) (repeat 0 120%nat)).
  - lia.
  - intros c Hc. apply repeat_spec in Hc. subst c. vm_compute. discriminate.
Defined.
